(** * The flow run engine of [prefect/new_flow_engine.py]

    A shallow embedding of [FlowRunEngine] and of the two drivers
    [run_flow] / [run_flow_sync], with the properties the specification
    states about them.

    The engine is an object that is mutated by its own methods, talks to a
    remote orchestration service through a client, reads an ambient
    "current run context" and runs user code.  All of this is written in a
    state-and-exception monad over a [Machine]: the engine object, the state
    of everything outside the process (the "world": server and user code),
    the stack of entered run contexts, and a chronological trace of the
    externally visible actions.  The two [while] loops of the drivers may
    not terminate, so they take fuel. *)

From Stdlib Require Import String List Bool Arith ZArith NArith Lia.
Import ListNotations.
Local Open Scope string_scope.
Local Open Scope list_scope.

Set Implicit Arguments.
Set Maximal Implicit Insertion.

(* ================================================================== *)
(** * Data model *)
(* ================================================================== *)

(** Python exceptions.  Only instances of [Exception] are modelled (the
    drivers' handlers are [except Exception]); the class matters for
    [except TypeError] in [create_flow_run]. *)
Inductive ExcClass : Type :=
| TypeError
| RuntimeError
| AttributeError
| ConnectionError
| KeyError
| ValueError
| FailedRunError
| OtherError (name : string).

Inductive Exn : Type :=
| Exc (cls : ExcClass) (msg : string)
| ExcFrom (cls : ExcClass) (msg : string) (cause : Exn).

Definition exc_class (e : Exn) : ExcClass :=
  match e with Exc c _ | ExcFrom c _ _ => c end.

Definition exc_cause (e : Exn) : option Exn :=
  match e with Exc _ _ => None | ExcFrom _ _ c => Some c end.

Definition is_TypeError (e : Exn) : bool :=
  match exc_class e with TypeError => true | _ => false end.

(** Values handled by user code ([Any]); parameters are a [Dict[str, Any]],
    kept in insertion order. *)
Inductive Value : Type :=
| VNone
| VBool (b : bool)
| VInt (z : Z)
| VStr (s : string).

Definition Params := list (string * Value).

Definition UUID := N.

(** Opaque handles of collaborators. *)
Definition PrefectClient := N.

Inductive ResultFactory : Type :=
| ResultFactoryOf (flow_name : string).

Inductive TaskRunner : Type :=
| ConcurrentTaskRunner
| SequentialTaskRunner.

Inductive AsyncLibrary : Type := asyncio | trio.

(** [anyio.create_task_group()] gives the task group of the detected
    backend; [anyio._backends._asyncio.TaskGroup()] is the asyncio one. *)
Inductive TaskGroup : Type :=
| BackendTaskGroup (lib : AsyncLibrary).

(** Modelled from the spec: the [State] class
    ([prefect.server.schemas.states]) is not among the sources.  The spec
    gives it a type drawn from PENDING, RUNNING, COMPLETED, FAILED, CRASHED,
    RETRYING, a name and an optional result-or-error payload; the message
    is the one [exception_to_failed_state] receives.  Timestamps are not
    read by the engine and are left out. *)
Inductive StateType : Type :=
| PENDING | RUNNING | COMPLETED | FAILED | CRASHED | RETRYING.

Inductive Payload : Type :=
| PValue (v : Value)
| PError (e : Exn) (policy : option ResultFactory).

Record State : Type := mkState {
  state_type : StateType;
  state_name : string;
  state_message : option string;
  state_data : option Payload
}.

(** Modelled from the spec: the state constructors of [prefect.states]. *)
Definition Pending : State := mkState PENDING "Pending" None None.
Definition Running : State := mkState RUNNING "Running" None None.
Definition Completed : State := mkState COMPLETED "Completed" None None.

(** Modelled from the spec: [State.is_pending] and [State.is_running] are
    "pure predicates over the Run Record's current state type"; the driver
    loop "re-checks is_running() - a RETRYING outcome re-enters the RUNNING
    branch; a terminal outcome exits the loop". *)
Definition State_is_pending (s : State) : bool :=
  match state_type s with PENDING => true | _ => false end.

Definition State_is_running (s : State) : bool :=
  match state_type s with RUNNING | RETRYING => true | _ => false end.

(** Modelled from the spec: [exception_to_failed_state] "maps an arbitrary
    raised error into a FAILED state carrying a serialized representation
    of the error (using the active or supplied result-handling policy)". *)
Definition exception_to_failed_state
    (exc : Exn) (message : string) (result_factory : option ResultFactory)
  : State :=
  mkState FAILED "Failed" (Some message) (Some (PError exc result_factory)).

(** What a driver hands back: [R | State | None]. *)
Inductive Returned : Type :=
| RValue (v : Value)
| RState (s : State)
| RException (e : Exn)
| RNone.

(** Modelled from the spec: [State.result(raise_on_failure)].  On a failed
    run "result-resolution re-raises an error wrapping the original"; the
    policy is "raise vs return-as-value".  Other states give their payload,
    [None] when there is none. *)
Definition State_result (s : State) (raise_on_failure : bool)
  : Exn + Returned :=
  match state_type s, state_data s with
  | (FAILED | CRASHED), Some (PError e _) =>
      if raise_on_failure
      then inl (ExcFrom FailedRunError
                        (match state_message s with
                         | Some m => m
                         | None => ""
                         end)
                        e)
      else inr (RException e)
  | _, Some (PValue v) => inr (RValue v)
  | _, _ => inr RNone
  end.

(** Run records as the client returns them ([FlowRun], [TaskRun]). *)
Record FlowRun : Type := mkFlowRun {
  fr_id : UUID;
  fr_name : option string;
  fr_parameters : Params;
  fr_state : State;
  fr_state_name : string;
  fr_state_type : StateType;
  fr_parent_task_run_id : option UUID
}.

Record TaskRun : Type := mkTaskRun {
  tr_id : UUID;
  tr_flow_run_id : option UUID;
  tr_dynamic_key : string;
  tr_state : State
}.

Inductive ReturnType : Type := state_ | result_.

(** Results of running a computation: a value, a raised exception, or a
    loop that did not finish within the fuel it was given. *)
Inductive Outcome (A : Type) : Type :=
| Return (a : A)
| Raise (e : Exn)
| OutOfFuel.

Arguments Raise {A} e.
Arguments OutOfFuel {A}.

Section Engine.

(** The state of everything outside the engine: the orchestration server
    and whatever the user's callable reads and writes. *)
Variable W : Type.

(** The work definition ([Flow]): the fields and methods the engine uses.
    [flow_fn] is what a driver's own call expression does with the
    callable: [await flow.fn(...)] in [run_flow], [flow.fn(...)] in
    [run_flow_sync].  For a coroutine function that is awaited and for a
    plain function that is called, this is the callable's body; a plain
    function under [run_flow] is [plain_def_under_run_flow] below. *)
Record Flow : Type := mkFlow {
  flow_name : string;
  flow_version : option string;
  flow_fn : Params -> W -> (Exn + Value) * W;
  should_validate_parameters : bool;
  validate_parameters : Params -> Exn + Params;
  serialize_parameters : Params -> Params;
  flow_log_prints : option bool;
  flow_task_runner : TaskRunner
}.

Record Task : Type := mkTask {
  task_name : string;
  task_fn : Params -> W -> (Exn + Value) * W;
  task_version : option string
}.

(** [FlowRunContext].  [ctx_flow_run] is the run record of the engine that
    entered the context; a nested engine reads only its [id] through the
    context, which no transition changes. *)
Record FlowRunContext : Type := mkFlowRunContext {
  ctx_flow : Flow;
  ctx_log_prints : bool;
  ctx_flow_run : option FlowRun;
  ctx_parameters : Params;
  ctx_client : PrefectClient;
  ctx_background_tasks : TaskGroup;
  ctx_result_factory : ResultFactory;
  ctx_task_runner : TaskRunner
}.

(** Arguments of [client.create_task_run] and [client.create_flow_run]. *)
Record TaskRunCreate : Type := mkTaskRunCreate {
  trc_task : Task;
  trc_flow_run_id : option UUID;
  trc_dynamic_key : string;
  trc_task_inputs : list (string * list UUID);
  trc_state : State
}.

Record FlowRunCreate : Type := mkFlowRunCreate {
  frc_flow : Flow;
  frc_name : option string;
  frc_parameters : Params;
  frc_state : State;
  frc_parent_task_run_id : option UUID
}.

(** The collaborators, at their boundary.  None of them is among the
    sources; each is a parameter.  Calls that reach the server or user code
    thread the world and may raise. *)
Record Env : Type := mkEnv {
  get_client : W -> (Exn + PrefectClient) * W;
  client_create_task_run :
    PrefectClient -> TaskRunCreate -> W -> (Exn + TaskRun) * W;
  client_create_flow_run :
    PrefectClient -> FlowRunCreate -> W -> (Exn + FlowRun) * W;
  propose_state :
    PrefectClient -> State -> UUID -> W -> (Exn + State) * W;
  _resolve_custom_flow_run_name : Flow -> Params -> Exn + string;
  collect_task_run_inputs : Value -> list UUID;
  _dynamic_key_for_task_run : FlowRunContext -> Task -> string;
  ResultFactory_from_flow : Flow -> ResultFactory
}.

(** Externally visible actions, in the order they happen. *)
Inductive Event : Type :=
| EvClientEnter (c : PrefectClient)
| EvClientExit (c : PrefectClient) (exc : option Exn)
| EvCreateTaskRun (req : TaskRunCreate)
| EvCreateFlowRun (req : FlowRunCreate)
| EvProposeState (flow_run_id : UUID) (s : State)
| EvContextEnter (c : FlowRunContext)
| EvContextExit
| EvSleep (seconds : nat)
| EvCallFn (kwargs : Params).

(** The [FlowRunEngine] dataclass. *)
Record FlowRunEngine : Type := mkEngine {
  flow : Flow;
  parameters : Params;
  flow_run : option FlowRun;
  _is_started : bool;
  _client : option PrefectClient;
  short_circuit : bool
}.

Record Machine : Type := mkMachine {
  self : FlowRunEngine;
  world : W;
  contexts : list FlowRunContext;
  trace : list Event
}.

(* ================================================================== *)
(** * The monad of engine code *)
(* ================================================================== *)

Definition M (A : Type) : Type := Machine -> Outcome A * Machine.

Definition ret {A} (a : A) : M A := fun m => (Return a, m).

Definition bind {A B} (c : M A) (k : A -> M B) : M B :=
  fun m =>
    match c m with
    | (Return a, m') => k a m'
    | (Raise e, m') => (Raise e, m')
    | (OutOfFuel, m') => (OutOfFuel, m')
    end.

Definition raise {A} (e : Exn) : M A := fun m => (Raise e, m).

Definition out_of_fuel {A} : M A := fun m => (OutOfFuel, m).

Notation "x <- c ;; k" := (bind c (fun x => k))
  (at level 61, c at next level, right associativity).
Notation "c ;; k" := (bind c (fun _ => k))
  (at level 61, right associativity).

(** [try: c  except Exception as exc: h exc]. *)
Definition try_except {A} (c : M A) (h : Exn -> M A) : M A :=
  fun m =>
    match c m with
    | (Raise e, m') => h e m'
    | r => r
    end.

(** [try: c  finally: cleanup]; a computation that never finishes never
    reaches its cleanup. *)
Definition try_finally {A} (c : M A) (cleanup : M unit) : M A :=
  fun m =>
    match c m with
    | (Return a, m') => (cleanup ;; ret a) m'
    | (Raise e, m') => (cleanup ;; raise e) m'
    | (OutOfFuel, m') => (OutOfFuel, m')
    end.

Definition lift {A} (r : Exn + A) : M A :=
  match r with inl e => raise e | inr a => ret a end.

Definition get_self : M FlowRunEngine := fun m => (Return (self m), m).

Definition set_self (e : FlowRunEngine) : M unit :=
  fun m => (Return tt, mkMachine e (world m) (contexts m) (trace m)).

Definition log (ev : Event) : M unit :=
  fun m =>
    (Return tt, mkMachine (self m) (world m) (contexts m) (trace m ++ [ev])).

(** A call that leaves the process: runs on the world. *)
Definition remote {A} (f : W -> (Exn + A) * W) : M A :=
  fun m =>
    let (r, w') := f (world m) in
    lift r (mkMachine (self m) w' (contexts m) (trace m)).

(** [FlowRunContext.get()]: the innermost entered context, if any. *)
Definition FlowRunContext_get : M (option FlowRunContext) :=
  fun m => (Return (hd_error (contexts m)), m).

Definition FlowRunContext_enter (c : FlowRunContext) : M unit :=
  fun m =>
    (Return tt,
     mkMachine (self m) (world m) (c :: contexts m)
               (trace m ++ [EvContextEnter c])).

Definition FlowRunContext_exit : M unit :=
  fun m =>
    (Return tt,
     mkMachine (self m) (world m) (tl (contexts m))
               (trace m ++ [EvContextExit])).

(** [with FlowRunContext(...): body]. *)
Definition with_context {A} (c : FlowRunContext) (body : M A) : M A :=
  FlowRunContext_enter c ;;
  try_finally body FlowRunContext_exit.

(* ================================================================== *)
(** * FlowRunEngine *)
(* ================================================================== *)

Variable env : Env.

Definition new_engine
    (flow0 : Flow) (parameters0 : option Params) (flow_run0 : option FlowRun)
  : FlowRunEngine :=
  mkEngine flow0
           (match parameters0 with Some p => p | None => [] end)
           flow_run0 false None false.

Definition engine_not_started : Exn :=
  Exc RuntimeError "Engine has not started.".

(** The [client] property. *)
Definition client : M PrefectClient :=
  e <- get_self ;;
  if negb (_is_started e) then raise engine_not_started
  else match _client e with
       | None => raise engine_not_started
       | Some c => ret c
       end.

Definition no_flow_run (attr : string) : Exn :=
  Exc AttributeError
      ("'NoneType' object has no attribute '" ++ attr ++ "'").

(** [self.flow_run.<attr>] raises when there is no run record. *)
Definition the_flow_run (attr : string) : M FlowRun :=
  e <- get_self ;;
  match flow_run e with
  | Some fr => ret fr
  | None => raise (no_flow_run attr)
  end.

(** The [state] property. *)
Definition state : M State :=
  fr <- the_flow_run "state" ;;
  ret (fr_state fr).

Definition write_flow_run (attr : string) (f : FlowRun -> FlowRun) : M unit :=
  fr <- the_flow_run attr ;;
  e <- get_self ;;
  set_self (mkEngine (flow e) (parameters e) (Some (f fr))
                     (_is_started e) (_client e) (short_circuit e)).

Definition with_state (s : State) (fr : FlowRun) : FlowRun :=
  mkFlowRun (fr_id fr) (fr_name fr) (fr_parameters fr) s
            (fr_state_name fr) (fr_state_type fr) (fr_parent_task_run_id fr).

Definition with_state_name (n : string) (fr : FlowRun) : FlowRun :=
  mkFlowRun (fr_id fr) (fr_name fr) (fr_parameters fr) (fr_state fr)
            n (fr_state_type fr) (fr_parent_task_run_id fr).

Definition with_state_type (t : StateType) (fr : FlowRun) : FlowRun :=
  mkFlowRun (fr_id fr) (fr_name fr) (fr_parameters fr) (fr_state fr)
            (fr_state_name fr) t (fr_parent_task_run_id fr).

(** [set_subflow_state]: the body is [pass]. *)
Definition set_subflow_state (s : State) : M unit := ret tt.

Definition set_state (proposed : State) : M State :=
  e <- get_self ;;
  if short_circuit e then state
  else
    c <- client ;;
    fr <- the_flow_run "id" ;;
    log (EvProposeState (fr_id fr) proposed) ;;
    accepted <- remote (propose_state env c proposed (fr_id fr)) ;;
    write_flow_run "state" (with_state accepted) ;;
    write_flow_run "state_name" (with_state_name (state_name accepted)) ;;
    write_flow_run "state_type" (with_state_type (state_type accepted)) ;;
    set_subflow_state accepted ;;
    ret accepted.

Definition begin_run : M State := set_state Running.

Definition result (raise_on_failure : bool) : M Returned :=
  s <- state ;;
  lift (State_result s raise_on_failure).

Definition handle_success (r : Value) : M Value :=
  set_state Completed ;;
  ret r.

(** [a or b] on an optional string: [None] and the empty string are falsy. *)
Definition or_message (msg : option string) (default : string) : string :=
  match msg with
  | Some s => if String.eqb s "" then default else s
  | None => default
  end.

Definition handle_exception
    (exc : Exn) (msg : option string) (result_factory : option ResultFactory)
  : M State :=
  context <- FlowRunContext_get ;;
  let st :=
    exception_to_failed_state exc
      (or_message msg "Flow run encountered an exception:")
      (match result_factory with
       | Some rf => Some rf
       | None => option_map ctx_result_factory context
       end) in
  set_state st.

Definition create_subflow_task_run
    (c : PrefectClient) (context : FlowRunContext) : M TaskRun :=
  e <- get_self ;;
  let dummy_task :=
    mkTask (flow_name (flow e)) (flow_fn (flow e)) (flow_version (flow e)) in
  let task_inputs :=
    map (fun kv => (fst kv, collect_task_run_inputs env (snd kv)))
        (parameters e) in
  let req :=
    mkTaskRunCreate dummy_task
      (option_map fr_id (ctx_flow_run context))
      (_dynamic_key_for_task_run env context dummy_task)
      task_inputs
      Pending in
  log (EvCreateTaskRun req) ;;
  remote (client_create_task_run env c req).

Definition create_flow_run (c : PrefectClient) : M FlowRun :=
  flow_run_ctx <- FlowRunContext_get ;;
  parent_task_run <-
    match flow_run_ctx with
    | Some context =>
        tr <- create_subflow_task_run c context ;; ret (Some tr)
    | None => ret None
    end ;;
  e <- get_self ;;
  flow_run_name <-
    match _resolve_custom_flow_run_name env (flow e) (parameters e) with
    | inr n => ret (Some n)
    | inl exc => if is_TypeError exc then ret None else raise exc
    end ;;
  let req :=
    mkFlowRunCreate (flow e) flow_run_name
      (serialize_parameters (flow e) (parameters e))
      Pending
      (option_map tr_id parent_task_run) in
  log (EvCreateFlowRun req) ;;
  remote (client_create_flow_run env c req).

(** Acquiring the client: [get_client()] and its [__aenter__]. *)
Definition client_enter : M PrefectClient :=
  c <- remote (get_client env) ;;
  log (EvClientEnter c) ;;
  ret c.

Definition client_exit (c : PrefectClient) (exc : option Exn) : M unit :=
  log (EvClientExit c exc).

(** [async with get_client() as client: inner client]: [__aexit__] runs
    however [inner] ends, and receives the exception if there is one. *)
Definition async_with_client {A} (inner : PrefectClient -> M A) : M A :=
  c <- client_enter ;;
  fun m =>
    match inner c m with
    | (Return a, m') => (client_exit c None ;; ret a) m'
    | (Raise e, m') => (client_exit c (Some e) ;; raise e) m'
    | (OutOfFuel, m') => (OutOfFuel, m')
    end.

Definition set_started (c : PrefectClient) : M unit :=
  e <- get_self ;;
  set_self (mkEngine (flow e) (parameters e) (flow_run e)
                     (_is_started e) (Some c) (short_circuit e)) ;;
  e <- get_self ;;
  set_self (mkEngine (flow e) (parameters e) (flow_run e)
                     true (_client e) (short_circuit e)).

Definition set_stopped : M unit :=
  e <- get_self ;;
  set_self (mkEngine (flow e) (parameters e) (flow_run e)
                     false (_client e) (short_circuit e)) ;;
  e <- get_self ;;
  set_self (mkEngine (flow e) (parameters e) (flow_run e)
                     (_is_started e) None (short_circuit e)).

Definition set_flow_run (fr : FlowRun) : M unit :=
  e <- get_self ;;
  set_self (mkEngine (flow e) (parameters e) (Some fr)
                     (_is_started e) (_client e) (short_circuit e)).

Definition set_parameters (p : Params) : M unit :=
  e <- get_self ;;
  set_self (mkEngine (flow e) p (flow_run e)
                     (_is_started e) (_client e) (short_circuit e)).

Definition set_short_circuit (b : bool) : M unit :=
  e <- get_self ;;
  set_self (mkEngine (flow e) (parameters e) (flow_run e)
                     (_is_started e) (_client e) b).

Definition validation_failed_msg : string :=
  "Validation of flow parameters failed with error".

(** [if not self.flow_run: self.flow_run = create_flow_run(client)]. *)
Definition ensure_flow_run (c : PrefectClient) : M unit :=
  e <- get_self ;;
  match flow_run e with
  | Some _ => ret tt
  | None => fr <- create_flow_run c ;; set_flow_run fr
  end.

(** The parameter validation step of [start] and [start_sync]. *)
Definition validate_step : M unit :=
  e <- get_self ;;
  if should_validate_parameters (flow e) then
    try_except
      (p <- lift (validate_parameters (flow e) (parameters e)) ;;
       set_parameters p)
      (fun exc =>
         e <- get_self ;;
         handle_exception exc (Some validation_failed_msg)
                          (Some (ResultFactory_from_flow env (flow e))) ;;
         set_short_circuit true)
  else ret tt.

Definition or_False (b : option bool) : bool :=
  match b with Some true => true | _ => false end.

Definition make_context
    (e : FlowRunEngine) (c : PrefectClient) (task_group : TaskGroup)
  : FlowRunContext :=
  mkFlowRunContext (flow e) (or_False (flow_log_prints (flow e)))
                   (flow_run e) (parameters e) c task_group
                   (ResultFactory_from_flow env (flow e))
                   (flow_task_runner (flow e)).

(** [start], an [asynccontextmanager]: [body] is what the caller runs at
    the [yield].  It runs on the cooperative scheduler [lib], so
    [anyio.create_task_group()] finds its backend.  The two assignments
    after the [async with] are reached only when nothing was raised. *)
Definition start {A} (lib : AsyncLibrary) (body : M A) : M A :=
  a <- async_with_client (fun c =>
         set_started c ;;
         ensure_flow_run c ;;
         validate_step ;;
         e <- get_self ;;
         with_context (make_context e c (BackendTaskGroup lib)) body) ;;
  set_stopped ;;
  ret a.

(** [anyio.create_task_group()] with the fallback of [start_sync]:
    [ambient] is the async library [sniffio] detects in the calling
    thread, if any. *)
Definition create_task_group_or_fallback
    (ambient : option AsyncLibrary) : TaskGroup :=
  match ambient with
  | Some lib => BackendTaskGroup lib
  | None => BackendTaskGroup asyncio
  end.

(** [start_sync], a [contextmanager]: [try / except Exception: raise /
    else: client.__aexit__ / finally: reset]. *)
Definition start_sync {A} (ambient : option AsyncLibrary) (body : M A)
  : M A :=
  try_finally
    (fun m =>
       match
         (c <- client_enter ;;
          set_started c ;;
          ensure_flow_run c ;;
          validate_step ;;
          e <- get_self ;;
          a <- with_context
                 (make_context e c (create_task_group_or_fallback ambient))
                 body ;;
          ret (c, a)) m
       with
       | (Return (c, a), m') => (client_exit c None ;; ret a) m'
       | (Raise e, m') => (Raise e, m')
       | (OutOfFuel, m') => (OutOfFuel, m')
       end)
    set_stopped.

Definition is_running : M bool :=
  e <- get_self ;;
  match flow_run e with
  | None => ret false
  | Some fr => ret (State_is_running (fr_state fr))
  end.

Definition is_pending : M bool :=
  e <- get_self ;;
  match flow_run e with
  | None => ret false
  | Some fr => ret (State_is_pending (fr_state fr))
  end.

(* ================================================================== *)
(** * The drivers *)
(* ================================================================== *)

(** The call expression of a driver on the keyword arguments
    [run.parameters or {}]: [await flow.fn(...)] in [run_flow],
    [flow.fn(...)] in [run_flow_sync]; see [flow_fn]. *)
Definition call_fn : M Value :=
  e <- get_self ;;
  log (EvCallFn (parameters e)) ;;
  remote (flow_fn (flow e) (parameters e)).

(** [while run.is_pending(): await asyncio.sleep(1); await run.begin_run()] *)
Fixpoint pending_loop (fuel : nat) : M unit :=
  b <- is_pending ;;
  if b then
    match fuel with
    | O => out_of_fuel
    | S fuel' => log (EvSleep 1) ;; begin_run ;; pending_loop fuel'
    end
  else ret tt.

(** [while run.is_running(): try: ... except Exception as exc: ...]; the
    result is [Some r] when the loop body executed [return r]. *)
Fixpoint running_loop (return_type : ReturnType) (fuel : nat)
  : M (option Returned) :=
  b <- is_running ;;
  if b then
    match fuel with
    | O => out_of_fuel
    | S fuel' =>
        returned <-
          try_except
            (r <- call_fn ;;
             handle_success r ;;
             match return_type with
             | result_ => ret (Some (RValue r))
             | state_ => ret None
             end)
            (fun exc => handle_exception exc None None ;; ret None) ;;
        match returned with
        | Some r => ret (Some r)
        | None => running_loop return_type fuel'
        end
    end
  else ret None.

Definition run_body (return_type : ReturnType) (fuel : nat) : M Returned :=
  begin_run ;;
  pending_loop fuel ;;
  returned <- running_loop return_type fuel ;;
  match returned with
  | Some r => ret r
  | None =>
      match return_type with
      | state_ => s <- state ;; ret (RState s)
      | result_ => result true
      end
  end.

Definition run_flow
    (lib : AsyncLibrary)
    (flow0 : Flow) (flow_run0 : option FlowRun) (parameters0 : option Params)
    (return_type : ReturnType) (fuel : nat) : M Returned :=
  set_self (new_engine flow0 parameters0 flow_run0) ;;
  start lib (run_body return_type fuel).

(** [while run.is_pending(): time.sleep(1); run_sync(run.begin_run())] *)
Fixpoint pending_loop_sync (fuel : nat) : M unit :=
  b <- is_pending ;;
  if b then
    match fuel with
    | O => out_of_fuel
    | S fuel' => log (EvSleep 1) ;; begin_run ;; pending_loop_sync fuel'
    end
  else ret tt.

Fixpoint running_loop_sync (return_type : ReturnType) (fuel : nat)
  : M (option Returned) :=
  b <- is_running ;;
  if b then
    match fuel with
    | O => out_of_fuel
    | S fuel' =>
        returned <-
          try_except
            (r <- call_fn ;;
             handle_success r ;;
             match return_type with
             | result_ => ret (Some (RValue r))
             | state_ => ret None
             end)
            (fun exc => handle_exception exc None None ;; ret None) ;;
        match returned with
        | Some r => ret (Some r)
        | None => running_loop_sync return_type fuel'
        end
    end
  else ret None.

Definition run_body_sync (return_type : ReturnType) (fuel : nat)
  : M Returned :=
  begin_run ;;
  pending_loop_sync fuel ;;
  returned <- running_loop_sync return_type fuel ;;
  match returned with
  | Some r => ret r
  | None =>
      match return_type with
      | state_ => s <- state ;; ret (RState s)
      | result_ => result true
      end
  end.

Definition run_flow_sync
    (ambient : option AsyncLibrary)
    (flow0 : Flow) (flow_run0 : option FlowRun) (parameters0 : option Params)
    (return_type : ReturnType) (fuel : nat) : M Returned :=
  set_self (new_engine flow0 parameters0 flow_run0) ;;
  start_sync ambient (run_body_sync return_type fuel).

(** The [get_client] method of the engine: unlike the [client] property
    it looks at [_is_started] only, and hands back [self._client] as it
    is. *)
Definition FlowRunEngine_get_client : M (option PrefectClient) :=
  e <- get_self ;;
  if negb (_is_started e) then raise engine_not_started
  else ret (_client e).

(** ** One callable under the two drivers

    [run_flow] awaits the call of the callable, [run_flow_sync] only calls
    it.  Calling a plain function runs its body; the value that comes back
    is plain data, and awaiting it raises a [TypeError]. *)

Definition type_name (v : Value) : string :=
  match v with
  | VNone => "NoneType"
  | VBool _ => "bool"
  | VInt _ => "int"
  | VStr _ => "str"
  end.

Definition not_awaitable (v : Value) : Exn :=
  Exc TypeError
      ("object " ++ type_name v ++ " can't be used in 'await' expression").

(** [await f(...)] for a plain function [f] with body [body]. *)
Definition await_plain_call (body : Params -> W -> (Exn + Value) * W)
  : Params -> W -> (Exn + Value) * W :=
  fun kwargs w =>
    match body kwargs w with
    | (inr v, w') => (inl (not_awaitable v), w')
    | (inl exc, w') => (inl exc, w')
    end.

Definition with_fn (f : Flow) (fn : Params -> W -> (Exn + Value) * W)
  : Flow :=
  mkFlow (flow_name f) (flow_version f) fn (should_validate_parameters f)
         (validate_parameters f) (serialize_parameters f) (flow_log_prints f)
         (flow_task_runner f).

(** The work whose callable is a plain function with body [flow_fn f], as
    [run_flow] runs it and as [run_flow_sync] runs it; and the work whose
    callable is a coroutine function with that body, as [run_flow] runs
    it.  A coroutine function under [run_flow_sync] hands back a coroutine
    object, for which [Value] has no constructor: it is not modelled. *)
Definition plain_def_under_run_flow (f : Flow) : Flow :=
  with_fn f (await_plain_call (flow_fn f)).

Definition plain_def_under_run_flow_sync (f : Flow) : Flow := f.

Definition async_def_under_run_flow (f : Flow) : Flow := f.

End Engine.

Notation "x <- c ;; k" := (bind c (fun x => k))
  (at level 61, c at next level, right associativity).
Notation "c ;; k" := (bind c (fun _ => k))
  (at level 61, right associativity).

Arguments EvClientEnter {W} c.
Arguments EvClientExit {W} c exc.
Arguments EvProposeState {W} flow_run_id s.
Arguments EvContextExit {W}.
Arguments EvSleep {W} seconds.
Arguments EvCallFn {W} kwargs.

(* ================================================================== *)
(** * Observations on traces and conditions on collaborators *)
(* ================================================================== *)

Section Observations.

Variable W : Type.

Definition is_call (ev : Event W) : bool :=
  match ev with EvCallFn _ => true | _ => false end.

Definition is_client_enter (ev : Event W) : bool :=
  match ev with EvClientEnter _ => true | _ => false end.

Definition is_client_exit (ev : Event W) : bool :=
  match ev with EvClientExit _ _ => true | _ => false end.

Definition is_context_enter (ev : Event W) : bool :=
  match ev with EvContextEnter _ => true | _ => false end.

Definition is_context_exit (ev : Event W) : bool :=
  match ev with EvContextExit => true | _ => false end.

Definition is_collaborator_call (ev : Event W) : bool :=
  match ev with
  | EvCreateTaskRun _ | EvCreateFlowRun _ | EvProposeState _ _ => true
  | _ => false
  end.

(** How many events of a kind a trace holds. *)
Definition count (p : Event W -> bool) (t : list (Event W)) : nat :=
  length (filter p t).

(** The state of the engine's run record, if it has one. *)
Definition durable_state (m : Machine W) : option State :=
  option_map fr_state (flow_run (self m)).

(** The run record after [set_state] wrote an accepted state into it. *)
Definition accept (accepted : State) (fr : FlowRun) : FlowRun :=
  with_state_type (state_type accepted)
    (with_state_name (state_name accepted) (with_state accepted fr)).

Definition with_flow_run (fr : FlowRun) (e : FlowRunEngine W)
  : FlowRunEngine W :=
  mkEngine (flow e) (parameters e) (Some fr)
           (_is_started e) (_client e) (short_circuit e).

Variable env : Env W.

(** The client connection can be acquired. *)
Definition reachable : Prop :=
  forall w, exists c w', get_client env w = (inr c, w').

(** The collaborator creates the records it is asked for. *)
Definition creates_records : Prop :=
  (forall c req w, exists tr w',
      client_create_task_run env c req w = (inr tr, w')) /\
  (forall c req w, exists fr w',
      client_create_flow_run env c req w = (inr fr, w')).

(** The collaborator accepts every proposed state as it is. *)
Definition accepts_proposals : Prop :=
  forall c s id w, exists w', propose_state env c s id w = (inr s, w').

(** The collaborator accepts every proposed FAILED state as it is. *)
Definition accepts_failed : Prop :=
  forall c s id w, state_type s = FAILED ->
    exists w', propose_state env c s id w = (inr s, w').

(** Custom-name resolution gives a name or raises a [TypeError]. *)
Definition name_resolves (f : Flow W) (p : Params) : Prop :=
  forall exc, _resolve_custom_flow_run_name env f p = inl exc ->
              is_TypeError exc = true.

(** The engine was given a run record, or one can be created for it. *)
Definition record_available (e : FlowRunEngine W) : Prop :=
  flow_run e = None ->
  creates_records /\ name_resolves (flow e) (parameters e).

(** The parameters pass the flow's validation when it is enabled, and
    [validated] is what the callable then receives. *)
Definition valid_parameters (f : Flow W) (p validated : Params) : Prop :=
  if should_validate_parameters f
  then validate_parameters f p = inr validated
  else validated = p.

(** Two machines that the driver body cannot tell apart: the same engine,
    the same world and the same result-handling policy in the innermost
    context.  Traces and task groups are not read by the body. *)
Definition sim (m1 m2 : Machine W) : Prop :=
  self m1 = self m2 /\
  world m1 = world m2 /\
  option_map (@ctx_result_factory W) (hd_error (contexts m1))
    = option_map (@ctx_result_factory W) (hd_error (contexts m2)).

(** Two computations that, from machines alike, end with the same outcome
    in machines alike. *)
Definition alike {A} (c1 c2 : M W A) : Prop :=
  forall m1 m2, sim m1 m2 ->
    fst (c1 m1) = fst (c2 m2) /\ sim (snd (c1 m1)) (snd (c2 m2)).

(** Events that are requests to the collaborator only. *)
Definition quiet (evs : list (Event W)) : Prop :=
  forallb is_collaborator_call evs = true.

(** The part of [start] and [start_sync] between acquiring the client and
    building the context; its value is the engine as the context sees it. *)
Definition prepare (c : PrefectClient) : M W (FlowRunEngine W) :=
  set_started c ;;
  ensure_flow_run env c ;;
  validate_step env ;;
  get_self.

(** The machine once the client [c] is connected, ... *)
Definition connected (m : Machine W) (c : PrefectClient) (w' : W)
  : Machine W :=
  mkMachine (self m) w' (contexts m) (trace m ++ [EvClientEnter c]).

(** ... at the [yield], inside the context [ctx], ... *)
Definition at_yield (m : Machine W) (ctx : FlowRunContext W) : Machine W :=
  mkMachine (self m) (world m) (ctx :: contexts m)
            (trace m ++ [EvContextEnter ctx]).

(** ... after the context is left, after the client is released, and
    after the engine's [_is_started] and [_client] are reset. *)
Definition left_context (m : Machine W) : Machine W :=
  mkMachine (self m) (world m) (tl (contexts m)) (trace m ++ [EvContextExit]).

Definition released (c : PrefectClient) (exc : option Exn) (m : Machine W)
  : Machine W :=
  mkMachine (self m) (world m) (contexts m) (trace m ++ [EvClientExit c exc]).

Definition stopped (m : Machine W) : Machine W :=
  mkMachine (mkEngine (flow (self m)) (parameters (self m))
                      (flow_run (self m)) false None
                      (short_circuit (self m)))
            (world m) (contexts m) (trace m).

(** ** What the driver body may do *)

(** Two views of a run record that differ in its state fields at most. *)
Definition same_identity (r r' : option FlowRun) : Prop :=
  match r, r' with
  | None, None => True
  | Some fr, Some fr' =>
      fr_id fr' = fr_id fr /\
      fr_name fr' = fr_name fr /\
      fr_parameters fr' = fr_parameters fr /\
      fr_parent_task_run_id fr' = fr_parent_task_run_id fr
  | _, _ => False
  end.

(** The states the drivers propose. *)
Definition driver_proposal (s : State) : Prop :=
  s = Running \/ s = Completed \/ state_type s = FAILED.

(** The events of a driver body run by the engine [e]: a one-second sleep,
    a proposal for [e]'s own run record (never while short-circuited), or
    a call of the work's callable on [e]'s parameters. *)
Definition body_event (e : FlowRunEngine W) (ev : Event W) : Prop :=
  match ev with
  | EvSleep n => n = 1
  | EvProposeState id s =>
      short_circuit e = false /\
      option_map fr_id (flow_run e) = Some id /\
      driver_proposal s
  | EvCallFn kwargs => kwargs = parameters e
  | _ => False
  end.

(** One or more steps of a driver body: only the state fields of the run
    record, the world and the trace move. *)
Definition body_step (m m' : Machine W) : Prop :=
  flow (self m') = flow (self m) /\
  parameters (self m') = parameters (self m) /\
  _is_started (self m') = _is_started (self m) /\
  _client (self m') = _client (self m) /\
  short_circuit (self m') = short_circuit (self m) /\
  same_identity (flow_run (self m)) (flow_run (self m')) /\
  (short_circuit (self m) = true -> flow_run (self m') = flow_run (self m)) /\
  contexts m' = contexts m /\
  exists evs, trace m' = trace m ++ evs /\ Forall (body_event (self m)) evs.

(** The part of [body_step] about the engine and the context stack, ... *)
Definition engine_kept (m m' : Machine W) : Prop :=
  flow (self m') = flow (self m) /\
  parameters (self m') = parameters (self m) /\
  _is_started (self m') = _is_started (self m) /\
  _client (self m') = _client (self m) /\
  short_circuit (self m') = short_circuit (self m) /\
  contexts m' = contexts m /\
  same_identity (flow_run (self m)) (flow_run (self m')).

(** ... the part about the trace, ... *)
Definition body_trace (m m' : Machine W) : Prop :=
  exists evs, trace m' = trace m ++ evs /\ Forall (body_event (self m)) evs.

(** ... and a step that sends nothing to the collaborator and leaves the
    engine object as it was. *)
Definition silent (m m' : Machine W) : Prop :=
  self m' = self m /\
  contexts m' = contexts m /\
  exists evs,
    trace m' = trace m ++ evs /\
    Forall (fun ev => is_collaborator_call ev = false) evs.

(** A computation all of whose runs are related by [R]. *)
Definition within {A} (R : Machine W -> Machine W -> Prop) (c : M W A)
  : Prop :=
  forall m, R m (snd (c m)).

(** ** What the preparation of a start scope may do *)

(** The events between acquiring the client and entering the context:
    record creation, only for an engine that has no run record, and the
    FAILED proposal of a validation failure. *)
Definition setup_event (e : FlowRunEngine W) (ev : Event W) : Prop :=
  match ev with
  | EvCreateTaskRun _ | EvCreateFlowRun _ => flow_run e = None
  | EvProposeState _ s => state_type s = FAILED
  | _ => False
  end.

Definition failed_proposal (ev : Event W) : Prop :=
  match ev with
  | EvProposeState _ s => state_type s = FAILED
  | _ => False
  end.

Definition setup_step (m m' : Machine W) : Prop :=
  flow (self m') = flow (self m) /\
  contexts m' = contexts m /\
  (forall fr, flow_run (self m) = Some fr ->
              same_identity (Some fr) (flow_run (self m'))) /\
  exists evs, trace m' = trace m ++ evs /\ Forall (setup_event (self m)) evs.

(** Events of the four bracketing kinds. *)
Definition is_scope_event (ev : Event W) : bool :=
  is_client_enter ev || is_client_exit ev
  || is_context_enter ev || is_context_exit ev.

Definition is_create (ev : Event W) : bool :=
  match ev with
  | EvCreateTaskRun _ | EvCreateFlowRun _ => true
  | _ => false
  end.

(** ** More conditions on collaborators and work *)

Definition is_sleep (ev : Event W) : bool :=
  match ev with EvSleep _ => true | _ => false end.

(** The collaborator accepts a proposed RUNNING as it is. *)
Definition accepts_running : Prop :=
  forall c id w, exists w', propose_state env c Running id w = (inr Running, w').

(** The collaborator fails with [exc] when COMPLETED is proposed. *)
Definition refuses_completed (exc : Exn) : Prop :=
  forall c id w, exists w', propose_state env c Completed id w = (inl exc, w').

(** The collaborator answers a proposed COMPLETED with [answer]. *)
Definition answers_completed_with (answer : State) : Prop :=
  forall c id w, exists w',
    propose_state env c Completed id w = (inr answer, w').

(** The collaborator answers every proposed FAILED state with [answer]. *)
Definition answers_failed_with (answer : State) : Prop :=
  forall c s id w, state_type s = FAILED ->
    exists w', propose_state env c s id w = (inr answer, w').

(** What the pending loop may add to a trace: rounds of a one-second
    sleep, each followed by at most one proposal of RUNNING for the run
    record [id]. *)
Inductive polled (id : option UUID) : list (Event W) -> Prop :=
| polled_done : polled id []
| polled_sleep rest :
    polled id rest -> polled id (EvSleep 1 :: rest)
| polled_propose i rest :
    id = Some i -> polled id rest ->
    polled id (EvSleep 1 :: EvProposeState i Running :: rest).

(** A body that asks the engine for its client both ways and for the
    current context. *)
Definition probe
  : M W (option PrefectClient * PrefectClient * FlowRunEngine W
         * option (FlowRunContext W)) :=
  a <- FlowRunEngine_get_client ;;
  b <- client ;;
  e <- get_self ;;
  ctx <- FlowRunContext_get ;;
  ret (a, b, e, ctx).

(** The request for the child task run that a nested engine sends from
    inside [context], and the request for the engine's own run record. *)
Definition child_request (e : FlowRunEngine W) (context : FlowRunContext W)
    (req : TaskRunCreate W) : Prop :=
  task_name (trc_task req) = flow_name (flow e) /\
  task_version (trc_task req) = flow_version (flow e) /\
  trc_flow_run_id req = option_map fr_id (ctx_flow_run context) /\
  map fst (trc_task_inputs req) = map fst (parameters e) /\
  trc_state req = Pending.

Definition record_request (e : FlowRunEngine W) (parent : option UUID)
    (req : FlowRunCreate W) : Prop :=
  frc_flow req = flow e /\
  frc_parameters req = serialize_parameters (flow e) (parameters e) /\
  frc_state req = Pending /\
  frc_parent_task_run_id req = parent.

End Observations.

(* ================================================================== *)
(** * Stub collaborators and work definitions *)
(* ================================================================== *)

Module Stub.

Definition the_client : PrefectClient := 1%N.

Definition task_run_of (req : TaskRunCreate nat) : TaskRun :=
  mkTaskRun 7%N (trc_flow_run_id req) (trc_dynamic_key req) (trc_state req).

Definition flow_run_of (req : FlowRunCreate nat) : FlowRun :=
  mkFlowRun 42%N (frc_name req) (frc_parameters req) (frc_state req)
            (state_name (frc_state req)) (state_type (frc_state req))
            (frc_parent_task_run_id req).

(** What [_resolve_custom_flow_run_name] raises for a flow without a
    custom run name. *)
Definition no_custom_name : Exn :=
  Exc TypeError "Expected string or callable for 'flow_run_name'".

Definition missing_key : Exn := Exc KeyError "'region'".

(** A server stub: [answer] maps each proposal to the accepted state. *)
Definition server (answer : State -> State) (custom_name : Exn + string)
  : Env nat :=
  mkEnv (fun w => (inr the_client, w))
        (fun _ req w => (inr (task_run_of req), w))
        (fun _ req w => (inr (flow_run_of req), w))
        (fun _ s _ w => (inr (answer s), w))
        (fun _ _ => custom_name)
        (fun _ => [])
        (fun _ _ => "0")
        (fun f => ResultFactoryOf (flow_name f)).

Definition accepting : Env nat := server (fun s => s) (inl no_custom_name).

Definition Retrying : State := mkState RETRYING "Retrying" None None.

(** A server with a retry policy: a proposed FAILED becomes RETRYING. *)
Definition grant_retry (s : State) : State :=
  match state_type s with FAILED => Retrying | _ => s end.

Definition retrying : Env nat := server grant_retry (inl no_custom_name).

(** A server that keeps every run going: whatever is proposed, RUNNING is
    the accepted state. *)
Definition insisting : Env nat :=
  server (fun _ => Running) (inl no_custom_name).

Definition bad_template : Env nat := server (fun s => s) (inl missing_key).

Fixpoint lookup (k : string) (p : Params) : option Value :=
  match p with
  | [] => None
  | (k', v) :: rest => if String.eqb k k' then Some v else lookup k rest
  end.

Definition not_an_int : Exn :=
  Exc (OtherError "ParameterTypeError") "x: value is not a valid integer".

(** The declared signature [x: int]. *)
Definition check_x_int (p : Params) : Exn + Params :=
  match lookup "x" p with
  | Some (VInt _) => inr p
  | _ => inl not_an_int
  end.

Definition work (validate : bool) (fn : Params -> nat -> (Exn + Value) * nat)
  : Flow nat :=
  mkFlow "work" None fn validate check_x_int (fun p => p) None
         SequentialTaskRunner.

(** The world counts the invocations of the callable. *)
Definition add_one (p : Params) (w : nat) : (Exn + Value) * nat :=
  match lookup "x" p with
  | Some (VInt z) => (inr (VInt (z + 1)), S w)
  | _ => (inr VNone, S w)
  end.

Definition boom : Exn := Exc ValueError "boom".

Definition always_raises (p : Params) (w : nat) : (Exn + Value) * nat :=
  (inl boom, S w).

Definition raises_once (p : Params) (w : nat) : (Exn + Value) * nat :=
  match w with
  | O => (inl boom, S w)
  | S _ => add_one p w
  end.

Definition x_is (v : Value) : Params := [("x", v)].

Definition a_flow_run : FlowRun :=
  mkFlowRun 5%N None (x_is (VInt 1)) Pending "Pending" PENDING None.

Definition fresh (e : FlowRunEngine nat) : Machine nat :=
  mkMachine e 0 [] [].

Definition idle : Machine nat :=
  fresh (new_engine (work true add_one) (Some (x_is (VInt 1))) None).

(** An engine that holds a run record and was never started, one inside
    its start scope, and one that was short-circuited there. *)
Definition unstarted : Machine nat :=
  fresh (new_engine (work true add_one) None (Some a_flow_run)).

Definition live : Machine nat :=
  fresh (mkEngine (work true add_one) (x_is (VInt 1)) (Some a_flow_run)
                  true (Some the_client) false).

Definition halted : Machine nat :=
  fresh (mkEngine (work true add_one) (x_is (VInt 1)) (Some a_flow_run)
                  true (Some the_client) true).

Definition not_an_int_given : Params := x_is (VStr "not-an-int").

Definition failed_with_boom : State :=
  exception_to_failed_state boom "Flow run encountered an exception:" None.

(** The context of an enclosing run. *)
Definition outer_context : FlowRunContext nat :=
  mkFlowRunContext (work false add_one) false (Some a_flow_run) []
                   the_client (BackendTaskGroup asyncio)
                   (ResultFactoryOf "outer") SequentialTaskRunner.

Definition nested : Machine nat :=
  mkMachine (new_engine (work true add_one) (Some (x_is (VInt 1))) None)
            0 [outer_context] [].

(** A server whose answer to a proposal may be an error. *)
Definition server_with (answer : State -> Exn + State) : Env nat :=
  mkEnv (fun w => (inr the_client, w))
        (fun _ req w => (inr (task_run_of req), w))
        (fun _ req w => (inr (flow_run_of req), w))
        (fun _ s _ w => (answer s, w))
        (fun _ _ => inl no_custom_name)
        (fun _ => [])
        (fun _ _ => "0")
        (fun f => ResultFactoryOf (flow_name f)).

Definition gone : Exn := Exc ConnectionError "connection lost".

(** A server on which every proposal fails with a lost connection. *)
Definition dropping : Env nat := server_with (fun _ => inl gone).

(** Accepts everything but COMPLETED, on which the connection drops. *)
Definition losing_completed : Env nat :=
  server_with (fun s => match state_type s with
                        | COMPLETED => inl gone
                        | _ => inr s
                        end).

(** Answers a proposed FAILED with PENDING, and accepts the rest. *)
Definition holding : Env nat :=
  server (fun s => match state_type s with FAILED => Pending | _ => s end)
         (inl no_custom_name).

(** Answers a proposed FAILED with RUNNING, and accepts the rest. *)
Definition rerunning : Env nat :=
  server (fun s => match state_type s with FAILED => Running | _ => s end)
         (inl no_custom_name).

(** No server to connect to. *)
Definition unreachable : Env nat :=
  mkEnv (fun w => (inl gone, w))
        (fun _ req w => (inr (task_run_of req), w))
        (fun _ req w => (inr (flow_run_of req), w))
        (fun _ s _ w => (inr s, w))
        (fun _ _ => inl no_custom_name)
        (fun _ => [])
        (fun _ _ => "0")
        (fun f => ResultFactoryOf (flow_name f)).

(** Answers a proposed COMPLETED with CRASHED, and accepts the rest. *)
Definition Crashed : State := mkState CRASHED "Crashed" None None.

Definition overruling : Env nat :=
  server (fun s => match state_type s with COMPLETED => Crashed | _ => s end)
         (inl no_custom_name).

(** A context that carries no run record, and an engine started in it. *)
Definition bare_context : FlowRunContext nat :=
  mkFlowRunContext (work false add_one) false None []
                   the_client (BackendTaskGroup asyncio)
                   (ResultFactoryOf "outer") SequentialTaskRunner.

Definition nested_bare : Machine nat :=
  mkMachine (new_engine (work true add_one) (Some (x_is (VInt 1))) None)
            0 [bare_context] [].

(** An engine with neither run record nor client. *)
Definition blank : Machine nat :=
  fresh (new_engine (work true add_one) None None).

(** A short-circuited engine whose record is RUNNING. *)
Definition halted_running : Machine nat :=
  fresh (mkEngine (work true add_one) (x_is (VInt 1))
                  (Some (accept Running a_flow_run))
                  true (Some the_client) true).

(** Where the driver leaves the idle machine when the work adds one. *)
Definition finished : Machine nat :=
  Eval vm_compute in
    snd (run_flow accepting asyncio (work true add_one) None
                  (Some (x_is (VInt 1))) state_ 1 idle).

End Stub.

(* ================================================================== *)
(** * Properties *)
(* ================================================================== *)

Section Properties.

Variable W : Type.
Variable env : Env W.

Implicit Types (m : Machine W) (e : FlowRunEngine W) (fr : FlowRun).

(** ** Running the monad *)

Lemma bind_Return {A B} (c : M W A) (k : A -> M W B) m a m' :
  c m = (Return a, m') -> bind c k m = k a m'.
Proof. intros H. unfold bind. rewrite H. reflexivity. Qed.

Lemma machine_eta m :
  mkMachine (self m) (world m) (contexts m) (trace m) = m.
Proof. destruct m; reflexivity. Qed.

Lemma engine_eta e :
  mkEngine (flow e) (parameters e) (flow_run e)
           (_is_started e) (_client e) (short_circuit e) = e.
Proof. destruct e; reflexivity. Qed.

(** ** [set_state] *)

Lemma state_eq m fr :
  flow_run (self m) = Some fr -> state m = (Return (fr_state fr), m).
Proof.
  intros H. unfold state, the_flow_run, bind, get_self. rewrite H.
  reflexivity.
Qed.

Lemma state_keeps_machine m : snd (state m) = m.
Proof.
  unfold state, the_flow_run, bind, get_self.
  destruct (flow_run (self m)); reflexivity.
Qed.

Lemma set_state_short m proposed :
  short_circuit (self m) = true -> set_state env proposed m = state m.
Proof.
  intros H. unfold set_state, bind at 1, get_self. rewrite H. reflexivity.
Qed.

Lemma set_state_live m fr c proposed accepted w' :
  short_circuit (self m) = false ->
  flow_run (self m) = Some fr ->
  _is_started (self m) = true ->
  _client (self m) = Some c ->
  propose_state env c proposed (fr_id fr) (world m) = (inr accepted, w') ->
  set_state env proposed m =
    (Return accepted,
     mkMachine (with_flow_run (accept accepted fr) (self m)) w' (contexts m)
               (trace m ++ [EvProposeState (fr_id fr) proposed])).
Proof.
  intros Hsc Hfr Hst Hcl Hp.
  destruct m as [[f p r st cl sc] w cs t]. cbn in *. subst.
  unfold set_state, client, the_flow_run, remote, write_flow_run,
    the_flow_run, set_subflow_state, log, set_self, get_self, bind, ret.
  cbn. rewrite Hp. reflexivity.
Qed.

(** The [client] property outside the start scope. *)
Lemma client_unstarted m :
  _is_started (self m) = false \/ _client (self m) = None ->
  client m = (Raise engine_not_started, m).
Proof.
  intros H. unfold client, get_self, bind, raise. cbn.
  destruct (_is_started (self m)); cbn.
  - destruct H as [H | H]; [discriminate | rewrite H; reflexivity].
  - reflexivity.
Qed.

Lemma client_after_reset m :
  client (stopped m) = (Raise engine_not_started, stopped m).
Proof. apply client_unstarted. left. reflexivity. Qed.

(** Outside the start scope a [set_state] that is not short-circuited
    raises before anything is sent. *)
Lemma set_state_unstarted m proposed :
  short_circuit (self m) = false ->
  _is_started (self m) = false \/ _client (self m) = None ->
  set_state env proposed m = (Raise engine_not_started, m).
Proof.
  intros Hsc H.
  unfold set_state, client, get_self, bind, raise. cbn. rewrite Hsc.
  destruct (_is_started (self m)); cbn.
  - destruct H as [H | H]; [discriminate | rewrite H; reflexivity].
  - reflexivity.
Qed.

(** C5.  While the engine is short-circuited, [set_state] is the [state]
    property: whatever is proposed, it answers with the run record's
    current state and leaves the whole machine (engine, run record, server
    and trace, so no collaborator call) as it was; a second call, with any
    other proposal, does the same. *)
Theorem set_state_short_circuited_is_noop :
  forall m (s1 s2 : State),
    short_circuit (self m) = true ->
    set_state env s1 m = state m /\
    snd (set_state env s1 m) = m /\
    set_state env s2 (snd (set_state env s1 m)) = set_state env s1 m /\
    (forall fr, flow_run (self m) = Some fr ->
       set_state env s1 m = (Return (fr_state fr), m) /\
       set_state env s2 (snd (set_state env s1 m))
         = (Return (fr_state fr), m)).
Proof.
  intros m s1 s2 H.
  assert (E1 : set_state env s1 m = state m) by (apply set_state_short; exact H).
  assert (K : snd (set_state env s1 m) = m)
    by (rewrite E1; apply state_keeps_machine).
  repeat split.
  - exact E1.
  - exact K.
  - rewrite K, E1. apply set_state_short; exact H.
  - rewrite E1. apply state_eq; assumption.
  - rewrite K, set_state_short by exact H. apply state_eq; assumption.
Qed.

(** C1, amended.  On an engine that has been started (it holds a client),
    is not short-circuited and holds a run record, [set_state] sends the
    proposal to the collaborator, writes the state the collaborator
    answers with into the record's [state], [state_name] and [state_type],
    and returns that state. *)
Theorem set_state_records_accepted_state :
  forall m fr c (proposed accepted : State) w',
    short_circuit (self m) = false ->
    flow_run (self m) = Some fr ->
    _is_started (self m) = true ->
    _client (self m) = Some c ->
    propose_state env c proposed (fr_id fr) (world m) = (inr accepted, w') ->
    exists fr',
      set_state env proposed m =
        (Return accepted,
         mkMachine (with_flow_run fr' (self m)) w' (contexts m)
                   (trace m ++ [EvProposeState (fr_id fr) proposed])) /\
      fr_state fr' = accepted /\
      fr_state_name fr' = state_name accepted /\
      fr_state_type fr' = state_type accepted /\
      fr_id fr' = fr_id fr.
Proof.
  intros m fr c proposed accepted w' Hsc Hfr Hst Hcl Hp.
  exists (accept accepted fr).
  split; [ eapply set_state_live; eassumption | repeat split ].
Qed.

(** ** The two start scopes, once their preparation has succeeded *)

Lemma client_enter_eq m c w1 :
  get_client env (world m) = (inr c, w1) ->
  client_enter env m = (Return c, connected m c w1).
Proof.
  intros H. unfold client_enter, remote, log, bind, ret. rewrite H.
  reflexivity.
Qed.

Lemma prepare_value c m e m1 :
  prepare env c m = (Return e, m1) -> e = self m1.
Proof.
  unfold prepare, bind, get_self.
  destruct (set_started c m) as [[ | | ] ?]; try discriminate.
  destruct (ensure_flow_run env c m0) as [[ | | ] ?]; try discriminate.
  destruct (validate_step env m2) as [[ | | ] ?]; try discriminate.
  intros H. inversion H. reflexivity.
Qed.

(** [start] around a body: when the body returns, the context is left, the
    client released and the engine reset; when it raises, the context is
    left and the client released, and the engine is not reset. *)
Lemma start_eq {A} lib (body : M W A) m c w1 e m1 :
  get_client env (world m) = (inr c, w1) ->
  prepare env c (connected m c w1) = (Return e, m1) ->
  start env lib body m =
    match body (at_yield m1 (make_context env e c (BackendTaskGroup lib))) with
    | (Return a, m2) => (Return a, stopped (released c None (left_context m2)))
    | (Raise exc, m2) => (Raise exc, released c (Some exc) (left_context m2))
    | (OutOfFuel, m2) => (OutOfFuel, m2)
    end.
Proof.
  intros Hc Hp. pose proof (prepare_value _ _ Hp) as He.
  unfold start, async_with_client.
  unfold bind at 1. unfold bind at 1.
  rewrite (client_enter_eq _ Hc).
  revert Hp. unfold prepare, bind.
  destruct (set_started c (connected m c w1)) as [[ | | ] ?]; try discriminate.
  destruct (ensure_flow_run env c m0) as [[ | | ] ?]; try discriminate.
  destruct (validate_step env m2) as [[ | | ] ?]; try discriminate.
  unfold get_self. intros H. inversion H; subst. clear H.
  unfold with_context, bind, FlowRunContext_enter, try_finally. cbn.
  fold (at_yield m1 (make_context env (self m1) c (BackendTaskGroup lib))).
  destruct (body _) as [[ | | ] m4]; reflexivity.
Qed.

(** [start_sync] around a body: when the body returns, as [start]; when it
    raises, the context is left and the engine reset, and the client is
    not released. *)
Lemma start_sync_eq {A} ambient (body : M W A) m c w1 e m1 :
  get_client env (world m) = (inr c, w1) ->
  prepare env c (connected m c w1) = (Return e, m1) ->
  start_sync env ambient body m =
    match body (at_yield m1 (make_context env e c
                               (create_task_group_or_fallback ambient))) with
    | (Return a, m2) => (Return a, stopped (released c None (left_context m2)))
    | (Raise exc, m2) => (Raise exc, stopped (left_context m2))
    | (OutOfFuel, m2) => (OutOfFuel, m2)
    end.
Proof.
  intros Hc Hp. pose proof (prepare_value _ _ Hp) as He.
  unfold start_sync, try_finally.
  unfold bind at 1.
  rewrite (client_enter_eq _ Hc).
  revert Hp. unfold prepare, bind.
  destruct (set_started c (connected m c w1)) as [[ | | ] ?]; try discriminate.
  destruct (ensure_flow_run env c m0) as [[ | | ] ?]; try discriminate.
  destruct (validate_step env m2) as [[ | | ] ?]; try discriminate.
  unfold get_self. intros H. inversion H; subst. clear H.
  unfold with_context, bind, FlowRunContext_enter, try_finally. cbn.
  fold (at_yield m1 (make_context env (self m1) c
                       (create_task_group_or_fallback ambient))).
  destruct (body _) as [[ | | ] m4]; reflexivity.
Qed.

(** ** The steps of the driver body *)

Lemma is_pending_eq m fr :
  flow_run (self m) = Some fr ->
  is_pending m = (Return (State_is_pending (fr_state fr)), m).
Proof. intros H. unfold is_pending, bind, get_self. rewrite H. reflexivity. Qed.

Lemma is_running_eq m fr :
  flow_run (self m) = Some fr ->
  is_running m = (Return (State_is_running (fr_state fr)), m).
Proof. intros H. unfold is_running, bind, get_self. rewrite H. reflexivity. Qed.

Lemma handle_exception_eq m exc msg rf :
  handle_exception env exc msg rf m =
    set_state env
      (exception_to_failed_state exc
         (or_message msg "Flow run encountered an exception:")
         (match rf with
          | Some r => Some r
          | None => option_map (@ctx_result_factory W) (hd_error (contexts m))
          end)) m.
Proof. reflexivity. Qed.

Lemma pending_loop_done fuel m fr :
  flow_run (self m) = Some fr ->
  State_is_pending (fr_state fr) = false ->
  pending_loop env fuel m = (Return tt, m).
Proof.
  intros Hfr Hp.
  destruct fuel; cbn [pending_loop];
    rewrite (bind_Return _ _ _ (is_pending_eq _ Hfr)), Hp; reflexivity.
Qed.

Lemma running_loop_done rt fuel m fr :
  flow_run (self m) = Some fr ->
  State_is_running (fr_state fr) = false ->
  running_loop env rt fuel m = (Return None, m).
Proof.
  intros Hfr Hp.
  destruct fuel; cbn [running_loop];
    rewrite (bind_Return _ _ _ (is_running_eq _ Hfr)), Hp; reflexivity.
Qed.

(** The body on a short-circuited engine whose record is neither pending
    nor running: nothing is proposed, nothing is called. *)
Lemma run_body_short_circuited rt fuel m fr :
  short_circuit (self m) = true ->
  flow_run (self m) = Some fr ->
  State_is_pending (fr_state fr) = false ->
  State_is_running (fr_state fr) = false ->
  run_body env rt fuel m =
    match rt with
    | state_ => (Return (RState (fr_state fr)), m)
    | result_ => lift (State_result (fr_state fr) true) m
    end.
Proof.
  intros Hsc Hfr Hp Hr. unfold run_body, begin_run.
  assert (E : set_state env Running m = (Return (fr_state fr), m))
    by (rewrite set_state_short by exact Hsc; now apply state_eq).
  rewrite (bind_Return _ _ _ E).
  rewrite (bind_Return _ _ _ (pending_loop_done fuel _ Hfr Hp)).
  rewrite (bind_Return _ _ _ (running_loop_done rt fuel _ Hfr Hr)).
  destruct rt.
  - rewrite (bind_Return _ _ _ (state_eq _ Hfr)). reflexivity.
  - unfold result. rewrite (bind_Return _ _ _ (state_eq _ Hfr)). reflexivity.
Qed.

(** ** Creating the run record *)

Lemma name_cases (f : Flow W) (p : Params) :
  name_resolves env f p ->
  exists n : option string,
    (match _resolve_custom_flow_run_name env f p with
     | inr s => ret (Some s)
     | inl exc => if is_TypeError exc then ret None else raise exc
     end : M W (option string)) = ret n.
Proof.
  intros H. unfold name_resolves in H.
  destruct (_resolve_custom_flow_run_name env f p) as [exc | s].
  - exists None. rewrite (H exc eq_refl). reflexivity.
  - exists (Some s). reflexivity.
Qed.

Lemma create_flow_run_creates c m :
  creates_records env ->
  name_resolves env (flow (self m)) (parameters (self m)) ->
  exists fr w' evs,
    create_flow_run env c m =
      (Return fr, mkMachine (self m) w' (contexts m) (trace m ++ evs)) /\
    quiet evs.
Proof.
  intros [Ht Hf] Hn. destruct (name_cases Hn) as [n En].
  destruct m as [e w cs t]. cbn [self] in *.
  unfold create_flow_run, create_subflow_task_run.
  unfold bind, FlowRunContext_get, get_self, log, remote. cbn.
  destruct cs as [ | ctx rest]; cbn.
  - rewrite En. cbn.
    match goal with |- context [client_create_flow_run env c ?r ?w0] =>
      destruct (Hf c r w0) as (fr & w' & E); rewrite E end.
    cbn. eexists _, _, [_]. split; reflexivity.
  - match goal with |- context [client_create_task_run env c ?r ?w0] =>
      destruct (Ht c r w0) as (tr & w1 & E1); rewrite E1 end.
    cbn. rewrite En. cbn.
    match goal with |- context [client_create_flow_run env c ?r ?w0] =>
      destruct (Hf c r w0) as (fr & w' & E); rewrite E end.
    cbn. rewrite <- app_assoc. eexists _, _, [_; _]. split; reflexivity.
Qed.

Lemma ensure_flow_run_eq c m :
  record_available env (self m) ->
  exists fr w' evs,
    ensure_flow_run env c m =
      (Return tt,
       mkMachine (with_flow_run fr (self m)) w' (contexts m) (trace m ++ evs))
    /\ quiet evs
    /\ (forall fr0, flow_run (self m) = Some fr0 ->
          fr = fr0 /\ w' = world m /\ evs = []).
Proof.
  intros Hr. unfold ensure_flow_run, bind at 1, get_self.
  destruct (flow_run (self m)) as [fr0 | ] eqn:Hfr.
  - exists fr0, (world m), []. rewrite app_nil_r.
    split; [ | split; [ reflexivity | ] ].
    + unfold with_flow_run. rewrite <- Hfr, engine_eta, machine_eta.
      reflexivity.
    + intros fr1 E; inversion E; auto.
  - destruct (Hr Hfr) as [Hc Hn].
    destruct (create_flow_run_creates c m Hc Hn) as (fr & w' & evs & E & Q).
    exists fr, w', evs. rewrite (bind_Return _ _ _ E).
    split; [ reflexivity | split; [ exact Q | discriminate ] ].
Qed.

(** Preparation when the parameters are valid (or not validated). *)
Lemma prepare_valid c m validated :
  record_available env (self m) ->
  valid_parameters (flow (self m)) (parameters (self m)) validated ->
  exists fr w' evs,
    let e1 := mkEngine (flow (self m)) validated (Some fr) true (Some c)
                       (short_circuit (self m)) in
    prepare env c m =
      (Return e1, mkMachine e1 w' (contexts m) (trace m ++ evs))
    /\ quiet evs
    /\ (forall fr0, flow_run (self m) = Some fr0 -> fr = fr0).
Proof.
  intros Hr Hv.
  destruct m as [[f p r st cl sc] w cs t]. cbn [self flow parameters] in *.
  unfold prepare.
  set (m1 := mkMachine (mkEngine f p r true (Some c) sc) w cs t).
  assert (E1 : set_started c (mkMachine (mkEngine f p r st cl sc) w cs t)
               = (Return tt, m1)) by reflexivity.
  rewrite (bind_Return _ _ _ E1).
  destruct (@ensure_flow_run_eq c m1 Hr) as (fr & w' & evs & E2 & Q & U).
  rewrite (bind_Return _ _ _ E2).
  exists fr, w', evs. cbn. split; [ | split; [exact Q | ] ].
  - unfold validate_step, valid_parameters in *.
    unfold bind, get_self, try_except, set_parameters, set_self, get_self.
    cbn in *.
    destruct (should_validate_parameters f).
    + rewrite Hv. reflexivity.
    + subst validated. reflexivity.
  - intros fr0 H. cbn in U. now destruct (U fr0 H).
Qed.

(** Preparation when validation fails and the collaborator accepts the
    proposed FAILED state. *)
Lemma prepare_invalid c m exc :
  record_available env (self m) ->
  accepts_failed env ->
  short_circuit (self m) = false ->
  should_validate_parameters (flow (self m)) = true ->
  validate_parameters (flow (self m)) (parameters (self m)) = inl exc ->
  exists fr w' evs,
    let failed :=
      exception_to_failed_state exc validation_failed_msg
        (Some (ResultFactory_from_flow env (flow (self m)))) in
    let e1 := mkEngine (flow (self m)) (parameters (self m))
                       (Some (accept failed fr)) true (Some c) true in
    prepare env c m =
      (Return e1, mkMachine e1 w' (contexts m) (trace m ++ evs))
    /\ quiet evs.
Proof.
  intros Hr Ha Hsc Hsv Hv.
  destruct m as [[f p r st cl sc] w cs t].
  cbn [self flow parameters short_circuit] in *. subst sc.
  unfold prepare.
  set (m1 := mkMachine (mkEngine f p r true (Some c) false) w cs t).
  assert (E1 : set_started c (mkMachine (mkEngine f p r st cl false) w cs t)
               = (Return tt, m1)) by reflexivity.
  rewrite (bind_Return _ _ _ E1).
  destruct (@ensure_flow_run_eq c m1 Hr) as (fr & w1 & evs & E2 & Q & _).
  rewrite (bind_Return _ _ _ E2). cbn [self contexts trace m1 with_flow_run
    flow parameters _is_started _client short_circuit].
  set (failed := exception_to_failed_state exc validation_failed_msg
                   (Some (ResultFactory_from_flow env f))).
  destruct (Ha c failed (fr_id fr) w1 eq_refl) as (w2 & Hp).
  exists fr, w2, (evs ++ [EvProposeState (fr_id fr) failed]).
  split.
  - unfold validate_step, handle_exception, set_state, client, the_flow_run,
      write_flow_run, the_flow_run, set_subflow_state, set_short_circuit,
      FlowRunContext_get, remote, log, try_except, set_parameters, set_self,
      get_self, bind.
    cbn. rewrite Hsv, Hv. cbn. fold failed. rewrite Hp. cbn.
    rewrite <- app_assoc. reflexivity.
  - unfold quiet in *. rewrite forallb_app, Q. reflexivity.
Qed.

(** ** The body when the callable returns, and when it raises *)

Ltac unfold_engine :=
  unfold run_body, begin_run, handle_success, handle_exception, result,
    state, set_state, client, the_flow_run, write_flow_run, the_flow_run,
    set_subflow_state, call_fn, is_running, is_pending, FlowRunContext_get,
    try_except, remote, log, set_self, get_self, bind.

Lemma run_body_fails m fr c exc rt fuel :
  accepts_proposals env ->
  short_circuit (self m) = false ->
  flow_run (self m) = Some fr ->
  _is_started (self m) = true ->
  _client (self m) = Some c ->
  (forall w, exists w',
      flow_fn (flow (self m)) (parameters (self m)) w = (inl exc, w')) ->
  let failed :=
    exception_to_failed_state exc "Flow run encountered an exception:"
      (option_map (@ctx_result_factory W) (hd_error (contexts m))) in
  exists w' evs,
    run_body env rt (S fuel) m =
      (match rt with
       | state_ => Return (RState failed)
       | result_ =>
           Raise (ExcFrom FailedRunError
                          "Flow run encountered an exception:" exc)
       end,
       mkMachine (with_flow_run (accept failed (accept Running fr)) (self m))
                 w' (contexts m) (trace m ++ evs)).
Proof.
  intros Ha Hsc Hfr Hst Hcl Hfn failed.
  destruct m as [[f p r st cl sc] w cs t]. cbn in Hsc, Hfr, Hst, Hcl, Hfn.
  subst. cbn [contexts] in failed.
  destruct (Ha c Running (fr_id fr) w) as (w1 & H1).
  destruct (Hfn w1) as (w2 & H2).
  destruct (Ha c failed (fr_id fr) w2) as (w3 & H3).
  exists w3. eexists.
  cbn [run_body pending_loop running_loop].
  repeat (unfold_engine; cbn; try rewrite H1; try rewrite H2;
          try (fold failed; rewrite H3)).
  erewrite running_loop_done by reflexivity.
  destruct rt; cbn; repeat rewrite <- app_assoc; reflexivity.
Qed.

(** ** Counting events *)

Lemma count_app (p : Event W -> bool) t1 t2 :
  count p (t1 ++ t2) = count p t1 + count p t2.
Proof. unfold count. rewrite filter_app, length_app. reflexivity. Qed.

Lemma quiet_no_calls evs : quiet evs -> count (@is_call W) evs = 0.
Proof.
  unfold quiet, count. induction evs as [ | ev evs IH]; cbn; [reflexivity | ].
  intros H. apply andb_prop in H. destruct H as [H1 H2].
  destruct ev; cbn in *; try discriminate; auto.
Qed.

(** ** The cooperative driver *)

Lemma run_flow_eq lib (flow0 : Flow W) flow_run0 parameters0 rt fuel m :
  run_flow env lib flow0 flow_run0 parameters0 rt fuel m =
    start env lib (run_body env rt fuel)
          (mkMachine (new_engine flow0 parameters0 flow_run0)
                     (world m) (contexts m) (trace m)).
Proof. reflexivity. Qed.

(** C4.  With the same kind of collaborator and a callable that raises
    [exc] on the validated parameters, the run ends in the accepted FAILED
    state, which carries [exc]: [run_flow] with [return_type = "state"]
    returns that state, and with [return_type = "result"] its
    result-resolution raises an error whose cause is [exc]. *)
Theorem run_flow_turns_an_exception_into_failed :
  forall lib (flow0 : Flow W) flow_run0 parameters0 validated exc fuel m,
    let e0 := new_engine flow0 parameters0 flow_run0 in
    reachable env ->
    accepts_proposals env ->
    record_available env e0 ->
    valid_parameters flow0 (parameters e0) validated ->
    (forall w, exists w', flow_fn flow0 validated w = (inl exc, w')) ->
    (exists s m',
        run_flow env lib flow0 flow_run0 parameters0 state_ (S fuel) m
          = (Return (RState s), m') /\
        state_type s = FAILED /\
        (exists policy, state_data s = Some (PError exc policy)) /\
        durable_state m' = Some s) /\
    (exists wrapped s m',
        run_flow env lib flow0 flow_run0 parameters0 result_ (S fuel) m
          = (Raise wrapped, m') /\
        exc_cause wrapped = Some exc /\
        durable_state m' = Some s /\
        state_type s = FAILED).
Proof.
  intros lib flow0 flow_run0 parameters0 validated exc fuel m e0
         Hreach Hacc Hrec Hval Hfn.
  rewrite !run_flow_eq. fold e0.
  set (m0 := mkMachine e0 (world m) (contexts m) (trace m)).
  destruct (Hreach (world m0)) as (c & w1 & Hc).
  destruct (prepare_valid c (connected m0 c w1) validated Hrec Hval)
    as (fr & w2 & evs & Hp & _ & _).
  cbn zeta in Hp. rewrite !(start_eq lib _ m0 Hc Hp).
  split.
  - match goal with |- context [run_body env state_ (S fuel) ?m1] =>
      destruct (@run_body_fails m1 fr c exc state_ fuel Hacc eq_refl eq_refl
                                eq_refl eq_refl Hfn) as (w3 & evs' & Hb)
    end.
    rewrite Hb. eexists _, _. split; [reflexivity | ].
    cbn. repeat split. eexists; reflexivity.
  - match goal with |- context [run_body env result_ (S fuel) ?m1] =>
      destruct (@run_body_fails m1 fr c exc result_ fuel Hacc eq_refl eq_refl
                                eq_refl eq_refl Hfn) as (w3 & evs' & Hb)
    end.
    rewrite Hb. eexists _, _, _. split; [reflexivity | ].
    cbn. repeat split.
Qed.

(** C2, amended.  When validation is enabled and the parameters fail it,
    and the collaborator accepts the FAILED state that [handle_exception]
    proposes, [start] does not raise: it yields the engine with the
    short-circuit flag set and the run record FAILED.  The driver then ends,
    whatever its fuel, without a single call of the work's callable; the
    validation error shows only in the state, or wrapped by
    result-resolution. *)
Theorem validation_failure_short_circuits :
  forall lib (flow0 : Flow W) flow_run0 parameters0 exc m,
    let e0 := new_engine flow0 parameters0 flow_run0 in
    let m0 := mkMachine e0 (world m) (contexts m) (trace m) in
    let failed :=
      exception_to_failed_state exc validation_failed_msg
        (Some (ResultFactory_from_flow env flow0)) in
    reachable env ->
    accepts_failed env ->
    record_available env e0 ->
    should_validate_parameters flow0 = true ->
    validate_parameters flow0 (parameters e0) = inl exc ->
    (exists run m1,
        start env lib get_self m0 = (Return run, m1) /\
        short_circuit run = true /\
        option_map fr_state (flow_run run) = Some failed) /\
    (forall rt fuel, exists m',
        run_flow env lib flow0 flow_run0 parameters0 rt fuel m =
          (match rt with
           | state_ => Return (RState failed)
           | result_ =>
               Raise (ExcFrom FailedRunError validation_failed_msg exc)
           end, m') /\
        count (@is_call W) (trace m') = count (@is_call W) (trace m) /\
        short_circuit (self m') = true /\
        durable_state m' = Some failed).
Proof.
  intros lib flow0 flow_run0 parameters0 exc m e0 m0 failed
         Hreach Hacc Hrec Hsv Hv.
  destruct (Hreach (world m0)) as (c & w1 & Hc).
  destruct (prepare_invalid c (connected m0 c w1) Hrec Hacc eq_refl Hsv Hv)
    as (fr & w2 & evs & Hp & Q).
  cbn zeta in Hp. split.
  - rewrite (start_eq lib _ m0 Hc Hp). cbn. eexists _, _.
    split; [reflexivity | split; reflexivity].
  - intros rt fuel. rewrite run_flow_eq. fold e0. fold m0.
    rewrite (start_eq lib _ m0 Hc Hp).
    erewrite run_body_short_circuited by reflexivity.
    destruct rt; cbn [lift State_result failed exception_to_failed_state
                        state_type state_data state_message];
      eexists; (split; [reflexivity | ]);
      (split; [ | split; reflexivity]);
      unfold stopped, released, left_context, at_yield, connected, m0, raise;
      cbn [trace snd]; rewrite !count_app, (quiet_no_calls Q); cbn; lia.
Qed.

(** C7.  An engine without a run record, started inside the context of
    another run [parent], first asks the collaborator for a child task run
    under [parent]'s id and only then for its own run record, which it
    requests with that child's id as parent linkage; the record the
    collaborator answers with becomes the engine's.  Outside any context
    it asks for the run record only, with no parent linkage. *)
Theorem nested_run_registers_child_then_creates_record :
  forall c m,
    flow_run (self m) = None ->
    creates_records env ->
    name_resolves env (flow (self m)) (parameters (self m)) ->
    (forall outer rest parent,
        contexts m = outer :: rest ->
        ctx_flow_run outer = Some parent ->
        exists treq child w1 freq fr w2,
          client_create_task_run env c treq (world m) = (inr child, w1) /\
          trc_flow_run_id treq = Some (fr_id parent) /\
          client_create_flow_run env c freq w1 = (inr fr, w2) /\
          frc_parent_task_run_id freq = Some (tr_id child) /\
          ensure_flow_run env c m =
            (Return tt,
             mkMachine (with_flow_run fr (self m)) w2 (contexts m)
                       (trace m ++ [EvCreateTaskRun treq;
                                    EvCreateFlowRun freq]))) /\
    (contexts m = [] ->
        exists freq fr w2,
          client_create_flow_run env c freq (world m) = (inr fr, w2) /\
          frc_parent_task_run_id freq = None /\
          ensure_flow_run env c m =
            (Return tt,
             mkMachine (with_flow_run fr (self m)) w2 (contexts m)
                       (trace m ++ [EvCreateFlowRun freq]))).
Proof.
  intros c m Hnone [Ht Hf] Hn. destruct (name_cases Hn) as [n En].
  destruct m as [e w cs t]. cbn [self world contexts trace] in *.
  split.
  - intros outer rest parent -> Hparent.
    unfold ensure_flow_run, create_flow_run, create_subflow_task_run,
      set_flow_run.
    unfold bind, FlowRunContext_get, get_self, set_self, log, remote. cbn.
    rewrite Hnone. cbn. rewrite Hparent.
    match goal with |- context [client_create_task_run env c ?r ?w0] =>
      destruct (Ht c r w0) as (child & w1 & E1); rewrite E1;
      exists r, child, w1 end.
    cbn. rewrite En. cbn.
    match goal with |- context [client_create_flow_run env c ?r ?w0] =>
      destruct (Hf c r w0) as (fr & w2 & E2); rewrite E2;
      exists r, fr, w2 end.
    cbn. rewrite <- app_assoc.
    repeat split; first [assumption | reflexivity].
  - intros ->.
    unfold ensure_flow_run, create_flow_run, set_flow_run.
    unfold bind, FlowRunContext_get, get_self, set_self, log, remote. cbn.
    rewrite Hnone. cbn. rewrite En. cbn.
    match goal with |- context [client_create_flow_run env c ?r ?w0] =>
      destruct (Hf c r w0) as (fr & w2 & E2); rewrite E2;
      exists r, fr, w2 end.
    cbn. repeat split; first [assumption | reflexivity].
Qed.

(** C9, amended.  A [TypeError] raised by custom-name resolution is
    swallowed: [create_flow_run] asks for the run record with no name, and
    with a collaborator that is reachable, creates records and accepts a
    proposed FAILED state, [start] reaches its [yield]. *)
Theorem custom_name_TypeError_is_swallowed :
  forall lib (flow0 : Flow W) parameters0 exc m,
    let e0 := new_engine flow0 parameters0 None in
    let m0 := mkMachine e0 (world m) (contexts m) (trace m) in
    _resolve_custom_flow_run_name env flow0 (parameters e0) = inl exc ->
    is_TypeError exc = true ->
    creates_records env ->
    (forall c, exists fr m1 before freq,
        create_flow_run env c m0 = (Return fr, m1) /\
        trace m1 = trace m0 ++ before ++ [EvCreateFlowRun freq] /\
        frc_name freq = None) /\
    (reachable env -> accepts_failed env ->
     exists run m1, start env lib get_self m0 = (Return run, m1)).
Proof.
  intros lib flow0 parameters0 exc m e0 m0 Hres Hty Hcr.
  assert (Hn : name_resolves env flow0 (parameters e0)).
  { intros exc' E. rewrite Hres in E. inversion E; subst. exact Hty. }
  split.
  - intros c. destruct Hcr as [Ht Hf]. unfold e0 in Hres. cbn in Hres.
    unfold create_flow_run, create_subflow_task_run.
    unfold bind, FlowRunContext_get, get_self, log, remote. cbn.
    destruct (contexts m) as [ | outer rest]; cbn.
    + rewrite Hres, Hty. cbn.
      match goal with |- context [client_create_flow_run env c ?r ?w0] =>
        destruct (Hf c r w0) as (fr & w2 & E2); rewrite E2 end.
      cbn. eexists _, _, [], _. split; [reflexivity | split; reflexivity].
    + match goal with |- context [client_create_task_run env c ?r ?w0] =>
        destruct (Ht c r w0) as (child & w1 & E1); rewrite E1 end.
      cbn. rewrite Hres, Hty. cbn.
      match goal with |- context [client_create_flow_run env c ?r ?w0] =>
        destruct (Hf c r w0) as (fr & w2 & E2); rewrite E2 end.
      cbn. eexists _, _, [_], _. rewrite <- app_assoc.
      split; [reflexivity | split; reflexivity].
  - intros Hreach Hacc.
    destruct (Hreach (world m0)) as (c & w1 & Hc).
    assert (Hrec : record_available env (self (connected m0 c w1)))
      by (intros _; split; assumption).
    destruct (should_validate_parameters flow0) eqn:Hsv.
    + destruct (validate_parameters flow0 (parameters e0)) as [bad | good]
        eqn:Hv.
      * destruct (prepare_invalid c (connected m0 c w1) Hrec Hacc eq_refl
                                  Hsv Hv) as (fr & w2 & evs & Hp & _).
        cbn zeta in Hp. rewrite (start_eq lib _ m0 Hc Hp).
        eexists _, _. reflexivity.
      * assert (Hval : valid_parameters flow0 (parameters e0) good)
          by (unfold valid_parameters; rewrite Hsv; exact Hv).
        destruct (prepare_valid c (connected m0 c w1) good Hrec Hval)
          as (fr & w2 & evs & Hp & _).
        cbn zeta in Hp. rewrite (start_eq lib _ m0 Hc Hp).
        eexists _, _. reflexivity.
    + assert (Hval : valid_parameters flow0 (parameters e0) (parameters e0))
        by (unfold valid_parameters; rewrite Hsv; reflexivity).
      destruct (prepare_valid c (connected m0 c w1) (parameters e0) Hrec Hval)
        as (fr & w2 & evs & Hp & _).
      cbn zeta in Hp. rewrite (start_eq lib _ m0 Hc Hp).
      eexists _, _. reflexivity.
Qed.

(** ** The two drivers compared *)

Lemma alike_ret {A} (a : A) : alike (ret a : M W A) (ret a).
Proof. intros m1 m2 H. split; [reflexivity | exact H]. Qed.

Lemma alike_raise {A} exc : alike (raise exc : M W A) (raise exc).
Proof. intros m1 m2 H. split; [reflexivity | exact H]. Qed.

Lemma alike_out_of_fuel {A} : alike (out_of_fuel : M W A) out_of_fuel.
Proof. intros m1 m2 H. split; [reflexivity | exact H]. Qed.

Lemma alike_lift {A} (r : Exn + A) : alike (lift r : M W A) (lift r).
Proof. destruct r; [apply alike_raise | apply alike_ret]. Qed.

Lemma alike_bind {A B} (c1 c2 : M W A) (k1 k2 : A -> M W B) :
  alike c1 c2 -> (forall a, alike (k1 a) (k2 a)) ->
  alike (bind c1 k1) (bind c2 k2).
Proof.
  intros Hc Hk m1 m2 H. unfold bind.
  destruct (Hc m1 m2 H) as [E S].
  destruct (c1 m1) as [o1 n1], (c2 m2) as [o2 n2]. cbn in E, S. subst o2.
  destruct o1 as [a | exc | ].
  - apply Hk; exact S.
  - split; [reflexivity | exact S].
  - split; [reflexivity | exact S].
Qed.

Lemma alike_try_except {A} (c1 c2 : M W A) (h1 h2 : Exn -> M W A) :
  alike c1 c2 -> (forall exc, alike (h1 exc) (h2 exc)) ->
  alike (try_except c1 h1) (try_except c2 h2).
Proof.
  intros Hc Hh m1 m2 H. unfold try_except.
  destruct (Hc m1 m2 H) as [E S].
  destruct (c1 m1) as [o1 n1], (c2 m2) as [o2 n2]. cbn in E, S. subst o2.
  destruct o1 as [a | exc | ].
  - split; [reflexivity | exact S].
  - apply Hh; exact S.
  - split; [reflexivity | exact S].
Qed.

Lemma alike_get_self : alike (@get_self W) get_self.
Proof.
  intros m1 m2 H. split; [ | exact H]. cbn. destruct H as [E _].
  now rewrite E.
Qed.

Lemma alike_set_self e : alike (set_self e) (set_self e).
Proof.
  intros m1 m2 (E1 & E2 & E3). split; [reflexivity | ].
  repeat split; assumption.
Qed.

Lemma alike_log (ev1 ev2 : Event W) : alike (log ev1) (log ev2).
Proof.
  intros m1 m2 (E1 & E2 & E3). split; [reflexivity | ].
  repeat split; assumption.
Qed.

Lemma alike_remote {A} (f : W -> (Exn + A) * W) : alike (remote f) (remote f).
Proof.
  intros m1 m2 (E1 & E2 & E3). unfold remote. rewrite E2.
  destruct (f (world m2)) as [[exc | a] w']; cbn;
    (split; [reflexivity | repeat split; assumption]).
Qed.

Ltac alike_step :=
  first
    [ apply @alike_ret | apply @alike_raise | apply @alike_out_of_fuel
    | apply @alike_lift | apply @alike_get_self | apply @alike_set_self
    | apply @alike_log | apply @alike_remote
    | apply @alike_bind; [ | intro ]
    | apply @alike_try_except; [ | intro ]
    | match goal with
      | |- alike (match ?x with _ => _ end) _ => destruct x
      end ].

Lemma alike_state : alike (@state W) state.
Proof. unfold state, the_flow_run. repeat alike_step. Qed.

Lemma alike_set_state s : alike (set_state env s) (set_state env s).
Proof.
  unfold set_state, client, write_flow_run, the_flow_run, set_subflow_state.
  repeat first [ apply @alike_state | alike_step ].
Qed.

Lemma alike_handle_exception exc msg rf :
  alike (handle_exception env exc msg rf) (handle_exception env exc msg rf).
Proof.
  intros m1 m2 H. rewrite !handle_exception_eq.
  destruct H as (E1 & E2 & E3). rewrite E3.
  apply alike_set_state. repeat split; assumption.
Qed.

Lemma alike_is_pending : alike (@is_pending W) is_pending.
Proof. unfold is_pending. repeat alike_step. Qed.

Lemma alike_is_running : alike (@is_running W) is_running.
Proof. unfold is_running. repeat alike_step. Qed.

Lemma alike_call_fn : alike (@call_fn W) call_fn.
Proof. unfold call_fn. repeat alike_step. Qed.

Lemma alike_pending_loops fuel :
  alike (pending_loop env fuel) (pending_loop_sync env fuel).
Proof.
  induction fuel as [ | fuel IH]; cbn [pending_loop pending_loop_sync];
    (apply @alike_bind; [apply @alike_is_pending | intros []; alike_step]).
  all: unfold begin_run;
    repeat first [ apply IH | apply @alike_set_state | alike_step ].
Qed.

Lemma alike_running_loops rt fuel :
  alike (running_loop env rt fuel) (running_loop_sync env rt fuel).
Proof.
  induction fuel as [ | fuel IH]; cbn [running_loop running_loop_sync];
    (apply @alike_bind; [apply @alike_is_running | intros []; alike_step]).
  all: unfold handle_success;
    repeat first [ apply IH | apply @alike_call_fn | apply @alike_set_state
                 | apply @alike_handle_exception | alike_step ].
Qed.

Lemma alike_run_bodies rt fuel :
  alike (run_body env rt fuel) (run_body_sync env rt fuel).
Proof.
  unfold run_body, run_body_sync, begin_run, result.
  repeat first [ apply @alike_pending_loops | apply @alike_running_loops
               | apply @alike_set_state | apply @alike_state | alike_step ].
Qed.

Lemma start_cases {A} lib (body : M W A) m :
  start env lib body m =
    match client_enter env m with
    | (Return c, m1) =>
        match prepare env c m1 with
        | (Return e, m2) =>
            match body (at_yield m2 (make_context env e c
                                       (BackendTaskGroup lib))) with
            | (Return a, m3) =>
                (Return a, stopped (released c None (left_context m3)))
            | (Raise exc, m3) =>
                (Raise exc, released c (Some exc) (left_context m3))
            | (OutOfFuel, m3) => (OutOfFuel, m3)
            end
        | (Raise exc, m2) => (Raise exc, released c (Some exc) m2)
        | (OutOfFuel, m2) => (OutOfFuel, m2)
        end
    | (Raise exc, m1) => (Raise exc, m1)
    | (OutOfFuel, m1) => (OutOfFuel, m1)
    end.
Proof.
  unfold start, async_with_client. unfold bind at 1. unfold bind at 1.
  destruct (client_enter env m) as [[c | exc | ] m1]; try reflexivity.
  unfold prepare, bind.
  destruct (set_started c m1) as [[ [] | exc | ] m2]; try reflexivity.
  destruct (ensure_flow_run env c m2) as [[ [] | exc | ] m3]; try reflexivity.
  destruct (validate_step env m3) as [[ [] | exc | ] m4]; try reflexivity.
  unfold get_self, with_context, bind, FlowRunContext_enter, try_finally.
  cbn.
  fold (at_yield m4 (make_context env (self m4) c (BackendTaskGroup lib))).
  destruct (body _) as [[ a | exc | ] m5]; reflexivity.
Qed.

Lemma start_sync_cases {A} ambient (body : M W A) m :
  start_sync env ambient body m =
    match client_enter env m with
    | (Return c, m1) =>
        match prepare env c m1 with
        | (Return e, m2) =>
            match body (at_yield m2 (make_context env e c
                          (create_task_group_or_fallback ambient))) with
            | (Return a, m3) =>
                (Return a, stopped (released c None (left_context m3)))
            | (Raise exc, m3) => (Raise exc, stopped (left_context m3))
            | (OutOfFuel, m3) => (OutOfFuel, m3)
            end
        | (Raise exc, m2) => (Raise exc, stopped m2)
        | (OutOfFuel, m2) => (OutOfFuel, m2)
        end
    | (Raise exc, m1) => (Raise exc, stopped m1)
    | (OutOfFuel, m1) => (OutOfFuel, m1)
    end.
Proof.
  unfold start_sync, try_finally. unfold bind at 1.
  destruct (client_enter env m) as [[c | exc | ] m1]; try reflexivity.
  unfold prepare, bind.
  destruct (set_started c m1) as [[ [] | exc | ] m2]; try reflexivity.
  destruct (ensure_flow_run env c m2) as [[ [] | exc | ] m3]; try reflexivity.
  destruct (validate_step env m3) as [[ [] | exc | ] m4]; try reflexivity.
  unfold get_self, with_context, bind, FlowRunContext_enter, try_finally.
  cbn.
  fold (at_yield m4 (make_context env (self m4) c
                       (create_task_group_or_fallback ambient))).
  destruct (body _) as [[ a | exc | ] m5]; reflexivity.
Qed.

Lemma run_flow_sync_eq ambient (flow0 : Flow W) flow_run0 parameters0 rt
      fuel m :
  run_flow_sync env ambient flow0 flow_run0 parameters0 rt fuel m =
    start_sync env ambient (run_body_sync env rt fuel)
               (mkMachine (new_engine flow0 parameters0 flow_run0)
                          (world m) (contexts m) (trace m)).
Proof. reflexivity. Qed.

(** What the comparison of the two drivers observes of a final machine:
    the run record (hence the final state and its type) and the world. *)
Lemma scopes_agree {A} lib ambient (body1 body2 : M W A) m :
  alike body1 body2 ->
  let a := start env lib body1 m in
  let b := start_sync env ambient body2 m in
  fst a = fst b /\
  flow_run (self (snd a)) = flow_run (self (snd b)) /\
  world (snd a) = world (snd b).
Proof.
  intros Hb a b. subst a b. rewrite start_cases, start_sync_cases.
  destruct (client_enter env m) as [[c | exc | ] m1]; [ | now cbn | now cbn].
  destruct (prepare env c m1) as [[e | exc | ] m2]; [ | now cbn | now cbn].
  set (mA := at_yield m2 (make_context env e c (BackendTaskGroup lib))).
  set (mS := at_yield m2 (make_context env e c
                            (create_task_group_or_fallback ambient))).
  assert (S : sim mA mS) by (repeat split).
  destruct (Hb mA mS S) as [E (S1 & S2 & _)].
  destruct (body1 mA) as [o1 n1], (body2 mS) as [o2 n2]. cbn in E, S1, S2.
  subst o2. destruct o1 as [ r | exc | ]; cbn; rewrite S1, S2; auto.
Qed.

(** C8, amended.  The drivers are written for different kinds of
    callable: [run_flow] awaits the call, [run_flow_sync] does not.  Given
    the same body, as a coroutine function to [run_flow] and as a plain
    function to [run_flow_sync], against the same collaborator and from
    the same starting point, the two drivers end with the same outcome
    (the same returned value or state, the same raised error, or both
    still looping when the fuel runs out) and leave the same run record,
    hence the same final state and state type, and the same world.  This
    holds for every body and every collaborator, so in particular for
    immediate success, validation failure, a raised error answered by
    RETRYING and then success, and terminal failure. *)
Theorem run_flow_and_run_flow_sync_agree :
  forall lib ambient (flow0 : Flow W) flow_run0 parameters0 rt fuel m,
    let a := run_flow env lib (async_def_under_run_flow flow0)
                      flow_run0 parameters0 rt fuel m in
    let b := run_flow_sync env ambient (plain_def_under_run_flow_sync flow0)
                           flow_run0 parameters0 rt fuel m in
    fst a = fst b /\
    flow_run (self (snd a)) = flow_run (self (snd b)) /\
    option_map state_type (durable_state (snd a))
      = option_map state_type (durable_state (snd b)) /\
    world (snd a) = world (snd b).
Proof.
  intros lib ambient flow0 flow_run0 parameters0 rt fuel m a b.
  unfold async_def_under_run_flow, plain_def_under_run_flow_sync in a, b.
  destruct (@scopes_agree _ lib ambient _ _
              (mkMachine (new_engine flow0 parameters0 flow_run0)
                         (world m) (contexts m) (trace m))
              (@alike_run_bodies rt fuel)) as (E1 & E2 & E3).
  subst a b. rewrite run_flow_eq, run_flow_sync_eq. unfold durable_state.
  repeat split; try assumption. now rewrite E2.
Qed.

(** ** What the driver body changes, and what it leaves alone *)

Lemma same_identity_refl r : same_identity r r.
Proof. destruct r; cbn; auto. Qed.

Lemma same_identity_trans r1 r2 r3 :
  same_identity r1 r2 -> same_identity r2 r3 -> same_identity r1 r3.
Proof.
  destruct r1, r2, r3; cbn; try tauto.
  intros (A1 & A2 & A3 & A4) (B1 & B2 & B3 & B4).
  repeat split; congruence.
Qed.

Lemma same_identity_id r r' :
  same_identity r r' -> option_map fr_id r' = option_map fr_id r.
Proof.
  destruct r, r'; cbn; try tauto. intros (H & _). now rewrite H.
Qed.

Lemma body_step_refl m : body_step m m.
Proof.
  repeat split; try apply same_identity_refl.
  exists []. split; [now rewrite app_nil_r | constructor].
Qed.

Lemma body_step_trace m w evs :
  Forall (body_event (self m)) evs ->
  body_step m (mkMachine (self m) w (contexts m) (trace m ++ evs)).
Proof.
  intros H. repeat split; try apply same_identity_refl.
  exists evs. split; [reflexivity | exact H].
Qed.

Lemma body_step_trans m1 m2 m3 :
  body_step m1 m2 -> body_step m2 m3 -> body_step m1 m3.
Proof.
  intros (A1 & A2 & A3 & A4 & A5 & A6 & A0 & A7 & evs1 & A8 & A9)
         (B1 & B2 & B3 & B4 & B5 & B6 & B0 & B7 & evs2 & B8 & B9).
  repeat split; try congruence.
  - eapply same_identity_trans; eassumption.
  - intros H. rewrite B0, A0; congruence.
  - exists (evs1 ++ evs2). split.
    + rewrite B8, A8, app_assoc. reflexivity.
    + apply Forall_app. split; [exact A9 | ].
      eapply Forall_impl; [ | exact B9 ].
      intros ev. unfold body_event.
      rewrite A2, A5, (same_identity_id _ _ A6). auto.
Qed.

Lemma within_ret {A} (a : A) : within body_step (ret a : M W A).
Proof. intros m. apply body_step_refl. Qed.

Lemma within_raise {A} exc : within body_step (raise exc : M W A).
Proof. intros m. apply body_step_refl. Qed.

Lemma within_out_of_fuel {A} : within body_step (out_of_fuel : M W A).
Proof. intros m. apply body_step_refl. Qed.

Lemma within_lift {A} (r : Exn + A) : within body_step (lift r : M W A).
Proof. destruct r; intros m; apply body_step_refl. Qed.

Lemma within_get_self : within body_step (@get_self W).
Proof. intros m. apply body_step_refl. Qed.

Lemma within_bind {A B} (c : M W A) (k : A -> M W B) :
  within body_step c -> (forall a, within body_step (k a)) ->
  within body_step (bind c k).
Proof.
  intros Hc Hk m. unfold bind. specialize (Hc m).
  destruct (c m) as [[a | exc | ] m1]; cbn in *; try exact Hc.
  eapply body_step_trans; [exact Hc | apply Hk].
Qed.

Lemma within_try_except {A} (c : M W A) (h : Exn -> M W A) :
  within body_step c -> (forall exc, within body_step (h exc)) ->
  within body_step (try_except c h).
Proof.
  intros Hc Hh m. unfold try_except. specialize (Hc m).
  destruct (c m) as [[a | exc | ] m1]; cbn in *; try exact Hc.
  eapply body_step_trans; [exact Hc | apply Hh].
Qed.

Lemma within_sleep : within body_step (log (@EvSleep W 1)).
Proof.
  intros m. apply body_step_trace. constructor; [reflexivity | constructor].
Qed.

Lemma within_state : within body_step (@state W).
Proof.
  intros m. rewrite state_keeps_machine. apply body_step_refl.
Qed.

Lemma within_is_pending : within body_step (@is_pending W).
Proof.
  intros m. unfold is_pending, bind, get_self.
  destruct (flow_run (self m)); apply body_step_refl.
Qed.

Lemma within_is_running : within body_step (@is_running W).
Proof.
  intros m. unfold is_running, bind, get_self.
  destruct (flow_run (self m)); apply body_step_refl.
Qed.

Lemma within_call_fn : within body_step (@call_fn W).
Proof.
  intros m. unfold call_fn, bind, get_self, log, remote. cbn.
  destruct (flow_fn (flow (self m)) (parameters (self m)) (world m))
    as [[exc | v] w']; cbn;
    (apply body_step_trace; constructor; [reflexivity | constructor]).
Qed.

Lemma within_set_state s :
  driver_proposal s -> within body_step (set_state env s).
Proof.
  intros Hs m. destruct (short_circuit (self m)) eqn:Hsc.
  - rewrite set_state_short by exact Hsc. apply within_state.
  - destruct m as [[f p r st cl sc] w cs t]. cbn in Hsc. subst sc.
    unfold set_state, client, the_flow_run, write_flow_run, the_flow_run,
      set_subflow_state, remote, log, set_self, get_self, bind.
    cbn. destruct st; cbn; [ | apply body_step_refl].
    destruct cl as [c | ]; cbn; [ | apply body_step_refl].
    destruct r as [fr | ]; cbn; [ | apply body_step_refl].
    destruct (propose_state env c s (fr_id fr) w) as [[exc | a] w']; cbn;
      (repeat split; try discriminate;
       exists [EvProposeState (fr_id fr) s];
       (split; [reflexivity | ]);
       constructor; [ | constructor ];
       cbn; repeat split; assumption).
Qed.

Lemma within_handle_exception exc msg rf :
  within body_step (handle_exception env exc msg rf).
Proof.
  intros m. rewrite handle_exception_eq. apply within_set_state.
  right. right. reflexivity.
Qed.

Ltac within_step :=
  first
    [ apply @within_ret | apply @within_raise | apply @within_out_of_fuel
    | apply @within_lift | apply @within_get_self | apply @within_sleep
    | apply @within_state | apply @within_is_pending
    | apply @within_is_running | apply @within_call_fn
    | apply @within_handle_exception
    | apply @within_set_state; [unfold driver_proposal; tauto]
    | apply @within_bind; [ | intro ]
    | apply @within_try_except; [ | intro ]
    | match goal with
      | |- within _ (match ?x with _ => _ end) => destruct x
      end ].

Lemma within_pending_loop fuel : within body_step (pending_loop env fuel).
Proof.
  induction fuel as [ | fuel IH]; cbn [pending_loop]; unfold begin_run;
    repeat first [ apply IH | within_step ].
Qed.

Lemma within_pending_loop_sync fuel :
  within body_step (pending_loop_sync env fuel).
Proof.
  induction fuel as [ | fuel IH]; cbn [pending_loop_sync]; unfold begin_run;
    repeat first [ apply IH | within_step ].
Qed.

Lemma within_running_loop rt fuel :
  within body_step (running_loop env rt fuel).
Proof.
  induction fuel as [ | fuel IH]; cbn [running_loop]; unfold handle_success;
    repeat first [ apply IH | within_step ].
Qed.

Lemma within_running_loop_sync rt fuel :
  within body_step (running_loop_sync env rt fuel).
Proof.
  induction fuel as [ | fuel IH]; cbn [running_loop_sync];
    unfold handle_success;
    repeat first [ apply IH | within_step ].
Qed.

Lemma within_run_body rt fuel : within body_step (run_body env rt fuel).
Proof.
  unfold run_body, begin_run, result.
  repeat first [ apply @within_pending_loop | apply @within_running_loop
               | within_step ].
Qed.

Lemma within_run_body_sync rt fuel :
  within body_step (run_body_sync env rt fuel).
Proof.
  unfold run_body_sync, begin_run, result.
  repeat first [ apply @within_pending_loop_sync
               | apply @within_running_loop_sync | within_step ].
Qed.

Lemma body_step_engine_kept m m' : body_step m m' -> engine_kept m m'.
Proof.
  intros (H1 & H2 & H3 & H4 & H5 & H6 & _ & H7 & _).
  repeat split; assumption.
Qed.

Lemma short_circuited_events e evs :
  short_circuit e = true ->
  Forall (body_event e) evs ->
  Forall (fun ev => is_collaborator_call ev = false) evs.
Proof.
  intros Hsc H. eapply Forall_impl; [ | exact H ].
  intros ev. destruct ev; cbn; try tauto.
  intros (E & _). congruence.
Qed.

Lemma body_step_silent m m' :
  short_circuit (self m) = true -> body_step m m' -> silent m m'.
Proof.
  intros Hsc (H1 & H2 & H3 & H4 & H5 & _ & H6 & H7 & evs & H8 & H9).
  split; [ | split; [exact H7 | ] ].
  - rewrite <- (engine_eta (self m')), <- (engine_eta (self m)).
    rewrite H1, H2, H3, H4, H5, (H6 Hsc). reflexivity.
  - exists evs. split; [exact H8 | ].
    eapply short_circuited_events; eassumption.
Qed.

(** X1.  However the body of a driver ends (a value, an exception, or
    still looping), it leaves the engine's flow, parameters, started flag,
    client, short-circuit flag and the context stack as they were, and the
    run record keeps its id, name, parameters and parent linkage: only the
    record's state fields can have moved.  Both drivers. *)
Theorem driver_body_keeps_engine_and_record_identity :
  forall rt fuel m,
    engine_kept m (snd (run_body env rt fuel m)) /\
    engine_kept m (snd (run_body_sync env rt fuel m)).
Proof.
  intros rt fuel m. split; apply body_step_engine_kept;
    [apply within_run_body | apply within_run_body_sync].
Qed.

(** X2.  Everything a driver body does outside the process is a
    one-second sleep, a proposal of RUNNING, COMPLETED or a FAILED state
    for the engine's own run record, or a call of the work's callable on
    the engine's parameters: it never creates a record, never enters or
    leaves a context or a client, and never proposes for another run.
    Both drivers. *)
Theorem driver_body_events :
  forall rt fuel m,
    body_trace m (snd (run_body env rt fuel m)) /\
    body_trace m (snd (run_body_sync env rt fuel m)).
Proof.
  intros rt fuel m. split;
    [ destruct (@within_run_body rt fuel m)
        as (_ & _ & _ & _ & _ & _ & _ & _ & H)
    | destruct (@within_run_body_sync rt fuel m)
        as (_ & _ & _ & _ & _ & _ & _ & _ & H) ];
    exact H.
Qed.

(** X3.  On a short-circuited engine a whole driver body, whatever the
    run record's state, the return type and the fuel, sends nothing to the
    collaborator and leaves the engine object, run record included,
    exactly as it was.  Both drivers. *)
Theorem short_circuited_driver_body_is_silent :
  forall rt fuel m,
    short_circuit (self m) = true ->
    silent m (snd (run_body env rt fuel m)) /\
    silent m (snd (run_body_sync env rt fuel m)).
Proof.
  intros rt fuel m Hsc. split; apply body_step_silent; try exact Hsc;
    [apply within_run_body | apply within_run_body_sync].
Qed.

(** ** The two start scopes, however their preparation ends *)

Lemma client_enter_cases m :
  (exists c w', get_client env (world m) = (inr c, w') /\
                client_enter env m = (Return c, connected m c w')) \/
  (exists exc w', get_client env (world m) = (inl exc, w') /\
                  client_enter env m =
                    (Raise exc,
                     mkMachine (self m) w' (contexts m) (trace m))).
Proof.
  unfold client_enter, remote, log, bind, ret, connected.
  destruct (get_client env (world m)) as [[exc | c] w']; cbn.
  - right. eauto.
  - left. eauto.
Qed.

Lemma set_state_cases s m :
  fst (set_state env s m) <> OutOfFuel /\
  (trace (snd (set_state env s m)) = trace m \/
   exists fr, flow_run (self m) = Some fr /\
              short_circuit (self m) = false /\
              trace (snd (set_state env s m))
                = trace m ++ [EvProposeState (fr_id fr) s]).
Proof.
  destruct (short_circuit (self m)) eqn:Hsc.
  - rewrite set_state_short by exact Hsc. rewrite state_keeps_machine.
    split; [ | now left].
    unfold state, the_flow_run, bind, get_self.
    destruct (flow_run (self m)); discriminate.
  - destruct m as [[f p r st cl sc] w cs t]. cbn in Hsc. subst sc.
    unfold set_state, client, the_flow_run, write_flow_run, the_flow_run,
      set_subflow_state, remote, log, set_self, get_self, bind.
    cbn. destruct st; cbn; [ | split; [discriminate | now left]].
    destruct cl as [c | ]; cbn; [ | split; [discriminate | now left]].
    destruct r as [fr | ]; cbn; [ | split; [discriminate | now left]].
    destruct (propose_state env c s (fr_id fr) w) as [[exc | a] w']; cbn;
      (split; [discriminate | right; exists fr; repeat split]).
Qed.

Ltac finish_create :=
  cbn; split; [discriminate | ];
  split; [reflexivity | ]; split; [reflexivity | ];
  first [ rewrite <- ?app_assoc; eexists; split;
          [reflexivity | repeat constructor]
        | exists []; split; [now rewrite app_nil_r | constructor] ].

Lemma create_flow_run_cases c m :
  fst (create_flow_run env c m) <> OutOfFuel /\
  self (snd (create_flow_run env c m)) = self m /\
  contexts (snd (create_flow_run env c m)) = contexts m /\
  exists evs,
    trace (snd (create_flow_run env c m)) = trace m ++ evs /\
    Forall (fun ev => is_create ev = true) evs.
Proof.
  destruct m as [e w cs t].
  unfold create_flow_run, create_subflow_task_run.
  unfold bind, FlowRunContext_get, get_self, log, remote. cbn.
  destruct cs as [ | ctx rest]; cbn.
  - destruct (_resolve_custom_flow_run_name env (flow e) (parameters e))
      as [exc | n]; [destruct (is_TypeError exc) | ]; cbn;
      try finish_create;
      match goal with |- context [client_create_flow_run env c ?r ?w0] =>
        destruct (client_create_flow_run env c r w0) as [[exc' | fr] w2]
      end; finish_create.
  - match goal with |- context [client_create_task_run env c ?r ?w0] =>
      destruct (client_create_task_run env c r w0) as [[exc1 | tr] w1]
    end; cbn; [finish_create | ].
    destruct (_resolve_custom_flow_run_name env (flow e) (parameters e))
      as [exc | n]; [destruct (is_TypeError exc) | ]; cbn;
      try finish_create;
      match goal with |- context [client_create_flow_run env c ?r ?w0] =>
        destruct (client_create_flow_run env c r w0) as [[exc' | fr] w2]
      end; finish_create.
Qed.

Lemma ensure_flow_run_cases c m :
  fst (ensure_flow_run env c m) <> OutOfFuel /\
  (fst (ensure_flow_run env c m) = Return tt ->
   flow_run (self (snd (ensure_flow_run env c m))) <> None) /\
  flow (self (snd (ensure_flow_run env c m))) = flow (self m) /\
  parameters (self (snd (ensure_flow_run env c m))) = parameters (self m) /\
  _is_started (self (snd (ensure_flow_run env c m))) = _is_started (self m) /\
  _client (self (snd (ensure_flow_run env c m))) = _client (self m) /\
  short_circuit (self (snd (ensure_flow_run env c m)))
    = short_circuit (self m) /\
  contexts (snd (ensure_flow_run env c m)) = contexts m /\
  (forall fr, flow_run (self m) = Some fr ->
              snd (ensure_flow_run env c m) = m) /\
  exists evs,
    trace (snd (ensure_flow_run env c m)) = trace m ++ evs /\
    Forall (setup_event (self m)) evs.
Proof.
  assert (E : ensure_flow_run env c m =
              match flow_run (self m) with
              | Some _ => (Return tt, m)
              | None => (fr <- create_flow_run env c ;; set_flow_run fr) m
              end).
  { unfold ensure_flow_run, bind at 1, get_self.
    destruct (flow_run (self m)); reflexivity. }
  rewrite E. clear E.
  destruct (flow_run (self m)) as [fr | ] eqn:Hfr.
  - cbn. repeat split; try congruence.
    exists []. split; [now rewrite app_nil_r | constructor].
  - destruct (create_flow_run_cases c m) as (H1 & H2 & H3 & evs & H4 & H5).
    unfold bind. destruct (create_flow_run env c m) as [[fr | exc | ] m1];
      cbn in *; [ | | congruence ];
      rewrite H2;
      (repeat split; try discriminate; try assumption;
       exists evs; (split; [exact H4 | ]);
       eapply Forall_impl; [ | exact H5 ];
       intros ev; destruct ev; cbn; try discriminate; auto).
Qed.

Lemma validate_step_cases m :
  fst (validate_step env m) <> OutOfFuel /\
  flow (self (snd (validate_step env m))) = flow (self m) /\
  _is_started (self (snd (validate_step env m))) = _is_started (self m) /\
  _client (self (snd (validate_step env m))) = _client (self m) /\
  contexts (snd (validate_step env m)) = contexts m /\
  same_identity (flow_run (self m)) (flow_run (self (snd (validate_step env m))))
  /\
  exists evs,
    trace (snd (validate_step env m)) = trace m ++ evs /\
    Forall failed_proposal evs.
Proof.
  assert (E : validate_step env m =
    if should_validate_parameters (flow (self m)) then
      match validate_parameters (flow (self m)) (parameters (self m)) with
      | inr p => set_parameters p m
      | inl exc =>
          (handle_exception env exc (Some validation_failed_msg)
             (Some (ResultFactory_from_flow env (flow (self m)))) ;;
           set_short_circuit true) m
      end
    else (Return tt, m)).
  { unfold validate_step, bind at 1, get_self.
    destruct (should_validate_parameters (flow (self m))); [ | reflexivity].
    unfold try_except, bind at 1.
    destruct (validate_parameters (flow (self m)) (parameters (self m)));
      reflexivity. }
  rewrite E. clear E.
  destruct (should_validate_parameters (flow (self m))).
  2:{ cbn. repeat split; try discriminate; try apply same_identity_refl.
      exists []. split; [now rewrite app_nil_r | constructor]. }
  destruct (validate_parameters (flow (self m)) (parameters (self m)))
    as [exc | p].
  - unfold bind. rewrite handle_exception_eq.
    match goal with |- context [set_state env ?s m] =>
      pose proof (@within_set_state s (or_intror (or_intror eq_refl)) m) as B;
      destruct (set_state_cases s m) as [N T];
      destruct (set_state env s m) as [[a | exc' | ] m1]
    end; cbn in *; [ | | congruence ];
      destruct B as (B1 & B2 & B3 & B4 & B5 & B6 & _ & B7 & _);
      (repeat split; try discriminate; try assumption;
       destruct T as [T | (fr0 & _ & _ & T)]; rewrite T;
       [ exists []; split; [now rewrite app_nil_r | constructor]
       | eexists; split; [reflexivity | repeat constructor] ]).
  - cbn. repeat split; try discriminate; try apply same_identity_refl.
    exists []. split; [now rewrite app_nil_r | constructor].
Qed.

Lemma failed_proposal_setup_event e evs :
  Forall failed_proposal evs -> Forall (setup_event e) evs.
Proof.
  intros H. eapply Forall_impl; [ | exact H ].
  intros ev. destruct ev; cbn; tauto.
Qed.

Lemma prepare_cases c m :
  fst (prepare env c m) <> OutOfFuel /\
  (forall e, fst (prepare env c m) = Return e ->
     e = self (snd (prepare env c m)) /\
     _is_started e = true /\ _client e = Some c /\ flow_run e <> None) /\
  setup_step m (snd (prepare env c m)).
Proof.
  destruct m as [[f p r st cl sc] w cs t].
  set (m0 := mkMachine (mkEngine f p r true (Some c) sc) w cs t).
  assert (E : prepare env c (mkMachine (mkEngine f p r st cl sc) w cs t) =
              (ensure_flow_run env c ;; validate_step env ;; get_self) m0)
    by reflexivity.
  rewrite E. clear E. unfold setup_step. cbn [self flow contexts trace flow_run].
  destruct (ensure_flow_run_cases c m0)
    as (A0 & A1 & A2 & A3 & A4 & A5 & A6 & A7 & A8 & evs1 & A9 & A10).
  unfold bind, get_self.
  destruct (ensure_flow_run env c m0) as [[[] | exc | ] m1];
    cbn [fst snd self flow parameters flow_run _is_started _client
         short_circuit contexts trace m0] in *;
    [ | | congruence ].
  - destruct (validate_step_cases m1)
      as (B0 & B1 & B2 & B3 & B4 & B5 & evs2 & B6 & B7).
    destruct (validate_step env m1) as [[[] | exc | ] m2];
      cbn [fst snd] in *; [ | | congruence ].
    + split; [discriminate | ]. split.
      * intros e E. inversion E; subst. repeat split; try congruence.
        specialize (A1 eq_refl). intros N.
        destruct (flow_run (self m1)); [ | congruence].
        rewrite N in B5. exact B5.
      * repeat split; try congruence.
        -- intros fr Hr. rewrite (A8 fr Hr) in B5. cbn in B5.
           rewrite Hr in B5. exact B5.
        -- exists (evs1 ++ evs2). split.
           ++ rewrite B6, A9, app_assoc. reflexivity.
           ++ apply Forall_app. split; [exact A10 | ].
              now apply failed_proposal_setup_event.
    + split; [discriminate | ]. split; [discriminate | ].
      repeat split; try congruence.
      * intros fr Hr. rewrite (A8 fr Hr) in B5. cbn in B5.
        rewrite Hr in B5. exact B5.
      * exists (evs1 ++ evs2). split.
        -- rewrite B6, A9, app_assoc. reflexivity.
        -- apply Forall_app. split; [exact A10 | ].
           now apply failed_proposal_setup_event.
  - split; [discriminate | ]. split; [discriminate | ].
    repeat split; try congruence.
    + intros fr Hr. rewrite (A8 fr Hr). cbn. rewrite Hr.
      apply (same_identity_refl (Some fr)).
    + exists evs1. split; assumption.
Qed.

(** How a [start] scope around a body that takes body steps can end:
    without a client, with a failed preparation, or after its body. *)
Lemma start_shape {A} lib (body : M W A) m :
  within body_step body ->
  (exists exc w',
      start env lib body m
        = (Raise exc, mkMachine (self m) w' (contexts m) (trace m))) \/
  (exists c w1 exc m2,
      setup_step (connected m c w1) m2 /\
      start env lib body m = (Raise exc, released c (Some exc) m2)) \/
  (exists c w1 m2 tg m3,
      setup_step (connected m c w1) m2 /\
      body_step (at_yield m2 (make_context env (self m2) c tg)) m3 /\
      ((exists a, start env lib body m
                  = (Return a, stopped (released c None (left_context m3)))) \/
       (exists exc, start env lib body m
                    = (Raise exc, released c (Some exc) (left_context m3))) \/
       start env lib body m = (OutOfFuel, m3))).
Proof.
  intros Hb. rewrite start_cases.
  destruct (client_enter_cases m) as [(c & w1 & _ & E) | (exc & w' & _ & E)];
    rewrite E; [ | left; eauto ].
  right.
  destruct (prepare_cases c (connected m c w1)) as (N & Hv & Hs).
  destruct (prepare env c (connected m c w1)) as [[e | exc | ] m2];
    cbn [fst snd] in *; [ | left; eauto 10 | congruence ].
  right. destruct (Hv e eq_refl) as (-> & _).
  exists c, w1, m2, (BackendTaskGroup lib).
  specialize (Hb (at_yield m2 (make_context env (self m2) c
                                 (BackendTaskGroup lib)))).
  destruct (body _) as [[a | exc | ] m3]; cbn [snd] in Hb; eauto 10.
Qed.

Lemma start_sync_shape {A} ambient (body : M W A) m :
  within body_step body ->
  (exists exc w',
      start_sync env ambient body m
        = (Raise exc,
           stopped (mkMachine (self m) w' (contexts m) (trace m)))) \/
  (exists c w1 exc m2,
      setup_step (connected m c w1) m2 /\
      start_sync env ambient body m = (Raise exc, stopped m2)) \/
  (exists c w1 m2 tg m3,
      setup_step (connected m c w1) m2 /\
      body_step (at_yield m2 (make_context env (self m2) c tg)) m3 /\
      ((exists a, start_sync env ambient body m
                  = (Return a, stopped (released c None (left_context m3)))) \/
       (exists exc, start_sync env ambient body m
                    = (Raise exc, stopped (left_context m3))) \/
       start_sync env ambient body m = (OutOfFuel, m3))).
Proof.
  intros Hb. rewrite start_sync_cases.
  destruct (client_enter_cases m) as [(c & w1 & _ & E) | (exc & w' & _ & E)];
    rewrite E; [ | left; eauto ].
  right.
  destruct (prepare_cases c (connected m c w1)) as (N & Hv & Hs).
  destruct (prepare env c (connected m c w1)) as [[e | exc | ] m2];
    cbn [fst snd] in *; [ | left; eauto 10 | congruence ].
  right. destruct (Hv e eq_refl) as (-> & _).
  exists c, w1, m2, (create_task_group_or_fallback ambient).
  specialize (Hb (at_yield m2 (make_context env (self m2) c
                                 (create_task_group_or_fallback ambient)))).
  destruct (body _) as [[a | exc | ] m3]; cbn [snd] in Hb; eauto 10.
Qed.

Lemma count_none (q : Event W -> bool) (P : Event W -> Prop) evs :
  Forall P evs -> (forall ev, P ev -> q ev = false) -> count q evs = 0.
Proof.
  intros H HP. unfold count. induction H as [ | ev evs Hev _ IH]; cbn.
  - reflexivity.
  - rewrite (HP ev Hev). exact IH.
Qed.

Lemma setup_event_no_scope e (ev : Event W) :
  setup_event e ev -> is_scope_event ev = false.
Proof. destruct ev; cbn; tauto. Qed.

Lemma body_event_no_scope e (ev : Event W) :
  body_event e ev -> is_scope_event ev = false.
Proof. destruct ev; cbn; tauto. Qed.

Lemma no_scope_parts (ev : Event W) :
  is_scope_event ev = false ->
  is_client_enter ev = false /\ is_client_exit ev = false /\
  is_context_enter ev = false /\ is_context_exit ev = false.
Proof. destruct ev; cbn; try discriminate; auto. Qed.

Lemma no_scope_counts (P : Event W -> Prop) evs :
  Forall P evs -> (forall ev, P ev -> is_scope_event ev = false) ->
  count (@is_client_enter W) evs = 0 /\ count (@is_client_exit W) evs = 0 /\
  count (@is_context_enter W) evs = 0 /\ count (@is_context_exit W) evs = 0.
Proof.
  intros H HP.
  repeat split; (eapply count_none; [exact H | ]);
    intros ev Hev; apply no_scope_parts; auto.
Qed.

(** X4.  Unless it is still looping, a driver leaves the stack of
    contexts exactly as it found it, whether it returns or raises and
    wherever the exception comes from (the connection, the preparation or
    the body).  Both drivers. *)
Theorem drivers_restore_the_context_stack :
  forall lib ambient (flow0 : Flow W) flow_run0 parameters0 rt fuel m,
    (fst (run_flow env lib flow0 flow_run0 parameters0 rt fuel m) = OutOfFuel
     \/ contexts (snd (run_flow env lib flow0 flow_run0 parameters0 rt fuel m))
        = contexts m) /\
    (fst (run_flow_sync env ambient flow0 flow_run0 parameters0 rt fuel m)
       = OutOfFuel
     \/ contexts (snd (run_flow_sync env ambient flow0 flow_run0 parameters0
                         rt fuel m))
        = contexts m).
Proof.
  intros lib ambient flow0 flow_run0 parameters0 rt fuel m.
  rewrite run_flow_eq, run_flow_sync_eq.
  set (m0 := mkMachine (new_engine flow0 parameters0 flow_run0)
                       (world m) (contexts m) (trace m)).
  assert (Ctx : forall c w1 m2 tg m3,
             setup_step (connected m0 c w1) m2 ->
             body_step (at_yield m2 (make_context env (self m2) c tg)) m3 ->
             contexts m2 = contexts m /\ tl (contexts m3) = contexts m).
  { intros c w1 m2 tg m3 (_ & HS & _) (_ & _ & _ & _ & _ & _ & _ & HB & _).
    split; [exact HS | rewrite HB; exact HS]. }
  split.
  - destruct (@start_shape _ lib (run_body env rt fuel) m0
                (@within_run_body rt fuel))
      as [(exc & w' & E)
         | [(c & w1 & exc & m2 & HS & E)
           | (c & w1 & m2 & tg & m3 & HS & HB
              & [(a & E) | [(exc & E) | E]])]];
      rewrite E; cbn [fst snd]; [right | right | right | right | left];
      try reflexivity.
    + destruct HS as (_ & HS & _). exact HS.
    + apply (Ctx _ _ _ _ _ HS HB).
    + apply (Ctx _ _ _ _ _ HS HB).
  - destruct (@start_sync_shape _ ambient (run_body_sync env rt fuel) m0
                (@within_run_body_sync rt fuel))
      as [(exc & w' & E)
         | [(c & w1 & exc & m2 & HS & E)
           | (c & w1 & m2 & tg & m3 & HS & HB
              & [(a & E) | [(exc & E) | E]])]];
      rewrite E; cbn [fst snd]; [right | right | right | right | left];
      try reflexivity.
    + destruct HS as (_ & HS & _). exact HS.
    + apply (Ctx _ _ _ _ _ HS HB).
    + apply (Ctx _ _ _ _ _ HS HB).
Qed.

Lemma scope_trace c tg m0 w1 m2 m3 :
  setup_step (connected m0 c w1) m2 ->
  body_step (at_yield m2 (make_context env (self m2) c tg)) m3 ->
  exists evs_s evs_b,
    trace m2 = trace m0 ++ [EvClientEnter c] ++ evs_s /\
    trace m3 = trace m0 ++ [EvClientEnter c] ++ evs_s
               ++ [EvContextEnter (make_context env (self m2) c tg)]
               ++ evs_b /\
    Forall (setup_event (self m0)) evs_s /\
    Forall (body_event (self m2)) evs_b.
Proof.
  intros (_ & _ & _ & evs_s & Ts & Fs)
         (_ & _ & _ & _ & _ & _ & _ & _ & evs_b & Tb & Fb).
  exists evs_s, evs_b. cbn in *. rewrite Tb, Ts.
  repeat rewrite <- app_assoc. repeat split; assumption.
Qed.

(** X5.  Unless it is still looping, the cooperative driver releases what
    it acquired: among the events it adds there is at most one client
    entry and as many client exits, at most one context entry and as many
    context exits, whether it returns or raises. *)
Theorem run_flow_releases_what_it_entered :
  forall lib (flow0 : Flow W) flow_run0 parameters0 rt fuel m,
    fst (run_flow env lib flow0 flow_run0 parameters0 rt fuel m) = OutOfFuel
    \/ exists evs,
         trace (snd (run_flow env lib flow0 flow_run0 parameters0 rt fuel m))
           = trace m ++ evs /\
         count (@is_client_enter W) evs <= 1 /\
         count (@is_client_exit W) evs = count (@is_client_enter W) evs /\
         count (@is_context_enter W) evs <= 1 /\
         count (@is_context_exit W) evs = count (@is_context_enter W) evs.
Proof.
  intros lib flow0 flow_run0 parameters0 rt fuel m.
  rewrite run_flow_eq.
  set (m0 := mkMachine (new_engine flow0 parameters0 flow_run0)
                       (world m) (contexts m) (trace m)).
  destruct (@start_shape _ lib (run_body env rt fuel) m0
              (@within_run_body rt fuel))
    as [(exc & w' & E)
       | [(c & w1 & exc & m2 & HS & E)
         | (c & w1 & m2 & tg & m3 & HS & HB
            & [(a & E) | [(exc & E) | E]])]];
    rewrite E; cbn [fst snd]; [right | right | right | right | now left].
  - exists []. cbn. rewrite app_nil_r. repeat split; lia.
  - destruct HS as (_ & _ & _ & evs_s & Ts & Fs).
    destruct (no_scope_counts Fs (@setup_event_no_scope _))
      as (s1 & s2 & s3 & s4).
    exists ([EvClientEnter c] ++ evs_s ++ [EvClientExit c (Some exc)]).
    split.
    + cbn in *. rewrite Ts. repeat rewrite <- app_assoc. reflexivity.
    + rewrite !count_app, s1, s2, s3, s4. cbn. repeat split; lia.
  - destruct (scope_trace HS HB) as (evs_s & evs_b & _ & T & Fs & Fb).
    destruct (no_scope_counts Fs (@setup_event_no_scope _))
      as (s1 & s2 & s3 & s4).
    destruct (no_scope_counts Fb (@body_event_no_scope _))
      as (b1 & b2 & b3 & b4).
    eexists. split.
    + cbn. rewrite T. repeat rewrite <- app_assoc. reflexivity.
    + rewrite !count_app, s1, s2, s3, s4, b1, b2, b3, b4. cbn.
      repeat split; lia.
  - destruct (scope_trace HS HB) as (evs_s & evs_b & _ & T & Fs & Fb).
    destruct (no_scope_counts Fs (@setup_event_no_scope _))
      as (s1 & s2 & s3 & s4).
    destruct (no_scope_counts Fb (@body_event_no_scope _))
      as (b1 & b2 & b3 & b4).
    eexists. split.
    + cbn. rewrite T. repeat rewrite <- app_assoc. reflexivity.
    + rewrite !count_app, s1, s2, s3, s4, b1, b2, b3, b4. cbn.
      repeat split; lia.
Qed.

(** X6.  Unless it is still looping, the blocking driver leaves every
    context it entered, and when it returns it has exited the client it
    entered; when it raises it has exited no client at all. *)
Theorem run_flow_sync_releases_on_return_only :
  forall ambient (flow0 : Flow W) flow_run0 parameters0 rt fuel m,
    fst (run_flow_sync env ambient flow0 flow_run0 parameters0 rt fuel m)
      = OutOfFuel
    \/ exists evs,
         trace (snd (run_flow_sync env ambient flow0 flow_run0 parameters0
                       rt fuel m))
           = trace m ++ evs /\
         count (@is_context_enter W) evs <= 1 /\
         count (@is_context_exit W) evs = count (@is_context_enter W) evs /\
         count (@is_client_enter W) evs <= 1 /\
         count (@is_client_exit W) evs =
           match fst (run_flow_sync env ambient flow0 flow_run0 parameters0
                        rt fuel m) with
           | Return _ => count (@is_client_enter W) evs
           | _ => 0
           end.
Proof.
  intros ambient flow0 flow_run0 parameters0 rt fuel m.
  rewrite run_flow_sync_eq.
  set (m0 := mkMachine (new_engine flow0 parameters0 flow_run0)
                       (world m) (contexts m) (trace m)).
  destruct (@start_sync_shape _ ambient (run_body_sync env rt fuel) m0
              (@within_run_body_sync rt fuel))
    as [(exc & w' & E)
       | [(c & w1 & exc & m2 & HS & E)
         | (c & w1 & m2 & tg & m3 & HS & HB
            & [(a & E) | [(exc & E) | E]])]];
    rewrite E; cbn [fst snd]; [right | right | right | right | now left].
  - exists []. cbn. rewrite app_nil_r. repeat split; lia.
  - destruct HS as (_ & _ & _ & evs_s & Ts & Fs).
    destruct (no_scope_counts Fs (@setup_event_no_scope _))
      as (s1 & s2 & s3 & s4).
    exists ([EvClientEnter c] ++ evs_s).
    split.
    + cbn in *. rewrite Ts. repeat rewrite <- app_assoc. reflexivity.
    + rewrite !count_app, s1, s2, s3, s4. cbn. repeat split; lia.
  - destruct (scope_trace HS HB) as (evs_s & evs_b & _ & T & Fs & Fb).
    destruct (no_scope_counts Fs (@setup_event_no_scope _))
      as (s1 & s2 & s3 & s4).
    destruct (no_scope_counts Fb (@body_event_no_scope _))
      as (b1 & b2 & b3 & b4).
    eexists. split.
    + cbn. rewrite T. repeat rewrite <- app_assoc. reflexivity.
    + rewrite !count_app, s1, s2, s3, s4, b1, b2, b3, b4. cbn.
      repeat split; lia.
  - destruct (scope_trace HS HB) as (evs_s & evs_b & _ & T & Fs & Fb).
    destruct (no_scope_counts Fs (@setup_event_no_scope _))
      as (s1 & s2 & s3 & s4).
    destruct (no_scope_counts Fb (@body_event_no_scope _))
      as (b1 & b2 & b3 & b4).
    eexists. split.
    + cbn. rewrite T. repeat rewrite <- app_assoc. reflexivity.
    + rewrite !count_app, s1, s2, s3, s4, b1, b2, b3, b4. cbn.
      repeat split; lia.
Qed.

(** X7.  When the cooperative driver returns, and when the blocking driver
    returns or raises, the engine is reset: [_is_started] is false,
    [_client] is [None], and the [client] property raises. *)
Theorem drivers_reset_the_engine :
  forall lib ambient (flow0 : Flow W) flow_run0 parameters0 rt fuel m,
    match run_flow env lib flow0 flow_run0 parameters0 rt fuel m with
    | (Return _, m') =>
        _is_started (self m') = false /\ _client (self m') = None /\
        client m' = (Raise engine_not_started, m')
    | _ => True
    end /\
    match run_flow_sync env ambient flow0 flow_run0 parameters0 rt fuel m with
    | (OutOfFuel, _) => True
    | (_, m') =>
        _is_started (self m') = false /\ _client (self m') = None /\
        client m' = (Raise engine_not_started, m')
    end.
Proof.
  intros lib ambient flow0 flow_run0 parameters0 rt fuel m.
  rewrite run_flow_eq, run_flow_sync_eq.
  set (m0 := mkMachine (new_engine flow0 parameters0 flow_run0)
                       (world m) (contexts m) (trace m)).
  split.
  - destruct (@start_shape _ lib (run_body env rt fuel) m0
                (@within_run_body rt fuel))
      as [(exc & w' & E)
         | [(c & w1 & exc & m2 & HS & E)
           | (c & w1 & m2 & tg & m3 & HS & HB
              & [(a & E) | [(exc & E) | E]])]];
      rewrite E; try exact I.
    repeat split; apply client_after_reset.
  - destruct (@start_sync_shape _ ambient (run_body_sync env rt fuel) m0
                (@within_run_body_sync rt fuel))
      as [(exc & w' & E)
         | [(c & w1 & exc & m2 & HS & E)
           | (c & w1 & m2 & tg & m3 & HS & HB
              & [(a & E) | [(exc & E) | E]])]];
      rewrite E; try exact I;
      repeat split; apply client_after_reset.
Qed.

Lemma no_create_counts (P : Event W -> Prop) evs :
  Forall P evs -> (forall ev, P ev -> is_create ev = false) ->
  count (@is_create W) evs = 0.
Proof. apply count_none. Qed.

Lemma setup_event_no_create e (ev : Event W) :
  flow_run e <> None -> setup_event e ev -> is_create ev = false.
Proof. destruct ev; cbn; tauto. Qed.

Lemma body_event_no_create e (ev : Event W) :
  body_event e ev -> is_create ev = false.
Proof. destruct ev; cbn; tauto. Qed.

(** X8.  A driver that is handed a run record never asks the collaborator
    to create anything, not even inside the context of another run, and
    whatever happens the engine keeps a record with that id, name,
    parameters and parent linkage.  Both drivers, every outcome. *)
Theorem supplied_run_record_is_kept :
  forall lib ambient (flow0 : Flow W) fr0 parameters0 rt fuel m,
    (exists evs,
        trace (snd (run_flow env lib flow0 (Some fr0) parameters0 rt fuel m))
          = trace m ++ evs /\
        count (@is_create W) evs = 0) /\
    same_identity (Some fr0)
      (flow_run (self (snd (run_flow env lib flow0 (Some fr0) parameters0
                              rt fuel m)))) /\
    (exists evs,
        trace (snd (run_flow_sync env ambient flow0 (Some fr0) parameters0
                      rt fuel m))
          = trace m ++ evs /\
        count (@is_create W) evs = 0) /\
    same_identity (Some fr0)
      (flow_run (self (snd (run_flow_sync env ambient flow0 (Some fr0)
                              parameters0 rt fuel m)))).
Proof.
  intros lib ambient flow0 fr0 parameters0 rt fuel m.
  rewrite !run_flow_eq, !run_flow_sync_eq.
  set (m0 := mkMachine (new_engine flow0 parameters0 (Some fr0))
                       (world m) (contexts m) (trace m)).
  assert (Hr : flow_run (self m0) <> None) by discriminate.
  assert (Setup : forall c w1 m2,
             setup_step (connected m0 c w1) m2 ->
             same_identity (Some fr0) (flow_run (self m2)) /\
             exists evs_s, trace m2 = trace m ++ [EvClientEnter c] ++ evs_s /\
                           count (@is_create W) evs_s = 0).
  { intros c w1 m2 (_ & _ & Hid & evs_s & Ts & Fs). split.
    - apply (Hid fr0). reflexivity.
    - exists evs_s. split.
      + cbn in Ts. rewrite Ts, <- app_assoc. reflexivity.
      + eapply no_create_counts; [exact Fs | ].
        intros ev. apply setup_event_no_create. exact Hr. }
  assert (Body : forall c w1 m2 tg m3,
             setup_step (connected m0 c w1) m2 ->
             body_step (at_yield m2 (make_context env (self m2) c tg)) m3 ->
             same_identity (Some fr0) (flow_run (self m3)) /\
             exists evs, trace m3 = trace m ++ evs /\
                         count (@is_create W) evs = 0).
  { intros c w1 m2 tg m3 HS HB.
    destruct (Setup _ _ _ HS) as (Hid & evs_s & Ts & Cs).
    destruct HB as (_ & _ & _ & _ & _ & Hid' & _ & _ & evs_b & Tb & Fb).
    split.
    - eapply same_identity_trans; [exact Hid | exact Hid'].
    - eexists. split.
      + rewrite Tb. cbn. rewrite Ts. repeat rewrite <- app_assoc.
        reflexivity.
      + rewrite !count_app, Cs,
          (no_create_counts Fb (@body_event_no_create _)).
        reflexivity. }
  assert (More : forall (t : list (Event W)) evs ev,
             t = trace m ++ evs -> count (@is_create W) evs = 0 ->
             is_create ev = false ->
             exists evs', t ++ [ev] = trace m ++ evs' /\
                          count (@is_create W) evs' = 0).
  { intros t evs ev -> C Hev. exists (evs ++ [ev]). split.
    - now rewrite app_assoc.
    - rewrite count_app, C. unfold count. cbn. now rewrite Hev. }
  assert (Async :
    (exists evs,
        trace (snd (start env lib (run_body env rt fuel) m0)) = trace m ++ evs
        /\ count (@is_create W) evs = 0) /\
    same_identity (Some fr0)
      (flow_run (self (snd (start env lib (run_body env rt fuel) m0))))).
  { destruct (@start_shape _ lib (run_body env rt fuel) m0
                (@within_run_body rt fuel))
      as [(exc & w' & E)
         | [(c & w1 & exc & m2 & HS & E)
           | (c & w1 & m2 & tg & m3 & HS & HB
              & [(a & E) | [(exc & E) | E]])]];
      rewrite E; cbn [fst snd].
    - split; [ | apply (same_identity_refl (Some fr0)) ].
      exists []. cbn. now rewrite app_nil_r.
    - destruct (Setup _ _ _ HS) as (Hid & evs_s & Ts & Cs).
      split; [ | exact Hid ]. cbn.
      eapply More; [ | | reflexivity].
      + rewrite Ts. reflexivity.
      + rewrite count_app, Cs. reflexivity.
    - destruct (Body _ _ _ _ _ HS HB) as (Hid & evs & T & C).
      split; [ | exact Hid ]. cbn.
      destruct (More _ _ EvContextExit T C eq_refl) as (evs1 & T1 & C1).
      eapply More; [exact T1 | exact C1 | reflexivity].
    - destruct (Body _ _ _ _ _ HS HB) as (Hid & evs & T & C).
      split; [ | exact Hid ]. cbn.
      destruct (More _ _ EvContextExit T C eq_refl) as (evs1 & T1 & C1).
      eapply More; [exact T1 | exact C1 | reflexivity].
    - destruct (Body _ _ _ _ _ HS HB) as (Hid & evs & T & C).
      split; [ | exact Hid ]. exists evs. split; assumption. }
  assert (Sync :
    (exists evs,
        trace (snd (start_sync env ambient (run_body_sync env rt fuel) m0))
          = trace m ++ evs
        /\ count (@is_create W) evs = 0) /\
    same_identity (Some fr0)
      (flow_run (self (snd (start_sync env ambient
                              (run_body_sync env rt fuel) m0))))).
  { destruct (@start_sync_shape _ ambient (run_body_sync env rt fuel) m0
                (@within_run_body_sync rt fuel))
      as [(exc & w' & E)
         | [(c & w1 & exc & m2 & HS & E)
           | (c & w1 & m2 & tg & m3 & HS & HB
              & [(a & E) | [(exc & E) | E]])]];
      rewrite E; cbn [fst snd].
    - split; [ | apply (same_identity_refl (Some fr0)) ].
      exists []. cbn. now rewrite app_nil_r.
    - destruct (Setup _ _ _ HS) as (Hid & evs_s & Ts & Cs).
      split; [ | exact Hid ]. cbn.
      eexists. split; [exact Ts | ]. rewrite count_app, Cs. reflexivity.
    - destruct (Body _ _ _ _ _ HS HB) as (Hid & evs & T & C).
      split; [ | exact Hid ]. cbn.
      destruct (More _ _ EvContextExit T C eq_refl) as (evs1 & T1 & C1).
      eapply More; [exact T1 | exact C1 | reflexivity].
    - destruct (Body _ _ _ _ _ HS HB) as (Hid & evs & T & C).
      split; [ | exact Hid ]. cbn.
      eapply More; [exact T | exact C | reflexivity].
    - destruct (Body _ _ _ _ _ HS HB) as (Hid & evs & T & C).
      split; [ | exact Hid ]. exists evs. split; assumption. }
  destruct Async as [A1 A2]. destruct Sync as [S1 S2].
  repeat split; assumption.
Qed.

(** X9.  When the client connection cannot be acquired, both drivers raise
    that very error and nothing else has happened: no run record is
    created, no context is entered, nothing is proposed, the callable is
    not called, and the engine is left unstarted. *)
Theorem connection_failure_propagates :
  forall lib ambient (flow0 : Flow W) flow_run0 parameters0 rt fuel m exc w',
    get_client env (world m) = (inl exc, w') ->
    run_flow env lib flow0 flow_run0 parameters0 rt fuel m
      = (Raise exc,
         mkMachine (new_engine flow0 parameters0 flow_run0) w'
                   (contexts m) (trace m)) /\
    run_flow_sync env ambient flow0 flow_run0 parameters0 rt fuel m
      = (Raise exc,
         mkMachine (new_engine flow0 parameters0 flow_run0) w'
                   (contexts m) (trace m)).
Proof.
  intros lib ambient flow0 flow_run0 parameters0 rt fuel m exc w' H.
  rewrite run_flow_eq, run_flow_sync_eq, start_cases, start_sync_cases.
  unfold client_enter, remote, bind. cbn. rewrite H. cbn. split; reflexivity.
Qed.

(** ** More runs of the body *)

Lemma run_body_returns_state m fr c v fuel :
  accepts_proposals env ->
  short_circuit (self m) = false ->
  flow_run (self m) = Some fr ->
  _is_started (self m) = true ->
  _client (self m) = Some c ->
  (forall w, exists w',
      flow_fn (flow (self m)) (parameters (self m)) w = (inr v, w')) ->
  exists w',
    run_body env state_ (S fuel) m =
      (Return (RState Completed),
       mkMachine (with_flow_run (accept Completed (accept Running fr)) (self m))
                 w' (contexts m)
                 (trace m ++ [EvProposeState (fr_id fr) Running;
                              EvCallFn (parameters (self m));
                              EvProposeState (fr_id fr) Completed])).
Proof.
  intros Ha Hsc Hfr Hst Hcl Hfn.
  destruct m as [[f p r st cl sc] w cs t]. cbn in Hsc, Hfr, Hst, Hcl, Hfn.
  subst.
  destruct (Ha c Running (fr_id fr) w) as (w1 & H1).
  destruct (Hfn w1) as (w2 & H2).
  destruct (Ha c Completed (fr_id fr) w2) as (w3 & H3).
  exists w3.
  cbn [run_body pending_loop running_loop].
  repeat (unfold_engine; cbn; try rewrite H1; try rewrite H2; try rewrite H3).
  erewrite running_loop_done by reflexivity.
  cbn. repeat rewrite <- app_assoc. reflexivity.
Qed.

Lemma run_body_completed_refused m fr c v exc rt fuel :
  accepts_running env ->
  accepts_failed env ->
  refuses_completed env exc ->
  short_circuit (self m) = false ->
  flow_run (self m) = Some fr ->
  _is_started (self m) = true ->
  _client (self m) = Some c ->
  (forall w, exists w',
      flow_fn (flow (self m)) (parameters (self m)) w = (inr v, w')) ->
  let failed :=
    exception_to_failed_state exc "Flow run encountered an exception:"
      (option_map (@ctx_result_factory W) (hd_error (contexts m))) in
  exists w',
    run_body env rt (S fuel) m =
      (match rt with
       | state_ => Return (RState failed)
       | result_ =>
           Raise (ExcFrom FailedRunError
                          "Flow run encountered an exception:" exc)
       end,
       mkMachine (with_flow_run (accept failed (accept Running fr)) (self m))
                 w' (contexts m)
                 (trace m ++ [EvProposeState (fr_id fr) Running;
                              EvCallFn (parameters (self m));
                              EvProposeState (fr_id fr) Completed;
                              EvProposeState (fr_id fr) failed])).
Proof.
  intros Hr Hf Hc Hsc Hfr Hst Hcl Hfn failed.
  destruct m as [[f p r st cl sc] w cs t]. cbn in Hsc, Hfr, Hst, Hcl, Hfn.
  subst. cbn [contexts] in failed.
  destruct (Hr c (fr_id fr) w) as (w1 & H1).
  destruct (Hfn w1) as (w2 & H2).
  destruct (Hc c (fr_id fr) w2) as (w3 & H3).
  destruct (Hf c failed (fr_id fr) w3 eq_refl) as (w4 & H4).
  exists w4.
  cbn [run_body pending_loop running_loop].
  repeat (unfold_engine; cbn; try rewrite H1; try rewrite H2; try rewrite H3;
          try (fold failed; rewrite H4)).
  erewrite running_loop_done by reflexivity.
  destruct rt; cbn; repeat rewrite <- app_assoc; reflexivity.
Qed.

Lemma quiet_counts evs :
  quiet evs ->
  count (@is_call W) evs = 0 /\ count (@is_sleep W) evs = 0.
Proof.
  unfold quiet, count. induction evs as [ | ev evs IH]; cbn; [auto | ].
  intros H. apply andb_prop in H. destruct H as [H1 H2].
  destruct ev; cbn in *; try discriminate; auto.
Qed.

(** X10.  Asked for the state, a driver whose callable returns normally
    (collaborator reachable and accepting, parameters valid) calls it
    exactly once and returns the accepted COMPLETED state, not the value;
    the blocking driver returns the same. *)
Theorem run_flow_returns_the_completed_state :
  forall lib ambient (flow0 : Flow W) flow_run0 parameters0 validated v fuel m,
    let e0 := new_engine flow0 parameters0 flow_run0 in
    reachable env ->
    accepts_proposals env ->
    record_available env e0 ->
    valid_parameters flow0 (parameters e0) validated ->
    (forall w, exists w', flow_fn flow0 validated w = (inr v, w')) ->
    exists m',
      run_flow env lib flow0 flow_run0 parameters0 state_ (S fuel) m
        = (Return (RState Completed), m') /\
      durable_state m' = Some Completed /\
      count (@is_call W) (trace m') = S (count (@is_call W) (trace m)) /\
      fst (run_flow_sync env ambient flow0 flow_run0 parameters0 state_
                         (S fuel) m)
        = Return (RState Completed).
Proof.
  intros lib ambient flow0 flow_run0 parameters0 validated v fuel m e0
         Hreach Hacc Hrec Hval Hfn.
  set (m0 := mkMachine e0 (world m) (contexts m) (trace m)).
  destruct (@scopes_agree _ lib ambient _ _ m0
              (@alike_run_bodies state_ (S fuel))) as (Eq & _).
  rewrite run_flow_sync_eq, run_flow_eq. fold e0. fold m0.
  rewrite <- Eq. clear Eq.
  destruct (Hreach (world m0)) as (c & w1 & Hc).
  destruct (prepare_valid c (connected m0 c w1) validated Hrec Hval)
    as (fr & w2 & evs & Hp & Q & _).
  cbn zeta in Hp. rewrite (start_eq lib _ m0 Hc Hp).
  match goal with |- context [run_body env state_ (S fuel) ?m1] =>
    destruct (@run_body_returns_state m1 fr c v fuel Hacc eq_refl eq_refl
                eq_refl eq_refl Hfn) as (w3 & Hb)
  end.
  rewrite Hb. eexists. split; [reflexivity | ].
  split; [reflexivity | split; [ | reflexivity ] ].
  unfold stopped, released, left_context, at_yield, connected, m0.
  cbn [trace]. rewrite !count_app.
  destruct (quiet_counts Q) as [Q1 _]. rewrite Q1. cbn. lia.
Qed.

(** X11.  The drivers' [try] covers [handle_success]: if the callable
    returns but the collaborator fails with [exc] when COMPLETED is
    proposed, that error is handled like an exception of the callable.  A
    FAILED state carrying [exc] is proposed and, once accepted, is what
    the run ends in: the value is lost, the callable is not called again,
    and the driver returns the FAILED state or raises the wrapped
    error. *)
Theorem failure_to_record_success_fails_the_run :
  forall lib (flow0 : Flow W) flow_run0 parameters0 validated v exc rt fuel m,
    let e0 := new_engine flow0 parameters0 flow_run0 in
    let failed :=
      exception_to_failed_state exc "Flow run encountered an exception:"
        (Some (ResultFactory_from_flow env flow0)) in
    reachable env ->
    accepts_running env ->
    accepts_failed env ->
    refuses_completed env exc ->
    record_available env e0 ->
    valid_parameters flow0 (parameters e0) validated ->
    (forall w, exists w', flow_fn flow0 validated w = (inr v, w')) ->
    exists m',
      run_flow env lib flow0 flow_run0 parameters0 rt (S fuel) m =
        (match rt with
         | state_ => Return (RState failed)
         | result_ =>
             Raise (ExcFrom FailedRunError
                            "Flow run encountered an exception:" exc)
         end, m') /\
      durable_state m' = Some failed /\
      count (@is_call W) (trace m') = S (count (@is_call W) (trace m)).
Proof.
  intros lib flow0 flow_run0 parameters0 validated v exc rt fuel m e0 failed
         Hreach Hrun Hfail Hcomp Hrec Hval Hfn.
  set (m0 := mkMachine e0 (world m) (contexts m) (trace m)).
  rewrite run_flow_eq. fold e0. fold m0.
  destruct (Hreach (world m0)) as (c & w1 & Hc).
  destruct (prepare_valid c (connected m0 c w1) validated Hrec Hval)
    as (fr & w2 & evs & Hp & Q & _).
  cbn zeta in Hp. rewrite (start_eq lib _ m0 Hc Hp).
  match goal with |- context [run_body env rt (S fuel) ?m1] =>
    destruct (@run_body_completed_refused m1 fr c v exc rt fuel Hrun Hfail
                Hcomp eq_refl eq_refl eq_refl eq_refl Hfn) as (w3 & Hb)
  end.
  cbn zeta in Hb. rewrite Hb. destruct (quiet_counts Q) as [Q1 _].
  destruct rt; eexists; (split; [reflexivity | ]);
    (split; [reflexivity | ]);
    unfold stopped, released, left_context, at_yield, connected, m0;
    cbn [trace]; rewrite !count_app, Q1; cbn; lia.
Qed.

Lemma probe_eq m c :
  _is_started (self m) = true ->
  _client (self m) = Some c ->
  probe m = (Return (Some c, c, self m, hd_error (contexts m)), m).
Proof.
  intros H1 H2. destruct m as [[f p r st cl sc] w cs t].
  cbn in H1, H2. subst. reflexivity.
Qed.

(** X12.  What the body finds at the [yield] of either start scope when
    the parameters are valid: the engine is started, its [get_client]
    method and its [client] property give the same client, its parameters
    are the validated ones, it holds a run record and is not
    short-circuited, and the current context carries that client, those
    validated parameters and that run record. *)
Theorem scope_yields_a_prepared_engine :
  forall lib ambient (flow0 : Flow W) flow_run0 parameters0 validated m,
    let e0 := new_engine flow0 parameters0 flow_run0 in
    let m0 := mkMachine e0 (world m) (contexts m) (trace m) in
    reachable env ->
    record_available env e0 ->
    valid_parameters flow0 (parameters e0) validated ->
    exists c run fr,
      parameters run = validated /\
      flow_run run = Some fr /\
      short_circuit run = false /\
      flow run = flow0 /\
      (exists ctx m',
          start env lib probe m0 = (Return (Some c, c, run, Some ctx), m') /\
          ctx_parameters ctx = validated /\
          ctx_flow_run ctx = Some fr /\
          ctx_client ctx = c /\
          ctx_background_tasks ctx = BackendTaskGroup lib) /\
      (exists ctx m',
          start_sync env ambient probe m0
            = (Return (Some c, c, run, Some ctx), m') /\
          ctx_parameters ctx = validated /\
          ctx_flow_run ctx = Some fr /\
          ctx_client ctx = c /\
          ctx_background_tasks ctx = create_task_group_or_fallback ambient).
Proof.
  intros lib ambient flow0 flow_run0 parameters0 validated m e0 m0
         Hreach Hrec Hval.
  destruct (Hreach (world m0)) as (c & w1 & Hc).
  destruct (prepare_valid c (connected m0 c w1) validated Hrec Hval)
    as (fr & w2 & evs & Hp & _ & _).
  cbn zeta in Hp.
  rewrite (start_eq lib _ m0 Hc Hp), (start_sync_eq ambient _ m0 Hc Hp).
  rewrite !(@probe_eq _ c) by reflexivity.
  exists c, (mkEngine flow0 validated (Some fr) true (Some c) false), fr.
  split; [reflexivity | ]. split; [reflexivity | ].
  split; [reflexivity | ]. split; [reflexivity | ].
  split; eexists; eexists; (split; [reflexivity | repeat split]).
Qed.

(** ** Validation failures that the collaborator does not accept *)

Lemma prepare_invalid_answered c m exc answer :
  record_available env (self m) ->
  answers_failed_with env answer ->
  short_circuit (self m) = false ->
  should_validate_parameters (flow (self m)) = true ->
  validate_parameters (flow (self m)) (parameters (self m)) = inl exc ->
  exists fr w' evs,
    let e1 := mkEngine (flow (self m)) (parameters (self m))
                       (Some (accept answer fr)) true (Some c) true in
    prepare env c m =
      (Return e1, mkMachine e1 w' (contexts m) (trace m ++ evs))
    /\ quiet evs.
Proof.
  intros Hr Ha Hsc Hsv Hv.
  destruct m as [[f p r st cl sc] w cs t].
  cbn [self flow parameters short_circuit] in *. subst sc.
  unfold prepare.
  set (m1 := mkMachine (mkEngine f p r true (Some c) false) w cs t).
  assert (E1 : set_started c (mkMachine (mkEngine f p r st cl false) w cs t)
               = (Return tt, m1)) by reflexivity.
  rewrite (bind_Return _ _ _ E1).
  destruct (@ensure_flow_run_eq c m1 Hr) as (fr & w1 & evs & E2 & Q & _).
  rewrite (bind_Return _ _ _ E2). cbn [self contexts trace m1 with_flow_run
    flow parameters _is_started _client short_circuit].
  set (failed := exception_to_failed_state exc validation_failed_msg
                   (Some (ResultFactory_from_flow env f))).
  destruct (Ha c failed (fr_id fr) w1 eq_refl) as (w2 & Hp).
  exists fr, w2, (evs ++ [EvProposeState (fr_id fr) failed]).
  split.
  - unfold validate_step, handle_exception, set_state, client, the_flow_run,
      write_flow_run, the_flow_run, set_subflow_state, set_short_circuit,
      FlowRunContext_get, remote, log, try_except, set_parameters, set_self,
      get_self, bind.
    cbn. rewrite Hsv, Hv. cbn. fold failed. rewrite Hp. cbn.
    rewrite <- app_assoc. reflexivity.
  - unfold quiet in *. rewrite forallb_app, Q. reflexivity.
Qed.

Lemma set_state_short_eq m fr s :
  short_circuit (self m) = true ->
  flow_run (self m) = Some fr ->
  set_state env s m = (Return (fr_state fr), m).
Proof.
  intros Hsc Hfr. rewrite set_state_short by exact Hsc. now apply state_eq.
Qed.

Lemma handle_success_short m fr v :
  short_circuit (self m) = true ->
  flow_run (self m) = Some fr ->
  handle_success env v m = (Return v, m).
Proof.
  intros Hsc Hfr. unfold handle_success.
  rewrite (bind_Return _ _ _ (set_state_short_eq m Completed Hsc Hfr)).
  reflexivity.
Qed.

Lemma call_fn_returns m v w' :
  flow_fn (flow (self m)) (parameters (self m)) (world m) = (inr v, w') ->
  call_fn m =
    (Return v, mkMachine (self m) w' (contexts m)
                         (trace m ++ [EvCallFn (parameters (self m))])).
Proof.
  intros H. unfold call_fn, bind, get_self, log, remote. cbn. rewrite H.
  reflexivity.
Qed.

Lemma pending_loop_stuck e fr fuel :
  short_circuit e = true ->
  flow_run e = Some fr ->
  State_is_pending (fr_state fr) = true ->
  forall w cs t,
    pending_loop env fuel (mkMachine e w cs t) =
      (OutOfFuel, mkMachine e w cs (t ++ repeat (EvSleep 1) fuel)).
Proof.
  intros Hsc Hfr Hp. induction fuel as [ | fuel IH]; intros w cs t;
    cbn [pending_loop repeat].
  - erewrite bind_Return by (apply is_pending_eq; exact Hfr).
    rewrite Hp, app_nil_r. reflexivity.
  - erewrite bind_Return by (apply is_pending_eq; exact Hfr).
    rewrite Hp. unfold begin_run, log, bind at 1.
    erewrite bind_Return by (apply set_state_short_eq; [exact Hsc | exact Hfr]).
    cbn [self world contexts trace].
    rewrite IH, <- app_assoc. reflexivity.
Qed.

Lemma running_loop_stuck e fr v fuel :
  short_circuit e = true ->
  flow_run e = Some fr ->
  State_is_running (fr_state fr) = true ->
  (forall w, exists w', flow_fn (flow e) (parameters e) w = (inr v, w')) ->
  forall w cs t, exists w',
    running_loop env state_ fuel (mkMachine e w cs t) =
      (OutOfFuel,
       mkMachine e w' cs (t ++ repeat (EvCallFn (parameters e)) fuel)).
Proof.
  intros Hsc Hfr Hp Hfn. induction fuel as [ | fuel IH]; intros w cs t;
    cbn [running_loop repeat].
  - exists w.
    erewrite bind_Return by (apply is_running_eq; exact Hfr).
    rewrite Hp, app_nil_r. reflexivity.
  - destruct (Hfn w) as (w1 & H1).
    destruct (IH w1 cs (t ++ [EvCallFn (parameters e)])) as (w2 & H2).
    exists w2.
    erewrite bind_Return by (apply is_running_eq; exact Hfr).
    rewrite Hp.
    unfold bind at 1. unfold try_except.
    erewrite (bind_Return call_fn) by (apply call_fn_returns; exact H1).
    erewrite (bind_Return (handle_success env v))
      by (apply handle_success_short with (fr := fr); [exact Hsc | exact Hfr]).
    cbn [self world contexts trace ret].
    rewrite H2, <- app_assoc. reflexivity.
Qed.

Lemma running_loop_short_circuited_returns e fr v fuel :
  short_circuit e = true ->
  flow_run e = Some fr ->
  State_is_running (fr_state fr) = true ->
  (forall w, exists w', flow_fn (flow e) (parameters e) w = (inr v, w')) ->
  forall w cs t, exists w',
    running_loop env result_ (S fuel) (mkMachine e w cs t) =
      (Return (Some (RValue v)),
       mkMachine e w' cs (t ++ [EvCallFn (parameters e)])).
Proof.
  intros Hsc Hfr Hp Hfn w cs t. cbn [running_loop].
  destruct (Hfn w) as (w1 & H1). exists w1.
  erewrite bind_Return by (apply is_running_eq; exact Hfr).
  rewrite Hp.
  unfold bind at 1. unfold try_except.
  erewrite (bind_Return call_fn) by (apply call_fn_returns; exact H1).
  erewrite (bind_Return (handle_success env v))
    by (apply handle_success_short with (fr := fr); [exact Hsc | exact Hfr]).
  reflexivity.
Qed.

Lemma count_repeat (q : Event W -> bool) ev n :
  count q (repeat ev n) = if q ev then n else 0.
Proof.
  unfold count. induction n as [ | n IH]; cbn.
  - destruct (q ev); reflexivity.
  - destruct (q ev); cbn; rewrite IH; reflexivity.
Qed.

Lemma running_is_not_pending s :
  State_is_running s = true -> State_is_pending s = false.
Proof.
  unfold State_is_running, State_is_pending.
  destruct (state_type s); congruence.
Qed.

Lemma run_body_stuck_pending rt fuel e fr w cs t :
  short_circuit e = true ->
  flow_run e = Some fr ->
  State_is_pending (fr_state fr) = true ->
  run_body env rt fuel (mkMachine e w cs t) =
    (OutOfFuel, mkMachine e w cs (t ++ repeat (EvSleep 1) fuel)).
Proof.
  intros Hsc Hfr Hp. unfold run_body, begin_run.
  erewrite bind_Return
    by (apply set_state_short_eq with (fr := fr); [exact Hsc | exact Hfr]).
  unfold bind. rewrite (pending_loop_stuck e fuel Hsc Hfr Hp). reflexivity.
Qed.

Lemma run_body_stuck_running fuel e fr v w cs t :
  short_circuit e = true ->
  flow_run e = Some fr ->
  State_is_running (fr_state fr) = true ->
  (forall w, exists w', flow_fn (flow e) (parameters e) w = (inr v, w')) ->
  (exists w',
      run_body env state_ fuel (mkMachine e w cs t) =
        (OutOfFuel,
         mkMachine e w' cs (t ++ repeat (EvCallFn (parameters e)) fuel))) /\
  (exists w',
      run_body env result_ (S fuel) (mkMachine e w cs t) =
        (Return (RValue v),
         mkMachine e w' cs (t ++ [EvCallFn (parameters e)]))).
Proof.
  intros Hsc Hfr Hr Hfn.
  pose proof (running_is_not_pending _ Hr) as Hp.
  split.
  - destruct (running_loop_stuck e fuel Hsc Hfr Hr Hfn w cs t) as (w' & H).
    exists w'. unfold run_body, begin_run.
    erewrite bind_Return
      by (apply set_state_short_eq with (fr := fr); [exact Hsc | exact Hfr]).
    erewrite bind_Return
      by (apply pending_loop_done with (fr := fr); [exact Hfr | exact Hp]).
    unfold bind. rewrite H. reflexivity.
  - destruct (running_loop_short_circuited_returns e fuel Hsc Hfr Hr Hfn w cs t)
      as (w' & H).
    exists w'. unfold run_body, begin_run.
    erewrite bind_Return
      by (apply set_state_short_eq with (fr := fr); [exact Hsc | exact Hfr]).
    erewrite bind_Return
      by (apply pending_loop_done with (fr := fr); [exact Hfr | exact Hp]).
    erewrite bind_Return by exact H. reflexivity.
Qed.

(** X13.  If validation fails and the collaborator answers the proposed
    FAILED with a pending state, the driver never ends: short-circuited,
    it can no longer change the state it waits on, and it sleeps one
    second per round for ever, without ever calling the callable, whatever
    the return type. *)
Theorem validation_failure_answered_pending_never_ends :
  forall lib (flow0 : Flow W) flow_run0 parameters0 exc answer rt fuel m,
    let e0 := new_engine flow0 parameters0 flow_run0 in
    reachable env ->
    record_available env e0 ->
    should_validate_parameters flow0 = true ->
    validate_parameters flow0 (parameters e0) = inl exc ->
    answers_failed_with env answer ->
    State_is_pending answer = true ->
    exists m',
      run_flow env lib flow0 flow_run0 parameters0 rt fuel m
        = (OutOfFuel, m') /\
      count (@is_sleep W) (trace m') = count (@is_sleep W) (trace m) + fuel /\
      count (@is_call W) (trace m') = count (@is_call W) (trace m).
Proof.
  intros lib flow0 flow_run0 parameters0 exc answer rt fuel m e0
         Hreach Hrec Hsv Hv Hans Hpend.
  set (m0 := mkMachine e0 (world m) (contexts m) (trace m)).
  rewrite run_flow_eq. fold e0. fold m0.
  destruct (Hreach (world m0)) as (c & w1 & Hc).
  destruct (prepare_invalid_answered c (connected m0 c w1) Hrec Hans eq_refl
                                     Hsv Hv) as (fr & w2 & evs & Hp & Q).
  cbn zeta in Hp. rewrite (start_eq lib _ m0 Hc Hp).
  unfold at_yield. cbn [self world contexts trace].
  erewrite run_body_stuck_pending
    by (try reflexivity; exact Hpend).
  eexists. split; [reflexivity | ].
  destruct (quiet_counts Q) as [Qc Qs].
  cbn [trace connected m0].
  rewrite !count_app, !count_repeat, Qc, Qs. cbn. lia.
Qed.

(** X14.  If validation fails and the collaborator answers the proposed
    FAILED with a running state (RUNNING or RETRYING), the callable is
    run on the parameters that failed validation.  Asked for the result,
    the driver returns the callable's value after one call although the
    run record still holds the answered state; asked for the state, it
    never ends and calls the callable once per round. *)
Theorem validation_failure_answered_running_runs_unvalidated :
  forall lib (flow0 : Flow W) flow_run0 parameters0 exc answer v fuel m,
    let e0 := new_engine flow0 parameters0 flow_run0 in
    reachable env ->
    record_available env e0 ->
    should_validate_parameters flow0 = true ->
    validate_parameters flow0 (parameters e0) = inl exc ->
    answers_failed_with env answer ->
    State_is_running answer = true ->
    (forall w, exists w', flow_fn flow0 (parameters e0) w = (inr v, w')) ->
    (exists m',
        run_flow env lib flow0 flow_run0 parameters0 result_ (S fuel) m
          = (Return (RValue v), m') /\
        option_map fr_state (flow_run (self m')) = Some answer /\
        count (@is_call W) (trace m') = count (@is_call W) (trace m) + 1) /\
    (exists m',
        run_flow env lib flow0 flow_run0 parameters0 state_ fuel m
          = (OutOfFuel, m') /\
        count (@is_call W) (trace m') = count (@is_call W) (trace m) + fuel).
Proof.
  intros lib flow0 flow_run0 parameters0 exc answer v fuel m e0
         Hreach Hrec Hsv Hv Hans Hrun Hfn.
  set (m0 := mkMachine e0 (world m) (contexts m) (trace m)).
  destruct (Hreach (world m0)) as (c & w1 & Hc).
  destruct (prepare_invalid_answered c (connected m0 c w1) Hrec Hans eq_refl
                                     Hsv Hv) as (fr & w2 & evs & Hp & Q).
  cbn zeta in Hp.
  destruct (quiet_counts Q) as [Qc Qs].
  set (e1 := mkEngine (flow (self (connected m0 c w1)))
                      (parameters (self (connected m0 c w1)))
                      (Some (accept answer fr)) true (Some c) true) in *.
  set (ctx := make_context env e1 c (BackendTaskGroup lib)).
  destruct (@run_body_stuck_running fuel e1 (accept answer fr) v w2
              (ctx :: contexts m)
              ((trace (connected m0 c w1) ++ evs) ++ [EvContextEnter ctx])
              eq_refl eq_refl Hrun Hfn)
    as [(wa & Ha) (wb & Hb)].
  split.
  - rewrite run_flow_eq. fold e0. fold m0.
    rewrite (start_eq lib _ m0 Hc Hp).
    match goal with
    | |- context [run_body env _ _ ?M] =>
        change M with
          (mkMachine e1 w2 (ctx :: contexts m)
             ((trace (connected m0 c w1) ++ evs) ++ [EvContextEnter ctx]))
    end.
    rewrite Hb. eexists. split; [reflexivity | ].
    split; [reflexivity | ].
    unfold stopped, released, left_context, connected.
    cbn [self world contexts trace m0].
    rewrite !count_app, Qc. cbn. lia.
  - rewrite run_flow_eq. fold e0. fold m0.
    rewrite (start_eq lib _ m0 Hc Hp).
    match goal with
    | |- context [run_body env _ _ ?M] =>
        change M with
          (mkMachine e1 w2 (ctx :: contexts m)
             ((trace (connected m0 c w1) ++ evs) ++ [EvContextEnter ctx]))
    end.
    rewrite Ha. eexists. split; [reflexivity | ].
    unfold connected. cbn [self world contexts trace m0].
    rewrite !count_app, !count_repeat, Qc. cbn. lia.
Qed.

Lemma is_running_value m :
  is_running m =
    (Return match flow_run (self m) with
            | Some fr => State_is_running (fr_state fr)
            | None => false
            end, m).
Proof.
  unfold is_running, bind, get_self. destruct (flow_run (self m)); reflexivity.
Qed.

(** Asked for the state, the running loop hands nothing back itself, and
    it is left only once the run is no longer running. *)
Lemma running_loop_state_exit fuel :
  forall m r m',
    running_loop env state_ fuel m = (Return r, m') ->
    r = None /\
    forall fr, flow_run (self m') = Some fr ->
               State_is_running (fr_state fr) = false.
Proof.
  induction fuel as [ | fuel IH]; intros m r m'; cbn [running_loop];
    rewrite (bind_Return _ _ _ (is_running_value m));
    destruct (flow_run (self m)) as [fr0 | ] eqn:Hfr.
  1, 3: destruct (State_is_running (fr_state fr0)) eqn:Hr.
  all: try (intros H; inversion H; subst; split; [reflexivity | ];
            intros fr Hfr'; congruence).
  - discriminate.
  - unfold bind at 1.
    match goal with
    | |- context [try_except ?b ?h m] =>
        destruct (try_except b h m) as [[ret1 | exc | ] m1] eqn:B
    end; try discriminate.
    assert (ret1 = None) as ->.
    { revert B. unfold try_except, bind.
      destruct (call_fn m) as [[v | exc | ] m2].
      - destruct (handle_success env v m2) as [[v' | exc | ] m3].
        + intros H; inversion H; reflexivity.
        + destruct (handle_exception env exc None None m3) as [[s | exc' | ] m4];
            intros H; inversion H; reflexivity.
        + discriminate.
      - destruct (handle_exception env exc None None m2) as [[s | exc' | ] m4];
          intros H; inversion H; reflexivity.
      - discriminate. }
    apply IH.
Qed.

Lemma run_body_state_exit fuel m r m' :
  run_body env state_ fuel m = (Return r, m') ->
  exists fr,
    flow_run (self m') = Some fr /\
    r = RState (fr_state fr) /\
    State_is_running (fr_state fr) = false.
Proof.
  unfold run_body, bind.
  destruct (begin_run env m) as [[s | exc | ] m1]; try discriminate.
  destruct (pending_loop env fuel m1) as [[[] | exc | ] m2]; try discriminate.
  destruct (running_loop env state_ fuel m2) as [[ret1 | exc | ] m3] eqn:L;
    try discriminate.
  destruct (running_loop_state_exit _ _ L) as [-> Hnr].
  unfold state, the_flow_run, bind, get_self.
  destruct (flow_run (self m3)) as [fr | ] eqn:Hfr; cbn; try discriminate.
  intros H. inversion H; subst. exists fr. auto.
Qed.

(** X15.  Asked for the state, neither driver ever hands back a running
    state: the state returned is the one the run record holds at the end,
    and it is neither RUNNING nor RETRYING. *)
Theorem drivers_never_return_a_running_state :
  forall lib ambient (flow0 : Flow W) flow_run0 parameters0 fuel m r m',
    run_flow env lib flow0 flow_run0 parameters0 state_ fuel m
      = (Return r, m') \/
    run_flow_sync env ambient flow0 flow_run0 parameters0 state_ fuel m
      = (Return r, m') ->
    exists s,
      r = RState s /\
      State_is_running s = false /\
      option_map fr_state (flow_run (self m')) = Some s.
Proof.
  intros lib ambient flow0 flow_run0 parameters0 fuel m r m' H.
  rewrite run_flow_eq, run_flow_sync_eq, start_cases, start_sync_cases in H.
  destruct (client_enter env _) as [[c | exc | ] m1];
    [ | destruct H; discriminate | destruct H; discriminate ].
  destruct (prepare env c m1) as [[e | exc | ] m2];
    [ | destruct H; discriminate | destruct H; discriminate ].
  change (run_body_sync env state_ fuel) with (run_body env state_ fuel) in H.
  destruct H as [H | H].
  - destruct (run_body env state_ fuel _) as [[r1 | exc | ] m3] eqn:B;
      try discriminate.
    inversion H; subst.
    destruct (run_body_state_exit _ _ B) as (fr & Hfr & -> & Hr).
    exists (fr_state fr). cbn. rewrite Hfr. auto.
  - destruct (run_body env state_ fuel _) as [[r1 | exc | ] m3] eqn:B;
      try discriminate.
    inversion H; subst.
    destruct (run_body_state_exit _ _ B) as (fr & Hfr & -> & Hr).
    exists (fr_state fr). cbn. rewrite Hfr. auto.
Qed.

Lemma run_body_returns_whatever_is_answered m fr c v answer fuel :
  accepts_running env ->
  answers_completed_with env answer ->
  short_circuit (self m) = false ->
  flow_run (self m) = Some fr ->
  _is_started (self m) = true ->
  _client (self m) = Some c ->
  (forall w, exists w',
      flow_fn (flow (self m)) (parameters (self m)) w = (inr v, w')) ->
  exists w',
    run_body env result_ (S fuel) m =
      (Return (RValue v),
       mkMachine (with_flow_run (accept answer (accept Running fr)) (self m))
                 w' (contexts m)
                 (trace m ++ [EvProposeState (fr_id fr) Running;
                              EvCallFn (parameters (self m));
                              EvProposeState (fr_id fr) Completed])).
Proof.
  intros Har Hac Hsc Hfr Hst Hcl Hfn.
  destruct m as [[f p r st cl sc] w cs t]. cbn in Hsc, Hfr, Hst, Hcl, Hfn.
  subst.
  destruct (Har c (fr_id fr) w) as (w1 & H1).
  destruct (Hfn w1) as (w2 & H2).
  destruct (Hac c (fr_id fr) w2) as (w3 & H3).
  exists w3.
  cbn [run_body pending_loop running_loop].
  repeat (unfold_engine; cbn; try rewrite H1; try rewrite H2; try rewrite H3).
  repeat rewrite <- app_assoc. reflexivity.
Qed.

Lemma ensure_flow_run_creates c m :
  exists evs,
    trace (snd (ensure_flow_run env c m)) = trace m ++ evs /\
    Forall (fun ev => is_create ev = true) evs.
Proof.
  unfold ensure_flow_run, bind at 1, get_self.
  destruct (flow_run (self m)) as [fr | ].
  - exists []. split; [now rewrite app_nil_r | constructor].
  - destruct (create_flow_run_cases c m) as (_ & _ & _ & evs & H4 & H5).
    exists evs. split; [ | exact H5]. unfold bind.
    destruct (create_flow_run env c m) as [[fr | exc | ] m1]; exact H4.
Qed.

Lemma validate_step_valid m validated :
  valid_parameters (flow (self m)) (parameters (self m)) validated ->
  trace (snd (validate_step env m)) = trace m.
Proof.
  unfold validate_step, valid_parameters.
  unfold bind, get_self, try_except, set_parameters, set_self, get_self, lift.
  cbn. destruct (should_validate_parameters (flow (self m))).
  - intros ->. reflexivity.
  - reflexivity.
Qed.

(** With valid parameters the preparation of a start scope sends the
    collaborator requests for records only. *)
Lemma prepare_valid_creates c m validated :
  valid_parameters (flow (self m)) (parameters (self m)) validated ->
  exists evs,
    trace (snd (prepare env c m)) = trace m ++ evs /\
    Forall (fun ev => is_create ev = true) evs.
Proof.
  intros Hv. destruct m as [[f p r st cl sc] w cs t].
  set (m0 := mkMachine (mkEngine f p r true (Some c) sc) w cs t).
  assert (E : prepare env c (mkMachine (mkEngine f p r st cl sc) w cs t) =
              (ensure_flow_run env c ;; validate_step env ;; get_self) m0)
    by reflexivity.
  rewrite E. clear E. cbn [self flow parameters trace] in *.
  destruct (ensure_flow_run_creates c m0) as (evs & Et & Fc).
  destruct (ensure_flow_run_cases c m0)
    as (_ & _ & A2 & A3 & _).
  exists evs. split; [ | exact Fc].
  unfold bind, get_self.
  destruct (ensure_flow_run env c m0) as [[[] | exc | ] m1];
    cbn [fst snd self flow parameters trace m0] in *; try exact Et.
  assert (Hv1 : valid_parameters (flow (self m1)) (parameters (self m1))
                                 validated)
    by (rewrite A2, A3; exact Hv).
  pose proof (@validate_step_valid m1 validated Hv1) as Ev.
  destruct (validate_step env m1) as [[[] | exc | ] m2];
    cbn [fst snd] in *; rewrite Ev; exact Et.
Qed.

(** C3.  With a collaborator that can be reached, creates the run record
    when none is supplied, accepts RUNNING and answers the proposal of
    COMPLETED with [answer], with parameters that pass validation and a
    callable that returns [v] on them, [run_flow] with
    [return_type = "result"] returns exactly [v].  What it has done by
    then is, in this order: enter the client, request the records it
    needs, enter the context, propose RUNNING, call the callable on the
    validated parameters, propose COMPLETED for its run record, leave the
    context and exit the client.  The run record then holds what the
    collaborator answered to the proposal of COMPLETED, in its state,
    state name and state type: COMPLETED itself when the collaborator
    accepts it. *)
Theorem run_flow_returns_the_value_and_completes :
  forall lib (flow0 : Flow W) flow_run0 parameters0 validated answer v fuel m,
    let e0 := new_engine flow0 parameters0 flow_run0 in
    reachable env ->
    accepts_running env ->
    answers_completed_with env answer ->
    record_available env e0 ->
    valid_parameters flow0 (parameters e0) validated ->
    (forall w, exists w', flow_fn flow0 validated w = (inr v, w')) ->
    exists m' fr c ctx evs,
      run_flow env lib flow0 flow_run0 parameters0 result_ (S fuel) m
        = (Return (RValue v), m') /\
      trace m' =
        trace m ++ [EvClientEnter c] ++ evs
                ++ [EvContextEnter ctx;
                    EvProposeState (fr_id fr) Running;
                    EvCallFn validated;
                    EvProposeState (fr_id fr) Completed;
                    EvContextExit;
                    EvClientExit c None] /\
      Forall (fun ev => is_create ev = true) evs /\
      flow_run (self m') = Some fr /\
      fr_state fr = answer /\
      fr_state_type fr = state_type answer /\
      fr_state_name fr = state_name answer /\
      (forall fr0, flow_run0 = Some fr0 -> fr_id fr = fr_id fr0).
Proof.
  intros lib flow0 flow_run0 parameters0 validated answer v fuel m e0
         Hreach Har Hac Hrec Hval Hfn.
  rewrite run_flow_eq. fold e0.
  set (m0 := mkMachine e0 (world m) (contexts m) (trace m)).
  destruct (Hreach (world m0)) as (c & w1 & Hc).
  destruct (prepare_valid c (connected m0 c w1) validated Hrec Hval)
    as (fr & w2 & evs & Hp & _ & Hsame).
  destruct (@prepare_valid_creates c (connected m0 c w1) validated Hval)
    as (evs' & Et & Fc).
  cbn zeta in Hp. rewrite Hp in Et. cbn [snd trace] in Et.
  apply app_inv_head in Et. subst evs'.
  rewrite (start_eq lib _ m0 Hc Hp).
  match goal with |- context [run_body env result_ (S fuel) ?m1] =>
    destruct (@run_body_returns_whatever_is_answered m1 fr c v answer fuel
                Har Hac eq_refl eq_refl eq_refl eq_refl Hfn) as (w3 & Hb)
  end.
  rewrite Hb.
  eexists. exists (accept answer (accept Running fr)), c. eexists. exists evs.
  split; [reflexivity | ].
  split.
  { unfold stopped, released, left_context, at_yield, connected, m0.
    cbn [trace self parameters fr_id accept with_state_type with_state_name
         with_state with_flow_run].
    repeat rewrite <- app_assoc. reflexivity. }
  split; [exact Fc | ].
  repeat split.
  intros fr0 E. cbn. now rewrite (Hsame fr0 E).
Qed.

(** X16.  Asked for the result, a driver hands back the callable's value
    whatever the collaborator answers when COMPLETED is proposed:
    [handle_success] does not look at the accepted state.  The run record
    then holds that answer, which need not be COMPLETED, and the callable
    was called once. *)
Theorem result_is_returned_whatever_completed_is_answered :
  forall lib ambient (flow0 : Flow W) flow_run0 parameters0 validated answer
         v fuel m,
    let e0 := new_engine flow0 parameters0 flow_run0 in
    reachable env ->
    accepts_running env ->
    answers_completed_with env answer ->
    record_available env e0 ->
    valid_parameters flow0 (parameters e0) validated ->
    (forall w, exists w', flow_fn flow0 validated w = (inr v, w')) ->
    exists m',
      run_flow env lib flow0 flow_run0 parameters0 result_ (S fuel) m
        = (Return (RValue v), m') /\
      durable_state m' = Some answer /\
      count (@is_call W) (trace m') = S (count (@is_call W) (trace m)) /\
      fst (run_flow_sync env ambient flow0 flow_run0 parameters0 result_
                         (S fuel) m)
        = Return (RValue v).
Proof.
  intros lib ambient flow0 flow_run0 parameters0 validated answer v fuel m e0
         Hreach Har Hac Hrec Hval Hfn.
  set (m0 := mkMachine e0 (world m) (contexts m) (trace m)).
  destruct (@scopes_agree _ lib ambient _ _ m0
              (@alike_run_bodies result_ (S fuel))) as (Eq & _).
  rewrite run_flow_sync_eq, run_flow_eq. fold e0. fold m0.
  rewrite <- Eq. clear Eq.
  destruct (Hreach (world m0)) as (c & w1 & Hc).
  destruct (prepare_valid c (connected m0 c w1) validated Hrec Hval)
    as (fr & w2 & evs & Hp & Q & _).
  cbn zeta in Hp. rewrite (start_eq lib _ m0 Hc Hp).
  match goal with |- context [run_body env result_ (S fuel) ?m1] =>
    destruct (@run_body_returns_whatever_is_answered m1 fr c v answer fuel
                Har Hac eq_refl eq_refl eq_refl eq_refl Hfn) as (w3 & Hb)
  end.
  rewrite Hb. eexists. split; [reflexivity | ].
  split; [reflexivity | split; [ | reflexivity ] ].
  unfold stopped, released, left_context, at_yield, connected, m0.
  cbn [trace]. rewrite !count_app.
  destruct (quiet_counts Q) as [Q1 _]. rewrite Q1. cbn. lia.
Qed.

(** X17.  The engine's [get_client] method and its [client] property
    never change anything and agree wherever the property answers: the
    method raises exactly when the engine is not started, and the property
    then raises the same error; a client the method hands back is the one
    the property returns.  They differ only for a started engine that
    holds no client, where the method hands back nothing and the property
    raises. *)
Theorem get_client_agrees_with_the_client_property :
  forall m : Machine W,
    snd (FlowRunEngine_get_client m) = m /\
    snd (client m) = m /\
    match fst (FlowRunEngine_get_client m) with
    | Return (Some c) =>
        _is_started (self m) = true /\ fst (client m) = Return c
    | Return None =>
        _is_started (self m) = true /\
        fst (client m) = Raise engine_not_started
    | Raise exc =>
        _is_started (self m) = false /\
        exc = engine_not_started /\ fst (client m) = Raise exc
    | OutOfFuel => False
    end.
Proof.
  intros [[f p r st cl sc] w cs t].
  unfold FlowRunEngine_get_client, client, bind, get_self, raise, ret. cbn.
  destruct st, cl; cbn; auto.
Qed.

(** X18.  An engine that holds no run record is neither running nor
    pending, and every operation that needs the record raises without
    proposing anything: [set_state], [begin_run], [handle_success],
    [handle_exception], [state] and [result] leave the engine, the
    collaborator and the trace as they were. *)
Theorem no_run_record_nothing_is_proposed :
  forall (m : Machine W) s v exc msg rf b,
    flow_run (self m) = None ->
    is_running m = (Return false, m) /\
    is_pending m = (Return false, m) /\
    (exists err, state m = (Raise err, m)) /\
    (exists err, result b m = (Raise err, m)) /\
    (exists err, set_state env s m = (Raise err, m)) /\
    (exists err, begin_run env m = (Raise err, m)) /\
    (exists err, handle_success env v m = (Raise err, m)) /\
    (exists err, handle_exception env exc msg rf m = (Raise err, m)).
Proof.
  intros [[f p r st cl sc] w cs t] s v exc msg rf b Hfr. cbn in Hfr. subst r.
  assert (S : forall s0, exists err,
             set_state env s0 (mkMachine (mkEngine f p None st cl sc) w cs t)
             = (Raise err, mkMachine (mkEngine f p None st cl sc) w cs t)).
  { intros s0.
    unfold set_state, state, client, the_flow_run, bind, get_self, raise, ret.
    cbn. destruct sc, st, cl; cbn; eauto. }
  split; [reflexivity | ]. split; [reflexivity | ].
  split; [eexists; reflexivity | ]. split; [eexists; reflexivity | ].
  split; [apply S | ]. split; [apply S | ].
  split.
  - destruct (S Completed) as (err & E). exists err.
    unfold handle_success, bind. rewrite E. reflexivity.
  - rewrite handle_exception_eq. apply S.
Qed.

(** X19.  What [create_flow_run] asks of the collaborator, however it
    ends.  Outside any context it sends at most the request for the run
    record, with no parent linkage.  Inside a context it first requests a
    child task run named after the flow, with one input entry per
    parameter and with the enclosing run's id, or none when the context
    carries no run record; only if that is answered does it go on to the
    request for the run record, linked to the child.  Both records are
    requested in PENDING, and the engine itself is not changed. *)
Theorem create_flow_run_requests :
  forall c (m : Machine W),
    self (snd (create_flow_run env c m)) = self m /\
    match hd_error (contexts m) with
    | None =>
        (exists exc,
            create_flow_run env c m = (Raise exc, m) /\
            is_TypeError exc = false) \/
        (exists freq,
            record_request (self m) None freq /\
            trace (snd (create_flow_run env c m))
              = trace m ++ [EvCreateFlowRun freq])
    | Some context =>
        exists treq,
          child_request (self m) context treq /\
          ((exists exc,
               fst (create_flow_run env c m) = Raise exc /\
               trace (snd (create_flow_run env c m))
                 = trace m ++ [EvCreateTaskRun treq]) \/
           (exists child w1 freq,
               client_create_task_run env c treq (world m) = (inr child, w1) /\
               record_request (self m) (Some (tr_id child)) freq /\
               trace (snd (create_flow_run env c m))
                 = trace m ++ [EvCreateTaskRun treq; EvCreateFlowRun freq]))
    end.
Proof.
  intros c [e w cs t].
  unfold create_flow_run, create_subflow_task_run.
  unfold bind, FlowRunContext_get, get_self, log, remote. cbn.
  destruct cs as [ | ctx rest]; cbn.
  - destruct (_resolve_custom_flow_run_name env (flow e) (parameters e))
      as [exc | n]; [destruct (is_TypeError exc) eqn:T | ]; cbn.
    2: { split; [reflexivity | left; exists exc; auto]. }
    all: match goal with |- context [client_create_flow_run env ?c0 ?r ?w0] =>
           destruct (client_create_flow_run env c0 r w0) as [[exc' | fr] w2];
           cbn; (split; [reflexivity | right; exists r]);
           (split; [repeat split | reflexivity])
         end.
  - match goal with |- context [client_create_task_run env c ?r ?w0] =>
      destruct (client_create_task_run env c r w0) as [[exc1 | tr] w1] eqn:E1;
      cbn; (split; [ | exists r; split;
                       [repeat split; cbn; now rewrite map_map | ] ])
    end.
    + reflexivity.
    + left. exists exc1. auto.
    + destruct (_resolve_custom_flow_run_name env (flow e) (parameters e))
        as [exc | n]; [destruct (is_TypeError exc) | ]; cbn; try reflexivity;
        match goal with |- context [client_create_flow_run env c ?r ?w0] =>
          destruct (client_create_flow_run env c r w0) as [[exc' | fr] w2]
        end; reflexivity.
    + destruct (_resolve_custom_flow_run_name env (flow e) (parameters e))
        as [exc | n]; [destruct (is_TypeError exc) | ]; cbn.
      2: { left. exists exc. auto. }
      all: right; exists tr, w1;
        match goal with |- context [client_create_flow_run env ?c0 ?r ?w0] =>
          destruct (client_create_flow_run env c0 r w0) as [[exc' | fr] w2];
          cbn; exists r; (split; [exact E1 | ]);
          (split; [repeat split | now rewrite <- app_assoc])
        end.
Qed.

Lemma is_pending_value m :
  is_pending m =
    (Return match flow_run (self m) with
            | Some fr => State_is_pending (fr_state fr)
            | None => false
            end, m).
Proof.
  unfold is_pending, bind, get_self. destruct (flow_run (self m)); reflexivity.
Qed.

Lemma begin_run_cases m fr :
  flow_run (self m) = Some fr ->
  fst (begin_run env m) <> OutOfFuel /\
  contexts (snd (begin_run env m)) = contexts m /\
  (trace (snd (begin_run env m)) = trace m \/
   trace (snd (begin_run env m))
     = trace m ++ [EvProposeState (fr_id fr) Running]) /\
  (forall s, fst (begin_run env m) = Return s ->
             option_map fr_id (flow_run (self (snd (begin_run env m))))
             = Some (fr_id fr)).
Proof.
  destruct m as [[f p r st cl sc] w cs t]. cbn [self flow_run]. intros ->.
  unfold begin_run, set_state, state, client, the_flow_run, write_flow_run,
    the_flow_run, set_subflow_state, remote, log, set_self, get_self, bind.
  cbn. destruct sc; cbn; [repeat split; (discriminate || auto) | ].
  destruct st; cbn; [ | repeat split; (discriminate || auto) ].
  destruct cl as [c | ]; cbn; [ | repeat split; (discriminate || auto) ].
  destruct (propose_state env c Running (fr_id fr) w) as [[exc | a] w']; cbn;
    repeat split; (discriminate || auto).
Qed.

(** X20.  The waiting loop, from any machine and for any collaborator:
    what it adds to the trace is a run of rounds, each a one-second sleep
    followed by at most one proposal of RUNNING for the engine's own run
    record, and nothing else.  It sleeps at most once per unit of fuel;
    when it returns the run is no longer pending, when it raises it has
    slept at least once, and it runs out of fuel only after sleeping as
    many times as it had fuel. *)
Theorem pending_loop_polls_once_a_second :
  forall fuel (m : Machine W),
  exists evs,
    trace (snd (pending_loop env fuel m)) = trace m ++ evs /\
    polled (option_map fr_id (flow_run (self m))) evs /\
    match fst (pending_loop env fuel m) with
    | Return _ =>
        count (@is_sleep W) evs <= fuel /\
        is_pending (snd (pending_loop env fuel m))
          = (Return false, snd (pending_loop env fuel m))
    | Raise _ => 1 <= count (@is_sleep W) evs <= fuel
    | OutOfFuel => count (@is_sleep W) evs = fuel
    end.
Proof.
  induction fuel as [ | fuel IH]; intros m; cbn [pending_loop];
    rewrite (bind_Return _ _ _ (is_pending_value m));
    destruct (flow_run (self m)) as [fr | ] eqn:Hfr.
  1, 3: destruct (State_is_pending (fr_state fr)) eqn:Hp.
  all: try (exists []; cbn; rewrite ?app_nil_r, ?is_pending_value, ?Hfr, ?Hp;
            repeat split; first [lia | reflexivity | constructor]).
  set (m1 := mkMachine (self m) (world m) (contexts m)
                       (trace m ++ [EvSleep 1])).
  change ((log (EvSleep 1) ;; begin_run env ;; pending_loop env fuel) m)
    with ((begin_run env ;; pending_loop env fuel) m1).
  assert (Hfr1 : flow_run (self m1) = Some fr) by exact Hfr.
  destruct (begin_run_cases m1 Hfr1) as (Hfuel & _ & Htr & Hid).
  unfold bind.
  destruct (begin_run env m1) as [[s | exc | ] m2]; cbn [fst snd] in *;
    [ | | congruence ].
  - destruct (IH m2) as (evs & E & P & Hm). rewrite (Hid s eq_refl) in P.
    destruct Htr as [Htr | Htr]; rewrite Htr in E; unfold m1 in E;
      cbn [trace] in E; rewrite <- ?app_assoc in E; cbn [app] in E;
      eexists; (split; [exact E | ]);
      (split; [constructor; (reflexivity || exact P) | ]).
    + destruct (fst (pending_loop env fuel m2));
        unfold count in *; cbn; unfold count in Hm; cbn in Hm;
        repeat split; try tauto; lia.
    + destruct (fst (pending_loop env fuel m2));
        unfold count in *; cbn; unfold count in Hm; cbn in Hm;
        repeat split; try tauto; lia.
  - destruct Htr as [Htr | Htr]; rewrite Htr; unfold m1; cbn [trace];
      rewrite <- ?app_assoc; cbn [app];
      eexists; (split; [reflexivity | ]);
      (split; [repeat constructor | ]);
      unfold count; cbn; lia.
Qed.

Lemma call_fn_raises m exc w' :
  flow_fn (flow (self m)) (parameters (self m)) (world m) = (inl exc, w') ->
  call_fn m =
    (Raise exc, mkMachine (self m) w' (contexts m)
                          (trace m ++ [EvCallFn (parameters (self m))])).
Proof.
  intros H. unfold call_fn, bind, get_self, log, remote. cbn. rewrite H.
  reflexivity.
Qed.

(** One round of the running loop whose callable raises, with a
    collaborator that answers the proposed FAILED with [answer]. *)
Lemma running_round_raises rt m fr c exc answer w1 w2 :
  let failed :=
    exception_to_failed_state exc "Flow run encountered an exception:"
      (option_map (@ctx_result_factory W) (hd_error (contexts m))) in
  short_circuit (self m) = false ->
  flow_run (self m) = Some fr ->
  _is_started (self m) = true ->
  _client (self m) = Some c ->
  flow_fn (flow (self m)) (parameters (self m)) (world m) = (inl exc, w1) ->
  propose_state env c failed (fr_id fr) w1 = (inr answer, w2) ->
  try_except
    (r <- call_fn ;;
     handle_success env r ;;
     match rt with
     | result_ => ret (Some (RValue r))
     | state_ => ret None
     end)
    (fun exc => handle_exception env exc None None ;; ret None) m
  = (Return None,
     mkMachine (with_flow_run (accept answer fr) (self m)) w2 (contexts m)
               (trace m ++ [EvCallFn (parameters (self m));
                            EvProposeState (fr_id fr) failed])).
Proof.
  intros failed Hsc Hfr Hst Hcl Hfn Hp.
  unfold try_except. unfold bind at 1.
  rewrite (call_fn_raises m Hfn).
  unfold bind. rewrite handle_exception_eq.
  erewrite set_state_live; try eassumption; try reflexivity.
  cbn [self world contexts trace]. rewrite <- app_assoc. reflexivity.
Qed.

Lemma running_loop_retries rt exc answer c :
  answers_failed_with env answer ->
  State_is_running answer = true ->
  forall fuel m fr,
    short_circuit (self m) = false ->
    flow_run (self m) = Some fr ->
    State_is_running (fr_state fr) = true ->
    _is_started (self m) = true ->
    _client (self m) = Some c ->
    (forall w, exists w',
        flow_fn (flow (self m)) (parameters (self m)) w = (inl exc, w')) ->
    exists m' evs,
      running_loop env rt fuel m = (OutOfFuel, m') /\
      trace m' = trace m ++ evs /\
      count (@is_call W) evs = fuel /\
      count (@is_sleep W) evs = 0.
Proof.
  intros Hans Hran.
  induction fuel as [ | fuel IH]; intros m fr Hsc Hfr Hr Hst Hcl Hfn;
    cbn [running_loop]; rewrite (bind_Return _ _ _ (is_running_eq m Hfr)), Hr.
  - exists m, []. rewrite app_nil_r. auto.
  - destruct (Hfn (world m)) as (w1 & H1).
    destruct (Hans c
                (exception_to_failed_state exc
                   "Flow run encountered an exception:"
                   (option_map (@ctx_result_factory W)
                               (hd_error (contexts m))))
                (fr_id fr) w1 eq_refl) as (w2 & H2).
    rewrite (bind_Return _ _ _
               (running_round_raises rt m Hsc Hfr Hst Hcl H1 H2)).
    cbn beta iota.
    match goal with
    | |- context [running_loop env rt fuel ?M] =>
        destruct (IH M (accept answer fr)) as (m' & evs & E & Etr & Ec & Es);
        [ exact Hsc | reflexivity | exact Hran | exact Hst | exact Hcl
        | exact Hfn | ]
    end.
    rewrite E. eexists. eexists. split; [reflexivity | ].
    rewrite Etr. cbn [trace]. rewrite <- app_assoc.
    split; [reflexivity | ].
    rewrite !count_app, Ec, Es. unfold count. cbn. auto.
Qed.

(** X21.  The engine puts no bound on retries: with a callable that
    raises every time and a collaborator that answers every proposed
    FAILED with a running state, the driver runs the callable again and
    again and never ends, calling it once per round and never sleeping,
    whatever the return type. *)
Theorem collaborator_alone_ends_the_retries :
  forall lib (flow0 : Flow W) flow_run0 parameters0 validated exc answer
         rt fuel m,
    let e0 := new_engine flow0 parameters0 flow_run0 in
    reachable env ->
    accepts_running env ->
    answers_failed_with env answer ->
    State_is_running answer = true ->
    record_available env e0 ->
    valid_parameters flow0 (parameters e0) validated ->
    (forall w, exists w', flow_fn flow0 validated w = (inl exc, w')) ->
    exists m',
      run_flow env lib flow0 flow_run0 parameters0 rt fuel m
        = (OutOfFuel, m') /\
      count (@is_call W) (trace m') = count (@is_call W) (trace m) + fuel /\
      count (@is_sleep W) (trace m') = count (@is_sleep W) (trace m).
Proof.
  intros lib flow0 flow_run0 parameters0 validated exc answer rt fuel m e0
         Hreach Har Hans Hran Hrec Hval Hfn.
  set (m0 := mkMachine e0 (world m) (contexts m) (trace m)).
  rewrite run_flow_eq. fold e0. fold m0.
  destruct (Hreach (world m0)) as (c & w1 & Hc).
  destruct (prepare_valid c (connected m0 c w1) validated Hrec Hval)
    as (fr & w2 & evs & Hp & Q & _).
  cbn zeta in Hp. rewrite (start_eq lib _ m0 Hc Hp).
  destruct (quiet_counts Q) as [Qc Qs].
  match goal with
  | |- context [run_body env rt fuel ?M] => set (m1 := M)
  end.
  destruct (Har c (fr_id fr) (world m1)) as (w3 & H3).
  unfold run_body, begin_run.
  erewrite bind_Return
    by (apply set_state_live with (fr := fr) (c := c); try reflexivity;
        exact H3).
  erewrite bind_Return
    by (apply pending_loop_done with (fr := accept Running fr); reflexivity).
  match goal with
  | |- context [bind (running_loop env rt fuel) _ ?M] =>
      destruct (@running_loop_retries rt exc answer c Hans Hran fuel M
                  (accept Running fr) eq_refl eq_refl eq_refl eq_refl eq_refl
                  Hfn)
        as (m' & evs' & E & Etr & Ec & Es)
  end.
  unfold bind. rewrite E. exists m'. split; [reflexivity | ].
  rewrite Etr. unfold m1, at_yield, connected, m0. cbn [trace].
  rewrite !count_app, Ec, Es, Qc, Qs. unfold count. cbn. lia.
Qed.

End Properties.

(* ================================================================== *)
(** * The properties on the stubs *)
(* ================================================================== *)

Unset Implicit Arguments.
Unset Maximal Implicit Insertion.

Lemma stub_reachable answer name : reachable (Stub.server answer name).
Proof. intros w. exists Stub.the_client, w. reflexivity. Qed.

Lemma stub_creates_records answer name :
  creates_records (Stub.server answer name).
Proof.
  split; intros c req w.
  - exists (Stub.task_run_of req), w. reflexivity.
  - exists (Stub.flow_run_of req), w. reflexivity.
Qed.

Lemma stub_accepts_proposals name :
  accepts_proposals (Stub.server (fun s => s) name).
Proof. intros c s id w. exists w. reflexivity. Qed.

Lemma stub_accepts_failed name :
  accepts_failed (Stub.server (fun s => s) name).
Proof. intros c s id w _. exists w. reflexivity. Qed.

Lemma stub_name_resolves answer (f : Flow nat) p :
  name_resolves (Stub.server answer (inl Stub.no_custom_name)) f p.
Proof. intros exc E. cbn in E. inversion E. reflexivity. Qed.

Lemma stub_record_available answer e :
  record_available (Stub.server answer (inl Stub.no_custom_name)) e.
Proof.
  intros _. split; [apply stub_creates_records | apply stub_name_resolves].
Qed.

Lemma accepting_accepts_running : accepts_running Stub.accepting.
Proof. intros c id w. exists w. reflexivity. Qed.

Lemma accepting_answers_completed :
  answers_completed_with Stub.accepting Completed.
Proof. intros c id w. exists w. reflexivity. Qed.

Lemma add_one_returns w :
  exists w', Stub.add_one (Stub.x_is (VInt 1)) w = (inr (VInt 2), w').
Proof. exists (S w). reflexivity. Qed.

Lemma always_raises_raises p w :
  exists w', Stub.always_raises p w = (inl Stub.boom, w').
Proof. exists (S w). reflexivity. Qed.

(** C1 as stated fails before [start]: an engine that holds a run record
    and is not short-circuited raises instead of proposing, sends nothing
    and leaves its record as it was. *)
Lemma set_state_before_start_raises :
  short_circuit (self Stub.unstarted) = false /\
  flow_run (self Stub.unstarted) = Some Stub.a_flow_run /\
  set_state Stub.accepting Running Stub.unstarted
    = (Raise engine_not_started, Stub.unstarted).
Proof. repeat split. Qed.

(** C1, amended, on a started engine whose collaborator answers a proposed
    FAILED with RETRYING: the record takes RETRYING. *)
Lemma set_state_records_accepted_state_witness :
  exists fr',
    set_state Stub.retrying Stub.failed_with_boom Stub.live =
      (Return Stub.Retrying,
       mkMachine (with_flow_run fr' (self Stub.live)) 0 []
                 [EvProposeState 5%N Stub.failed_with_boom]) /\
    fr_state fr' = Stub.Retrying /\
    fr_state_name fr' = "Retrying" /\
    fr_state_type fr' = RETRYING /\
    fr_id fr' = 5%N.
Proof.
  exact (@set_state_records_accepted_state nat Stub.retrying Stub.live
           Stub.a_flow_run Stub.the_client Stub.failed_with_boom
           Stub.Retrying 0 eq_refl eq_refl eq_refl eq_refl eq_refl).
Defined.

(** C5 on a short-circuited engine: two proposals, the record's PENDING
    state both times, and the machine untouched. *)
Lemma set_state_short_circuited_is_noop_witness :
  set_state Stub.accepting Running Stub.halted
    = (Return Pending, Stub.halted) /\
  set_state Stub.accepting Completed
            (snd (set_state Stub.accepting Running Stub.halted))
    = (Return Pending, Stub.halted).
Proof.
  exact (proj2 (proj2 (proj2
           (@set_state_short_circuited_is_noop nat Stub.accepting Stub.halted
              Running Completed eq_refl)))
           Stub.a_flow_run eq_refl).
Defined.

(** C2 as stated fails when the collaborator does not accept the proposed
    FAILED but answers with a state that is running (RETRYING from a server
    that grants a retry, RUNNING from one that rewrites every proposal):
    the run is short-circuited in that state, and the driver calls the
    work's callable on the parameters that failed validation and returns
    what it gives. *)
Lemma validation_failure_with_granted_retry_runs_the_callable :
  should_validate_parameters (Stub.work true Stub.add_one) = true /\
  validate_parameters (Stub.work true Stub.add_one) Stub.not_an_int_given
    = inl Stub.not_an_int /\
  fst (run_flow Stub.retrying asyncio (Stub.work true Stub.add_one) None
                (Some Stub.not_an_int_given) result_ 1 Stub.idle)
    = Return (RValue VNone) /\
  count (@is_call nat)
        (trace (snd (run_flow Stub.retrying asyncio
                       (Stub.work true Stub.add_one) None
                       (Some Stub.not_an_int_given) result_ 1 Stub.idle)))
    = 1 /\
  durable_state (snd (run_flow Stub.retrying asyncio
                        (Stub.work true Stub.add_one) None
                        (Some Stub.not_an_int_given) result_ 1 Stub.idle))
    = Some Stub.Retrying /\
  fst (run_flow Stub.insisting asyncio (Stub.work true Stub.add_one) None
                (Some Stub.not_an_int_given) result_ 1 Stub.idle)
    = Return (RValue VNone) /\
  trace (snd (run_flow Stub.insisting asyncio (Stub.work true Stub.add_one)
                None (Some Stub.not_an_int_given) state_ 2 Stub.idle))
    = [EvClientEnter Stub.the_client;
       EvCreateFlowRun
         (mkFlowRunCreate (Stub.work true Stub.add_one) None
                          Stub.not_an_int_given Pending None);
       EvProposeState 42%N
         (exception_to_failed_state Stub.not_an_int validation_failed_msg
                                    (Some (ResultFactoryOf "work")));
       EvContextEnter
         (mkFlowRunContext (Stub.work true Stub.add_one) false
            (Some (accept Running
                     (Stub.flow_run_of
                        (mkFlowRunCreate (Stub.work true Stub.add_one) None
                           Stub.not_an_int_given Pending None))))
            Stub.not_an_int_given Stub.the_client (BackendTaskGroup asyncio)
            (ResultFactoryOf "work") SequentialTaskRunner);
       EvCallFn Stub.not_an_int_given;
       EvCallFn Stub.not_an_int_given].
Proof. repeat split. Qed.

(** C2, amended, on the work that declares [x: int], called with
    [x = "not-an-int"]: FAILED is returned and the callable is not run. *)
Lemma validation_failure_short_circuits_witness :
  exists m',
    run_flow Stub.accepting asyncio (Stub.work true Stub.add_one) None
             (Some Stub.not_an_int_given) state_ 5 Stub.idle =
      (Return (RState (exception_to_failed_state Stub.not_an_int
                         validation_failed_msg
                         (Some (ResultFactoryOf "work")))), m') /\
    count (@is_call nat) (trace m') = count (@is_call nat) (trace Stub.idle) /\
    short_circuit (self m') = true /\
    durable_state m' =
      Some (exception_to_failed_state Stub.not_an_int validation_failed_msg
              (Some (ResultFactoryOf "work"))).
Proof.
  exact (proj2 (@validation_failure_short_circuits nat Stub.accepting asyncio
                  (Stub.work true Stub.add_one) None
                  (Some Stub.not_an_int_given) Stub.not_an_int Stub.idle
                  (stub_reachable _ _) (stub_accepts_failed _)
                  (stub_record_available _ _) eq_refl eq_refl)
               state_ 5).
Defined.

(** C3 on the stubs: [x + 1] for [x = 1], with a collaborator that
    accepts COMPLETED. *)
Lemma run_flow_returns_the_value_and_completes_witness :
  exists m' fr c ctx evs,
    run_flow Stub.accepting asyncio (Stub.work true Stub.add_one) None
             (Some (Stub.x_is (VInt 1))) result_ 1 Stub.idle
      = (Return (RValue (VInt 2)), m') /\
    trace m' =
      trace Stub.idle ++ [EvClientEnter c] ++ evs
        ++ [EvContextEnter ctx;
            EvProposeState (fr_id fr) Running;
            EvCallFn (Stub.x_is (VInt 1));
            EvProposeState (fr_id fr) Completed;
            EvContextExit;
            EvClientExit c None] /\
    Forall (fun ev => is_create ev = true) evs /\
    flow_run (self m') = Some fr /\
    fr_state fr = Completed /\
    fr_state_type fr = state_type Completed /\
    fr_state_name fr = state_name Completed /\
    (forall fr0, @None FlowRun = Some fr0 -> fr_id fr = fr_id fr0).
Proof.
  exact (@run_flow_returns_the_value_and_completes nat Stub.accepting asyncio
           (Stub.work true Stub.add_one) None (Some (Stub.x_is (VInt 1)))
           (Stub.x_is (VInt 1)) Completed (VInt 2) 0 Stub.idle
           (stub_reachable _ _) accepting_accepts_running
           accepting_answers_completed
           (stub_record_available _ _) eq_refl add_one_returns).
Defined.

(** C4 on the stubs: a callable that raises [boom]. *)
Lemma run_flow_turns_an_exception_into_failed_witness :
  (exists s m',
      run_flow Stub.accepting asyncio (Stub.work true Stub.always_raises)
               None (Some (Stub.x_is (VInt 1))) state_ 1 Stub.idle
        = (Return (RState s), m') /\
      state_type s = FAILED /\
      (exists policy, state_data s = Some (PError Stub.boom policy)) /\
      durable_state m' = Some s) /\
  (exists wrapped s m',
      run_flow Stub.accepting asyncio (Stub.work true Stub.always_raises)
               None (Some (Stub.x_is (VInt 1))) result_ 1 Stub.idle
        = (Raise wrapped, m') /\
      exc_cause wrapped = Some Stub.boom /\
      durable_state m' = Some s /\
      state_type s = FAILED).
Proof.
  exact (@run_flow_turns_an_exception_into_failed nat Stub.accepting asyncio
           (Stub.work true Stub.always_raises) None
           (Some (Stub.x_is (VInt 1))) (Stub.x_is (VInt 1)) Stub.boom 0
           Stub.idle
           (stub_reachable _ _) (stub_accepts_proposals _)
           (stub_record_available _ _) eq_refl
           (always_raises_raises (Stub.x_is (VInt 1)))).
Defined.

(** C7 on the stubs: an engine started inside the context of run 5. *)
Lemma nested_run_registers_child_then_creates_record_witness :
  exists treq child w1 freq fr w2,
    client_create_task_run Stub.accepting Stub.the_client treq 0
      = (inr child, w1) /\
    trc_flow_run_id treq = Some 5%N /\
    client_create_flow_run Stub.accepting Stub.the_client freq w1
      = (inr fr, w2) /\
    frc_parent_task_run_id freq = Some (tr_id child) /\
    ensure_flow_run Stub.accepting Stub.the_client Stub.nested =
      (Return tt,
       mkMachine (with_flow_run fr (self Stub.nested)) w2
                 [Stub.outer_context]
                 [EvCreateTaskRun treq; EvCreateFlowRun freq]).
Proof.
  exact (proj1 (@nested_run_registers_child_then_creates_record nat
                  Stub.accepting Stub.the_client Stub.nested eq_refl
                  (stub_creates_records _ _) (stub_name_resolves _ _ _))
               Stub.outer_context [] Stub.a_flow_run eq_refl eq_refl).
Defined.

(** C9 as stated fails for an error that is not a [TypeError]: a
    [KeyError] from the name template leaves [create_flow_run] and
    [start]. *)
Lemma custom_name_KeyError_propagates :
  _resolve_custom_flow_run_name Stub.bad_template
    (Stub.work true Stub.add_one) (Stub.x_is (VInt 1))
    = inl Stub.missing_key /\
  create_flow_run Stub.bad_template Stub.the_client Stub.idle
    = (Raise Stub.missing_key, Stub.idle) /\
  fst (start Stub.bad_template asyncio get_self Stub.idle)
    = Raise Stub.missing_key.
Proof. repeat split. Qed.

(** C9, amended, on the stubs: the [TypeError] of a flow without a custom
    run name. *)
Lemma custom_name_TypeError_is_swallowed_witness :
  exists run m1,
    start Stub.accepting asyncio get_self Stub.idle = (Return run, m1).
Proof.
  exact (proj2 (@custom_name_TypeError_is_swallowed nat Stub.accepting asyncio
                  (Stub.work true Stub.add_one) (Some (Stub.x_is (VInt 1)))
                  Stub.no_custom_name Stub.idle eq_refl eq_refl
                  (stub_creates_records _ _))
               (stub_reachable _ _) (stub_accepts_failed _)).
Defined.

(** C8 as stated fails for one and the same work: a plain function that
    returns [x + 1], with a collaborator that accepts everything
    (immediate success).  [run_flow] calls it and cannot await the [2]
    that comes back; the [TypeError] is handled as a failure of the
    callable and the run ends FAILED.  [run_flow_sync] hands back [2] and
    the run ends COMPLETED.  The body ran once under each driver. *)
Lemma one_plain_function_under_both_drivers :
  fst (run_flow Stub.accepting asyncio
                (plain_def_under_run_flow (Stub.work true Stub.add_one))
                None (Some (Stub.x_is (VInt 1))) state_ 1 Stub.idle)
    = Return (RState (exception_to_failed_state
                        (not_awaitable (VInt 2))
                        "Flow run encountered an exception:"
                        (Some (ResultFactoryOf "work")))) /\
  option_map state_type
    (durable_state
       (snd (run_flow Stub.accepting asyncio
                      (plain_def_under_run_flow (Stub.work true Stub.add_one))
                      None (Some (Stub.x_is (VInt 1))) state_ 1 Stub.idle)))
    = Some FAILED /\
  world (snd (run_flow Stub.accepting asyncio
                       (plain_def_under_run_flow (Stub.work true Stub.add_one))
                       None (Some (Stub.x_is (VInt 1))) state_ 1 Stub.idle))
    = 1 /\
  fst (run_flow_sync Stub.accepting None
                     (plain_def_under_run_flow_sync
                        (Stub.work true Stub.add_one))
                     None (Some (Stub.x_is (VInt 1))) state_ 1 Stub.idle)
    = Return (RState Completed) /\
  option_map state_type
    (durable_state
       (snd (run_flow_sync Stub.accepting None
                           (plain_def_under_run_flow_sync
                              (Stub.work true Stub.add_one))
                           None (Some (Stub.x_is (VInt 1))) state_ 1
                           Stub.idle)))
    = Some COMPLETED /\
  world (snd (run_flow_sync Stub.accepting None
                            (plain_def_under_run_flow_sync
                               (Stub.work true Stub.add_one))
                            None (Some (Stub.x_is (VInt 1))) state_ 1
                            Stub.idle))
    = 1 /\
  fst (run_flow_sync Stub.accepting None
                     (plain_def_under_run_flow_sync
                        (Stub.work true Stub.add_one))
                     None (Some (Stub.x_is (VInt 1))) result_ 1 Stub.idle)
    = Return (RValue (VInt 2)) /\
  fst (run_flow Stub.accepting asyncio
                (plain_def_under_run_flow (Stub.work true Stub.add_one))
                None (Some (Stub.x_is (VInt 1))) result_ 1 Stub.idle)
    <> Return (RValue (VInt 2)).
Proof. vm_compute. repeat split. discriminate. Qed.

(** C6 at its failing inputs.  A body of the [start_sync] scope that
    raises: the context is left once, and the client that was entered is
    never exited; the scope of [start], with the same body, exits it once.
    The same happens in the blocking driver whenever an exception leaves
    the scope: when the collaborator fails on the proposal of RUNNING (the
    body raises), and when the run name cannot be resolved (the
    preparation raises, before any context is entered). *)
Theorem start_sync_leaves_the_client_open_on_error :
  fst (start_sync Stub.accepting None (raise Stub.boom : M nat unit)
                  Stub.idle)
    = Raise Stub.boom /\
  map (fun p =>
         count p (trace (snd (start_sync Stub.accepting None
                                (raise Stub.boom : M nat unit) Stub.idle))))
      [@is_client_enter nat; @is_client_exit nat;
       @is_context_enter nat; @is_context_exit nat]
    = [1; 0; 1; 1] /\
  map (fun p =>
         count p (trace (snd (start Stub.accepting asyncio
                                (raise Stub.boom : M nat unit) Stub.idle))))
      [@is_client_enter nat; @is_client_exit nat;
       @is_context_enter nat; @is_context_exit nat]
    = [1; 1; 1; 1] /\
  fst (run_flow_sync Stub.dropping None (Stub.work true Stub.add_one)
                     None (Some (Stub.x_is (VInt 1))) result_ 1 Stub.idle)
    = Raise Stub.gone /\
  map (fun p =>
         count p (trace (snd (run_flow_sync Stub.dropping None
                                (Stub.work true Stub.add_one) None
                                (Some (Stub.x_is (VInt 1))) result_ 1
                                Stub.idle))))
      [@is_client_enter nat; @is_client_exit nat;
       @is_context_enter nat; @is_context_exit nat]
    = [1; 0; 1; 1] /\
  map (fun p =>
         count p (trace (snd (run_flow Stub.dropping asyncio
                                (Stub.work true Stub.add_one) None
                                (Some (Stub.x_is (VInt 1))) result_ 1
                                Stub.idle))))
      [@is_client_enter nat; @is_client_exit nat;
       @is_context_enter nat; @is_context_exit nat]
    = [1; 1; 1; 1] /\
  fst (run_flow_sync Stub.bad_template None (Stub.work true Stub.add_one)
                     None (Some (Stub.x_is (VInt 1))) result_ 1 Stub.idle)
    = Raise Stub.missing_key /\
  map (fun p =>
         count p (trace (snd (run_flow_sync Stub.bad_template None
                                (Stub.work true Stub.add_one) None
                                (Some (Stub.x_is (VInt 1))) result_ 1
                                Stub.idle))))
      [@is_client_enter nat; @is_client_exit nat;
       @is_context_enter nat; @is_context_exit nat]
    = [1; 0; 0; 0] /\
  map (fun p =>
         count p (trace (snd (run_flow Stub.bad_template asyncio
                                (Stub.work true Stub.add_one) None
                                (Some (Stub.x_is (VInt 1))) result_ 1
                                Stub.idle))))
      [@is_client_enter nat; @is_client_exit nat;
       @is_context_enter nat; @is_context_exit nat]
    = [1; 1; 0; 0].
Proof. repeat split. Qed.

(** C10 at its failing input.  Before [start] the [client] property
    raises.  After the scope of [start] is left by an exception the engine
    is still marked started and still holds the client, so [client]
    returns it; after [start_sync] is left the same way the engine is
    reset and [client] raises. *)
Theorem start_keeps_the_engine_started_on_error :
  fst (client Stub.idle) = Raise engine_not_started /\
  fst (start Stub.accepting asyncio (raise Stub.boom : M nat unit) Stub.idle)
    = Raise Stub.boom /\
  _is_started
    (self (snd (start Stub.accepting asyncio (raise Stub.boom : M nat unit)
                      Stub.idle))) = true /\
  fst (client (snd (start Stub.accepting asyncio
                          (raise Stub.boom : M nat unit) Stub.idle)))
    = Return Stub.the_client /\
  fst (client (snd (start_sync Stub.accepting None
                               (raise Stub.boom : M nat unit) Stub.idle)))
    = Raise engine_not_started /\
  fst (client (snd (start Stub.accepting asyncio (ret tt : M nat unit)
                          Stub.idle)))
    = Raise engine_not_started.
Proof. repeat split. Qed.

(** The four scenarios of C8 on the stubs: the body as a coroutine
    function under [run_flow], as a plain function under
    [run_flow_sync]. *)
Example immediate_success :
  fst (run_flow Stub.accepting asyncio
                (async_def_under_run_flow (Stub.work true Stub.add_one))
                None (Some (Stub.x_is (VInt 1))) result_ 3 Stub.idle)
    = Return (RValue (VInt 2)) /\
  fst (run_flow_sync Stub.accepting None
                     (plain_def_under_run_flow_sync
                        (Stub.work true Stub.add_one))
                     None (Some (Stub.x_is (VInt 1))) result_ 3 Stub.idle)
    = Return (RValue (VInt 2)).
Proof. split; reflexivity. Qed.

Example validation_failure :
  fst (run_flow Stub.accepting asyncio
                (async_def_under_run_flow (Stub.work true Stub.add_one))
                None (Some Stub.not_an_int_given) result_ 3 Stub.idle)
    = Raise (ExcFrom FailedRunError validation_failed_msg Stub.not_an_int) /\
  fst (run_flow_sync Stub.accepting None
                     (plain_def_under_run_flow_sync
                        (Stub.work true Stub.add_one))
                     None (Some Stub.not_an_int_given) result_ 3 Stub.idle)
    = Raise (ExcFrom FailedRunError validation_failed_msg Stub.not_an_int).
Proof. split; reflexivity. Qed.

Example error_then_retry_then_success :
  fst (run_flow Stub.retrying asyncio
                (async_def_under_run_flow (Stub.work true Stub.raises_once))
                None (Some (Stub.x_is (VInt 1))) result_ 3 Stub.idle)
    = Return (RValue (VInt 2)) /\
  fst (run_flow_sync Stub.retrying None
                     (plain_def_under_run_flow_sync
                        (Stub.work true Stub.raises_once))
                     None (Some (Stub.x_is (VInt 1))) result_ 3 Stub.idle)
    = Return (RValue (VInt 2)) /\
  world (snd (run_flow Stub.retrying asyncio
                (async_def_under_run_flow (Stub.work true Stub.raises_once))
                None (Some (Stub.x_is (VInt 1))) result_ 3 Stub.idle)) = 2.
Proof. repeat split. Qed.

Example terminal_failure :
  fst (run_flow Stub.accepting asyncio
                (async_def_under_run_flow (Stub.work true Stub.always_raises))
                None (Some (Stub.x_is (VInt 1))) state_ 3 Stub.idle)
    = Return (RState (exception_to_failed_state Stub.boom
                        "Flow run encountered an exception:"
                        (Some (ResultFactoryOf "work")))) /\
  fst (run_flow_sync Stub.accepting None
                     (plain_def_under_run_flow_sync
                        (Stub.work true Stub.always_raises))
                     None (Some (Stub.x_is (VInt 1))) state_ 3 Stub.idle)
    = Return (RState (exception_to_failed_state Stub.boom
                        "Flow run encountered an exception:"
                        (Some (ResultFactoryOf "work")))).
Proof. split; reflexivity. Qed.


(* ================================================================== *)
(** * The further properties on the stubs *)
(* ================================================================== *)

Lemma stub_with_reachable answer : reachable (Stub.server_with answer).
Proof. intros w. exists Stub.the_client, w. reflexivity. Qed.

Lemma stub_with_record_available answer e :
  record_available (Stub.server_with answer) e.
Proof.
  intros _. split; [split | ].
  - intros c req w. exists (Stub.task_run_of req), w. reflexivity.
  - intros c req w. exists (Stub.flow_run_of req), w. reflexivity.
  - intros exc E. cbn in E. inversion E. reflexivity.
Qed.

Lemma losing_completed_accepts_running :
  accepts_running Stub.losing_completed.
Proof. intros c id w. exists w. reflexivity. Qed.

Lemma losing_completed_accepts_failed : accepts_failed Stub.losing_completed.
Proof.
  intros c s id w H. exists w. unfold Stub.losing_completed.
  cbn. rewrite H. reflexivity.
Qed.

Lemma losing_completed_refuses_completed :
  refuses_completed Stub.losing_completed Stub.gone.
Proof. intros c id w. exists w. reflexivity. Qed.

Lemma holding_answers_pending : answers_failed_with Stub.holding Pending.
Proof. intros c s id w H. exists w. cbn. rewrite H. reflexivity. Qed.

Lemma rerunning_answers_running : answers_failed_with Stub.rerunning Running.
Proof. intros c s id w H. exists w. cbn. rewrite H. reflexivity. Qed.

Lemma overruling_accepts_running : accepts_running Stub.overruling.
Proof. intros c id w. exists w. reflexivity. Qed.

Lemma overruling_answers_crashed :
  answers_completed_with Stub.overruling Stub.Crashed.
Proof. intros c id w. exists w. reflexivity. Qed.

Lemma add_one_returns_none w :
  exists w', Stub.add_one Stub.not_an_int_given w = (inr VNone, w').
Proof. exists (S w). reflexivity. Qed.

Lemma retrying_accepts_running : accepts_running Stub.retrying.
Proof. intros c id w. exists w. reflexivity. Qed.

Lemma retrying_answers_retrying :
  answers_failed_with Stub.retrying Stub.Retrying.
Proof.
  intros c s id w H. exists w. cbn. unfold Stub.grant_retry. rewrite H.
  reflexivity.
Qed.

(** X3 on a short-circuited engine whose record is RUNNING: the body
    calls the callable and returns, and has sent nothing. *)
Lemma short_circuited_driver_body_is_silent_witness :
  silent Stub.halted_running
         (snd (run_body Stub.accepting result_ 3 Stub.halted_running)) /\
  silent Stub.halted_running
         (snd (run_body_sync Stub.accepting result_ 3 Stub.halted_running)).
Proof.
  exact (@short_circuited_driver_body_is_silent nat Stub.accepting result_ 3
           Stub.halted_running eq_refl).
Defined.

(** X9 with no server to connect to. *)
Lemma connection_failure_propagates_witness :
  run_flow Stub.unreachable asyncio (Stub.work true Stub.add_one) None
           (Some (Stub.x_is (VInt 1))) result_ 1 Stub.idle
    = (Raise Stub.gone,
       mkMachine (new_engine (Stub.work true Stub.add_one)
                             (Some (Stub.x_is (VInt 1))) None)
                 0 (contexts Stub.idle) (trace Stub.idle)) /\
  run_flow_sync Stub.unreachable None (Stub.work true Stub.add_one) None
                (Some (Stub.x_is (VInt 1))) result_ 1 Stub.idle
    = (Raise Stub.gone,
       mkMachine (new_engine (Stub.work true Stub.add_one)
                             (Some (Stub.x_is (VInt 1))) None)
                 0 (contexts Stub.idle) (trace Stub.idle)).
Proof.
  exact (@connection_failure_propagates nat Stub.unreachable asyncio None
           (Stub.work true Stub.add_one) None (Some (Stub.x_is (VInt 1)))
           result_ 1 Stub.idle Stub.gone 0 eq_refl).
Defined.

(** X10 on the work that adds one. *)
Lemma run_flow_returns_the_completed_state_witness :
  exists m',
    run_flow Stub.accepting asyncio (Stub.work true Stub.add_one) None
             (Some (Stub.x_is (VInt 1))) state_ 1 Stub.idle
      = (Return (RState Completed), m') /\
    durable_state m' = Some Completed /\
    count (@is_call nat) (trace m')
      = S (count (@is_call nat) (trace Stub.idle)) /\
    fst (run_flow_sync Stub.accepting None (Stub.work true Stub.add_one) None
                       (Some (Stub.x_is (VInt 1))) state_ 1 Stub.idle)
      = Return (RState Completed).
Proof.
  exact (@run_flow_returns_the_completed_state nat Stub.accepting asyncio None
           (Stub.work true Stub.add_one) None (Some (Stub.x_is (VInt 1)))
           (Stub.x_is (VInt 1)) (VInt 2) 0 Stub.idle
           (stub_reachable _ _) (stub_accepts_proposals _)
           (stub_record_available _ _) eq_refl add_one_returns).
Defined.

(** X11 on a server that drops the connection when COMPLETED is
    proposed. *)
Lemma failure_to_record_success_fails_the_run_witness :
  exists m',
    run_flow Stub.losing_completed asyncio (Stub.work true Stub.add_one) None
             (Some (Stub.x_is (VInt 1))) result_ 1 Stub.idle
      = (Raise (ExcFrom FailedRunError "Flow run encountered an exception:"
                        Stub.gone), m') /\
    durable_state m'
      = Some (exception_to_failed_state Stub.gone
                "Flow run encountered an exception:"
                (Some (ResultFactoryOf "work"))) /\
    count (@is_call nat) (trace m')
      = S (count (@is_call nat) (trace Stub.idle)).
Proof.
  exact (@failure_to_record_success_fails_the_run nat Stub.losing_completed
           asyncio (Stub.work true Stub.add_one) None
           (Some (Stub.x_is (VInt 1))) (Stub.x_is (VInt 1)) (VInt 2)
           Stub.gone result_ 0 Stub.idle
           (stub_with_reachable _) losing_completed_accepts_running
           losing_completed_accepts_failed losing_completed_refuses_completed
           (stub_with_record_available _ _) eq_refl add_one_returns).
Defined.

(** X12 on the idle engine and an accepting server. *)
Lemma scope_yields_a_prepared_engine_witness :
  exists c run fr,
    parameters run = Stub.x_is (VInt 1) /\
    flow_run run = Some fr /\
    short_circuit run = false /\
    flow run = Stub.work true Stub.add_one /\
    (exists ctx m',
        start Stub.accepting asyncio (@probe nat) Stub.idle
          = (Return (Some c, c, run, Some ctx), m') /\
        ctx_parameters ctx = Stub.x_is (VInt 1) /\
        ctx_flow_run ctx = Some fr /\
        ctx_client ctx = c /\
        ctx_background_tasks ctx = BackendTaskGroup asyncio) /\
    (exists ctx m',
        start_sync Stub.accepting None (@probe nat) Stub.idle
          = (Return (Some c, c, run, Some ctx), m') /\
        ctx_parameters ctx = Stub.x_is (VInt 1) /\
        ctx_flow_run ctx = Some fr /\
        ctx_client ctx = c /\
        ctx_background_tasks ctx = create_task_group_or_fallback None).
Proof.
  exact (@scope_yields_a_prepared_engine nat Stub.accepting asyncio None
           (Stub.work true Stub.add_one) None (Some (Stub.x_is (VInt 1)))
           (Stub.x_is (VInt 1)) Stub.idle
           (stub_reachable _ _) (stub_record_available _ _) eq_refl).
Defined.

(** X13 on a server that answers a proposed FAILED with PENDING. *)
Lemma validation_failure_answered_pending_never_ends_witness :
  exists m',
    run_flow Stub.holding asyncio (Stub.work true Stub.add_one) None
             (Some Stub.not_an_int_given) result_ 7 Stub.idle
      = (OutOfFuel, m') /\
    count (@is_sleep nat) (trace m')
      = count (@is_sleep nat) (trace Stub.idle) + 7 /\
    count (@is_call nat) (trace m') = count (@is_call nat) (trace Stub.idle).
Proof.
  exact (@validation_failure_answered_pending_never_ends nat Stub.holding
           asyncio (Stub.work true Stub.add_one) None
           (Some Stub.not_an_int_given) Stub.not_an_int Pending result_ 7
           Stub.idle
           (stub_reachable _ _) (stub_record_available _ _) eq_refl eq_refl
           holding_answers_pending eq_refl).
Defined.

(** X14 on a server that answers a proposed FAILED with RUNNING. *)
Lemma validation_failure_answered_running_runs_unvalidated_witness :
  (exists m',
      run_flow Stub.rerunning asyncio (Stub.work true Stub.add_one) None
               (Some Stub.not_an_int_given) result_ 4 Stub.idle
        = (Return (RValue VNone), m') /\
      option_map fr_state (flow_run (self m')) = Some Running /\
      count (@is_call nat) (trace m')
        = count (@is_call nat) (trace Stub.idle) + 1) /\
  (exists m',
      run_flow Stub.rerunning asyncio (Stub.work true Stub.add_one) None
               (Some Stub.not_an_int_given) state_ 3 Stub.idle
        = (OutOfFuel, m') /\
      count (@is_call nat) (trace m')
        = count (@is_call nat) (trace Stub.idle) + 3).
Proof.
  exact (@validation_failure_answered_running_runs_unvalidated nat
           Stub.rerunning asyncio (Stub.work true Stub.add_one) None
           (Some Stub.not_an_int_given) Stub.not_an_int Running VNone 3
           Stub.idle
           (stub_reachable _ _) (stub_record_available _ _) eq_refl eq_refl
           rerunning_answers_running eq_refl add_one_returns_none).
Defined.

(** X15 on the work that adds one: COMPLETED is what comes back. *)
Lemma drivers_never_return_a_running_state_witness :
  exists s,
    RState Completed = RState s /\
    State_is_running s = false /\
    option_map fr_state (flow_run (self Stub.finished)) = Some s.
Proof.
  apply (@drivers_never_return_a_running_state nat Stub.accepting asyncio None
           (Stub.work true Stub.add_one) None (Some (Stub.x_is (VInt 1)))
           1 Stub.idle (RState Completed) Stub.finished).
  left. reflexivity.
Defined.

(** X16 on a server that answers a proposed COMPLETED with CRASHED. *)
Lemma result_is_returned_whatever_completed_is_answered_witness :
  exists m',
    run_flow Stub.overruling asyncio (Stub.work true Stub.add_one) None
             (Some (Stub.x_is (VInt 1))) result_ 1 Stub.idle
      = (Return (RValue (VInt 2)), m') /\
    durable_state m' = Some Stub.Crashed /\
    count (@is_call nat) (trace m')
      = S (count (@is_call nat) (trace Stub.idle)) /\
    fst (run_flow_sync Stub.overruling None (Stub.work true Stub.add_one)
                       None (Some (Stub.x_is (VInt 1))) result_ 1 Stub.idle)
      = Return (RValue (VInt 2)).
Proof.
  exact (@result_is_returned_whatever_completed_is_answered nat
           Stub.overruling asyncio None (Stub.work true Stub.add_one) None
           (Some (Stub.x_is (VInt 1))) (Stub.x_is (VInt 1)) Stub.Crashed
           (VInt 2) 0 Stub.idle
           (stub_reachable _ _) overruling_accepts_running
           overruling_answers_crashed (stub_record_available _ _) eq_refl
           add_one_returns).
Defined.

(** X18 on an engine that was given neither a run record nor a client. *)
Lemma no_run_record_nothing_is_proposed_witness :
  is_running Stub.blank = (Return false, Stub.blank) /\
  is_pending Stub.blank = (Return false, Stub.blank) /\
  (exists err, state Stub.blank = (Raise err, Stub.blank)) /\
  (exists err, result true Stub.blank = (Raise err, Stub.blank)) /\
  (exists err,
      set_state Stub.accepting Running Stub.blank = (Raise err, Stub.blank)) /\
  (exists err, begin_run Stub.accepting Stub.blank = (Raise err, Stub.blank)) /\
  (exists err,
      handle_success Stub.accepting (VInt 2) Stub.blank
        = (Raise err, Stub.blank)) /\
  (exists err,
      handle_exception Stub.accepting Stub.boom None None Stub.blank
        = (Raise err, Stub.blank)).
Proof.
  exact (@no_run_record_nothing_is_proposed nat Stub.accepting Stub.blank
           Running (VInt 2) Stub.boom None None true eq_refl).
Defined.

(** X21 on a server that grants a retry for every failure and a
    callable that always raises. *)
Lemma collaborator_alone_ends_the_retries_witness :
  exists m',
    run_flow Stub.retrying asyncio (Stub.work true Stub.always_raises) None
             (Some (Stub.x_is (VInt 1))) result_ 6 Stub.idle
      = (OutOfFuel, m') /\
    count (@is_call nat) (trace m')
      = count (@is_call nat) (trace Stub.idle) + 6 /\
    count (@is_sleep nat) (trace m') = count (@is_sleep nat) (trace Stub.idle).
Proof.
  exact (@collaborator_alone_ends_the_retries nat Stub.retrying asyncio
           (Stub.work true Stub.always_raises) None
           (Some (Stub.x_is (VInt 1))) (Stub.x_is (VInt 1)) Stub.boom
           Stub.Retrying result_ 6 Stub.idle
           (stub_reachable _ _) retrying_accepts_running
           retrying_answers_retrying eq_refl (stub_record_available _ _)
           eq_refl (always_raises_raises (Stub.x_is (VInt 1)))).
Defined.

(** X19 inside a context that carries no run record: the child task run
    is requested with no run id, and the run record with the child's id
    as parent. *)
Example nested_in_a_bare_context :
  trace (snd (create_flow_run Stub.accepting Stub.the_client
                              Stub.nested_bare))
    = [EvCreateTaskRun
         (mkTaskRunCreate
            (mkTask "work" Stub.add_one None) None "0" [("x", [])] Pending);
       EvCreateFlowRun
         (mkFlowRunCreate (Stub.work true Stub.add_one) None
                          (Stub.x_is (VInt 1)) Pending (Some 7%N))].
Proof. reflexivity. Qed.
